(** * vectras/agents/github.py: the GitHub agent's repository operations

    A shallow embedding of [src/vectras/agents/github.py]: the
    [GitHubIntegration] client (branch creation, commit, tree building,
    pull-request creation), the tools built on it, and the local change
    detector.

    Modelling conventions.
    - Python [str] and [bytes] values are [string]s; one [ascii] stands for
      one character (code points below 256).
    - Decoded JSON bodies are values of [json]; numbers are integers.
    - An f-string is kept as the list of its pieces ([fstring]): literal text
      and the interpolated values, so that no rendering of [str(value)] for
      an arbitrary JSON value or exception has to be invented.
    - The remote service is a transition system [send] over an arbitrary
      state space [World]; every HTTP call of the code is one [send].
    - An [async def] is a computation in the monad [M]: it threads the world,
      appends to the chronological list of observable events (HTTP calls with
      their outcome, and [print]ed lines), and returns a value or raises a
      Python [Exception].  What [except Exception] does not catch
      (cancellation of the task, interpreter exit) is outside the model.
    - The local machine ([Local]) is read, never written, by this module:
      the working directory, the files, [git status] and the clock are a
      snapshot for the duration of one operation. *)

From Stdlib Require Import List String Ascii ZArith Lia Bool Arith.
Set Warnings "-register-all".
Import ListNotations.
Open Scope string_scope.
Open Scope list_scope.
Open Scope Z_scope.

Notation "a ^^ b" := (String.append a b) (at level 60, right associativity).

(** ** Python values *)

Inductive json : Type :=
| JNull
| JBool (b : bool)
| JNum (n : Z)
| JStr (s : string)
| JArr (items : list json)
| JObj (fields : list (string * json)).

(** [bool(v)]: Python truthiness of a decoded JSON value. *)
Definition truthy (v : json) : bool :=
  match v with
  | JNull => false
  | JBool b => b
  | JNum n => negb (n =? 0)
  | JStr s => negb (s =? "")%string
  | JArr l => match l with [] => false | _ => true end
  | JObj l => match l with [] => false | _ => true end
  end.

(** [v == s] for a [str] [s]: only an equal string compares equal. *)
Definition eq_str (v : json) (s : string) : bool :=
  match v with
  | JStr t => (t =? s)%string
  | _ => false
  end.

Fixpoint lookup (k : string) (l : list (string * json)) : option json :=
  match l with
  | [] => None
  | (k', v) :: r => if (k' =? k)%string then Some v else lookup k r
  end.

(** Python exceptions (all subclasses of [Exception]). *)
Inductive exn : Type :=
| RequestError (msg : string)                  (* httpx transport failure *)
| HTTPStatusError (status : Z) (text : string) (* raise_for_status *)
| JSONDecodeError
| KeyError (k : string)
| TypeError
| AttributeError
| OSError (msg : string)
| OtherError (msg : string).

Inductive res (A : Type) : Type :=
| Ok (a : A)
| Raised (e : exn).
Arguments Ok {A} a.
Arguments Raised {A} e.

(** [v[k]] for a [str] key [k]. *)
Definition subscript (v : json) (k : string) : res json :=
  match v with
  | JObj l => match lookup k l with
              | Some x => Ok x
              | None => Raised (KeyError k)
              end
  | _ => Raised TypeError
  end.

(** [v.get(k, d)]: only a [dict] has the method. *)
Definition dict_get (v : json) (k : string) (d : json) : res json :=
  match v with
  | JObj l => match lookup k l with
              | Some x => Ok x
              | None => Ok d
              end
  | _ => Raised AttributeError
  end.

Fixpoint is_prefix (p s : string) : bool :=
  match p, s with
  | EmptyString, _ => true
  | String a p', String b s' => (Ascii.eqb a b && is_prefix p' s')%bool
  | String _ _, EmptyString => false
  end.

(** [p in s] for two strings: substring test. *)
Fixpoint contains (p s : string) : bool :=
  match s with
  | EmptyString => is_prefix p s
  | String _ s' => (is_prefix p s || contains p s')%bool
  end.

(** [k in v] for a [str] [k]. *)
Definition py_in (k : string) (v : json) : res bool :=
  match v with
  | JObj l => Ok (match lookup k l with Some _ => true | None => false end)
  | JArr l => Ok (existsb (fun x => eq_str x k) l)
  | JStr s => Ok (contains k s)
  | _ => Raised TypeError
  end.

(** The values a [for] loop over [v] visits. *)
Definition py_iter (v : json) : res (list json) :=
  match v with
  | JArr l => Ok l
  | JObj l => Ok (map (fun kv => JStr (fst kv)) l)
  | JStr s => Ok (map (fun c => JStr (String c EmptyString)) (list_ascii_of_string s))
  | _ => Raised TypeError
  end.

(** ** Formatted strings *)

Inductive frag : Type :=
| Lit (s : string)      (* literal text, or an interpolated [str] *)
| Num (n : Z)           (* an interpolated [int] *)
| Val (v : json)        (* [str(v)] of a decoded JSON value *)
| Err (e : exn).        (* [str(e)] of an exception *)

Definition fstring := list frag.

(** ** HTTP *)

Inductive verb : Type := GET | POST | PATCH.

Record request : Type := mkRequest {
  meth : verb;
  url : fstring;
  headers : list (string * string);
  body : option json
}.

(** [body_json = None]: [response.json()] raises. *)
Record response : Type := mkResponse {
  status_code : Z;
  text : string;
  body_json : option json
}.

Inductive event : Type :=
| Call (rq : request) (out : res response)
| Print (line : fstring).

Definition is_call (e : event) : bool :=
  match e with Call _ _ => true | Print _ => false end.

Definition is_print (e : event) : bool :=
  match e with Call _ _ => false | Print _ => true end.

(** The requests of a run, in order. *)
Fixpoint calls (evs : list event) : list request :=
  match evs with
  | [] => []
  | Call rq _ :: r => rq :: calls r
  | Print _ :: r => calls r
  end.

(** [base64.b64encode(content).decode('utf-8')]. *)
Definition b64_alphabet : string :=
  "ABCDEFGHIJKLMNOPQRSTUVWXYZabcdefghijklmnopqrstuvwxyz0123456789+/".

Definition b64_char (n : N) : ascii :=
  match String.get (N.to_nat n) b64_alphabet with
  | Some c => c
  | None => "="%char
  end.

Fixpoint b64_bytes (l : list N) : string :=
  match l with
  | [] => ""
  | [a] =>
      String (b64_char (N.shiftr a 2))
        (String (b64_char (N.land (N.shiftl a 4) 63)) "==")
  | [a; b] =>
      String (b64_char (N.shiftr a 2))
        (String (b64_char (N.land (N.lor (N.shiftl a 4) (N.shiftr b 4)) 63))
           (String (b64_char (N.land (N.shiftl b 2) 63)) "="))
  | a :: b :: c :: r =>
      String (b64_char (N.shiftr a 2))
        (String (b64_char (N.land (N.lor (N.shiftl a 4) (N.shiftr b 4)) 63))
           (String (b64_char (N.land (N.lor (N.shiftl b 2) (N.shiftr c 6)) 63))
              (String (b64_char (N.land c 63)) (b64_bytes r))))
  end.

Definition b64encode (content : string) : string :=
  b64_bytes (map N_of_ascii (list_ascii_of_string content)).

(** ** The local machine *)

(** [subprocess.run(..., capture_output=True, text=True)]'s result. *)
Record completed : Type := mkCompleted {
  returncode : Z;
  stdout : string;
  stderr : string
}.

(** What the code reads from the machine it runs on.  The working tree is a
    snapshot: it does not change while one operation runs. *)
Record Local : Type := mkLocal {
  getcwd : string;                                   (* os.getcwd() *)
  read_file : json -> string -> res string;          (* open(f"{dir}/{path}", 'rb').read() *)
  path_exists : string -> bool;                      (* os.path.exists(path) *)
  git_status : json -> res completed;                (* git status --porcelain, cwd=dir *)
  now_stamp : string                                 (* datetime.now().strftime('%Y%m%d-%H%M%S') *)
}.

(** ** [class GitHubIntegration] *)

Record GitHubIntegration : Type := mkGitHubIntegration {
  token : string;
  repo_owner : string;
  repo_name : string
}.

Definition base_url (self : GitHubIntegration) : string :=
  "https://api.github.com/repos/" ^^ repo_owner self ^^ "/" ^^ repo_name self.

Definition self_headers (self : GitHubIntegration) : list (string * string) :=
  [("Authorization", "token " ^^ token self);
   ("Accept", "application/vnd.github.v3+json")].

(** An entry of the list [tree_entries]: a dict with exactly these keys. *)
Record tree_entry : Type := mkEntry {
  path : json;
  mode : json;
  type_ : json;
  sha : json
}.

Definition entry_json (e : tree_entry) : json :=
  JObj [("path", path e); ("mode", mode e); ("type", type_ e); ("sha", sha e)].

(** The pictographs that open the tools' messages, byte for byte as the
    source file has them. *)
Definition mark_fail : string := "âŒ".
Definition mark_ok : string := "âœ…".
Definition mark_link : string := "ðŸ”—".
Definition mark_globe : string := "ðŸŒ".
Definition mark_list : string := "ðŸ“‹".
Definition mark_info : string := "â„¹ï¸".

Definition not_configured : fstring :=
  [Lit (mark_fail ^^ " GitHub integration not configured. Please set GITHUB_TOKEN environment variable.")].

(** ** Python string methods *)

Definition nl : string := String "010"%char EmptyString.

(** [c.isspace()], for the characters below 256. *)
Definition is_space (c : ascii) : bool :=
  let n := nat_of_ascii c in
  ((9 <=? n) && (n <=? 13) || (28 <=? n) && (n <=? 32) || (n =? 133) || (n =? 160))%nat%bool.

Fixpoint lstrip (s : string) : string :=
  match s with
  | EmptyString => EmptyString
  | String c r => if is_space c then lstrip r else s
  end.

Fixpoint rstrip (s : string) : string :=
  match s with
  | EmptyString => EmptyString
  | String c r =>
      match rstrip r with
      | EmptyString => if is_space c then EmptyString else String c EmptyString
      | r' => String c r'
      end
  end.

(** [s.strip()]. *)
Definition strip (s : string) : string := rstrip (lstrip s).

(** [s.split('\n')]. *)
Fixpoint split_lines (s : string) : list string :=
  match s with
  | EmptyString => [EmptyString]
  | String c r =>
      if Ascii.eqb c "010"%char then EmptyString :: split_lines r
      else match split_lines r with
           | [] => [String c EmptyString]
           | h :: t => String c h :: t
           end
  end.

(** [s[:n]]. *)
Fixpoint take_chars (n : nat) (s : string) : string :=
  match n, s with
  | S n', String c r => String c (take_chars n' r)
  | _, _ => EmptyString
  end.

(** [s[n:]]. *)
Fixpoint drop_chars (n : nat) (s : string) : string :=
  match n, s with
  | S n', String _ r => drop_chars n' r
  | _, _ => s
  end.

Definition lower_char (c : ascii) : ascii :=
  let n := nat_of_ascii c in
  if ((65 <=? n) && (n <=? 90))%nat%bool then ascii_of_nat (n + 32) else c.

(** [s.lower()], for ASCII letters. *)
Fixpoint lower (s : string) : string :=
  match s with
  | EmptyString => EmptyString
  | String c r => String (lower_char c) (lower r)
  end.

Definition nonempty (s : string) : bool := negb (s =? "")%string.

(** [sep.join(parts)] for formatted strings. *)
Fixpoint join (sep : fstring) (parts : list fstring) : fstring :=
  match parts with
  | [] => []
  | [x] => x
  | x :: r => x ++ sep ++ join sep r
  end.

(** ** Start-up: which repository, and whether the integration is on *)

Definition mark_wrench : string := "ðŸ”§".
Definition mark_warn : string := "âš ï¸".

(** [c in s] for a character. *)
Fixpoint has_char (c : ascii) (s : string) : bool :=
  match s with
  | EmptyString => false
  | String a r => (Ascii.eqb a c || has_char c r)%bool
  end.

(** [s.replace(".git", "")]: the occurrences are removed from left to
    right; [skip] counts the characters of the occurrence being removed that
    are still to come. *)
Fixpoint remove_dot_git_from (skip : nat) (s : string) : string :=
  match s with
  | EmptyString => EmptyString
  | String c r =>
      match skip with
      | S k => remove_dot_git_from k r
      | O =>
          if is_prefix ".git" s then remove_dot_git_from 3 r
          else String c (remove_dot_git_from 0 r)
      end
  end.

Definition remove_dot_git (s : string) : string := remove_dot_git_from 0 s.

(** [s.split(sep)] for a one-character separator. *)
Fixpoint split_on (sep : ascii) (s : string) : list string :=
  match s with
  | EmptyString => [EmptyString]
  | String c r =>
      if Ascii.eqb c sep then EmptyString :: split_on sep r
      else match split_on sep r with
           | [] => [String c EmptyString]
           | h :: t => String c h :: t
           end
  end.

(** [get_current_repo_info], as a function of the outcome of
    [git remote get-url origin]: the lines it prints and the pair it
    returns. *)
Definition get_current_repo_info (remote : res completed)
    : list event * (option string * option string) :=
  match remote with
  | Raised e =>
      ([Print [Lit "DEBUG: Error getting git remote: "; Err e]], (None, None))
  | Ok result =>
      if returncode result =? 0 then
        let remote_url := strip (stdout result) in
        let shown := Print [Lit "DEBUG: Git remote URL: "; Lit remote_url] in
        if contains "github.com" remote_url then
          let parts := split_on "/"%char (remove_dot_git remote_url) in
          match rev parts with
          | repo_ :: owner :: _ =>
              ([shown;
                Print [Lit "DEBUG: Detected repository: "; Lit owner; Lit "/";
                       Lit repo_]],
               (Some owner, Some repo_))
          | _ => ([shown], (None, None))
          end
        else ([shown], (None, None))
      else ([], (None, None))
  end.

(** [bool(v)] for an optional string. *)
Definition set_ (v : option string) : bool :=
  match v with
  | Some s => nonempty s
  | None => false
  end.

(** The string of an optional string that is set. *)
Definition text_of (v : option string) : string :=
  match v with
  | Some s => s
  | None => EmptyString
  end.

(** [f"{v}"] for an optional string. *)
Definition shown_opt (v : option string) : frag :=
  match v with
  | Some s => Lit s
  | None => Val JNull
  end.

(** [initialize_github_integration], as a function of the environment and
    of the outcome of [git remote get-url origin]: the lines it prints and
    the value it gives the global [github_integration]. *)
Definition initialize_github_integration (getenv : string -> option string)
    (remote : res completed) : list event * option GitHubIntegration :=
  let token_ := getenv "GITHUB_TOKEN" in
  let p1 := Print [Lit "DEBUG: GITHUB_TOKEN = ";
                   Lit (if set_ token_ then "SET" else "NOT SET")] in
  let repo_owner_ := getenv "GITHUB_ORG" in
  let repo_name_ := getenv "GITHUB_REPO" in
  let p2 := Print [Lit "DEBUG: Environment variables - GITHUB_ORG: ";
                   shown_opt repo_owner_; Lit ", GITHUB_REPO: ";
                   shown_opt repo_name_] in
  let '(p3, (owner, name)) :=
    if (negb (set_ repo_owner_) || negb (set_ repo_name_))%bool then
      let p := Print [Lit "DEBUG: Environment variables not set, detecting from git remote..."] in
      match get_current_repo_info remote with
      | (lines, (detected_owner, detected_repo)) =>
          if (set_ detected_owner && set_ detected_repo)%bool then
            (p :: lines
             ++ [Print [Lit "DEBUG: Using detected repository: ";
                        Lit (text_of detected_owner); Lit "/";
                        Lit (text_of detected_repo)]],
             (text_of detected_owner, text_of detected_repo))
          else
            (p :: lines
             ++ [Print [Lit "DEBUG: Using fallback repository: ";
                        Lit "maximilien"; Lit "/"; Lit "vectras-ai"]],
             ("maximilien", "vectras-ai"))
      end
    else ([], (text_of repo_owner_, text_of repo_name_)) in
  if set_ token_ then
    (p1 :: p2 :: p3
     ++ [Print [Lit (mark_wrench ^^ " Initialized GitHub integration for ");
                Lit owner; Lit "/"; Lit name]],
     Some (mkGitHubIntegration (text_of token_) owner name))
  else
    (p1 :: p2 :: p3
     ++ [Print [Lit (mark_warn ^^ " No GitHub token found. GitHub integration disabled.")]],
     None).

(** A line of [git status --porcelain]: the two status letters, a blank,
    the path. *)
Definition porcelain_line (code path_ : string) : string :=
  code ^^ " " ^^ path_.

(** The two-letter codes of a path with one status: modified, added or
    deleted in the index or in the working tree, or untracked. *)
Definition single_status (code : string) : Prop :=
  In code [" M"; "M "; " A"; "A "; " D"; "D "; "??"].

(** ** Scripted remotes

    A remote that answers the calls it receives from a fixed list of
    outcomes, one per call, whatever the request: enough to run the model on
    a concrete exchange. *)

Definition Script : Type := list (res response).

Definition play (w : Script) (rq : request) : Script * res response :=
  match w with
  | [] => ([], Raised (RequestError "connection refused"))
  | out :: rest => (rest, out)
  end.

Definition answer (code : Z) (v : json) : res response :=
  Ok (mkResponse code "" (Some v)).

Definition sha_answer (code : Z) (s : string) : res response :=
  answer code (JObj [("sha", JStr s)]).

Definition head_answer (key s : string) : res response :=
  answer 200 (JObj [(key, JObj [("sha", JStr s)])]).

Definition refused : res response := Raised (RequestError "connection refused").

(** A machine on which only the listed files can be read, all with the
    content ["x"], and [git status] prints [listing]. *)
Definition machine (readable_paths : list string) (listing : string) : Local :=
  mkLocal "/work"
    (fun _ p => if existsb (String.eqb p) readable_paths then Ok "x"
                else Raised (OSError p))
    (fun p => existsb (String.eqb p) readable_paths)
    (fun _ => Ok (mkCompleted 0 listing ""))
    "20250101-120000".

Definition repo : GitHubIntegration := mkGitHubIntegration "t0k3n" "octo" "demo".

Definition blob_item (p s : string) : json :=
  JObj [("path", JStr p); ("mode", JStr "100644"); ("type", JStr "blob");
        ("sha", JStr s)].

Definition dir_item (p s : string) : json :=
  JObj [("path", JStr p); ("mode", JStr "040000"); ("type", JStr "tree");
        ("sha", JStr s)].

(** A base tree with two files and a directory, as the recursive listing
    returns it. *)
Definition base_tree : json :=
  JObj [("sha", JStr "t0");
        ("tree", JArr [blob_item "README.md" "b0"; dir_item "src" "d0";
                       blob_item "src/app.py" "b1"])].

Definition work_dir : json := JStr "/work".

(** The answers to one run of [commit_files]: the branch head, its commit,
    no project service, the base tree, the blobs, the new tree, the new
    commit, and the update of the ref. *)
Definition commit_exchange (blobs : list (res response)) (update : res response)
    : Script :=
  [head_answer "object" "c0"; head_answer "tree" "t0"; refused;
   answer 200 base_tree]
  ++ blobs
  ++ [sha_answer 201 "t1"; sha_answer 201 "c1"; update].

(** The answer to the creation of pull request 7. *)
Definition pr_answer : res response :=
  answer 201 (JObj [("number", JNum 7); ("title", JStr "Update docs");
                    ("html_url", JStr "https://github.com/octo/demo/pull/7")]).

(** The answers to one run of the combined workflow: the head of the base
    branch, the new ref, the exchange of the commit, and the outcome of the
    creation of the pull request. *)
Definition workflow_exchange (pr : res response) : Script :=
  [head_answer "object" "c0"; sha_answer 201 "c0"]
  ++ commit_exchange [sha_answer 201 "b2"] (answer 200 JNull)
  ++ [pr].

(** The environment of a process, from the variables that are set. *)
Definition environ (vars : list (string * string)) (k : string) : option string :=
  match find (fun kv => String.eqb (fst kv) k) vars with
  | Some kv => Some (snd kv)
  | None => None
  end.

(** The answer of the project service that names a directory. *)
Definition config_answer (dir : string) : res response :=
  answer 200 (JObj [("project_info", JObj [("directory", JStr dir)])]).

(** ** The monad of an [async def] *)

Section Remote.

Variable World : Type.
Variable send : World -> request -> World * res response.
Variable loc : Local.

Definition M (A : Type) : Type := World -> World * list event * res A.

Definition ret {A : Type} (a : A) : M A := fun w => (w, [], Ok a).

Definition raise {A : Type} (e : exn) : M A := fun w => (w, [], Raised e).

Definition lift {A : Type} (r : res A) : M A := fun w => (w, [], r).

Definition bind {A B : Type} (m : M A) (f : A -> M B) : M B :=
  fun w =>
    match m w with
    | (w1, e1, Ok a) =>
        match f a w1 with
        | (w2, e2, r) => (w2, e1 ++ e2, r)
        end
    | (w1, e1, Raised e) => (w1, e1, Raised e)
    end.

(** [try: m  except Exception as e: h e]. *)
Definition try_except {A : Type} (m : M A) (h : exn -> M A) : M A :=
  fun w =>
    match m w with
    | (w1, e1, Ok a) => (w1, e1, Ok a)
    | (w1, e1, Raised e) =>
        match h e w1 with
        | (w2, e2, r) => (w2, e1 ++ e2, r)
        end
    end.

Definition print (line : fstring) : M unit := fun w => (w, [Print line], Ok tt).

(** [await client.get/post/patch(...)]. *)
Definition http (rq : request) : M response :=
  fun w =>
    match send w rq with
    | (w', out) => (w', [Call rq out], out)
    end.

Notation "x <- m ;; k" := (bind m (fun x => k))
  (at level 61, m at next level, right associativity).
Notation "m ;;; k" := (bind m (fun _ => k))
  (at level 61, right associativity).

(** [response.raise_for_status()]: httpx raises for every status that is not
    a 2xx. *)
Definition raise_for_status (r : response) : M unit :=
  if ((200 <=? status_code r) && (status_code r <=? 299))%bool
  then ret tt
  else raise (HTTPStatusError (status_code r) (text r)).

(** [response.json()]. *)
Definition json_of (r : response) : M json :=
  match body_json r with
  | Some v => ret v
  | None => raise JSONDecodeError
  end.

(** *** [GitHubIntegration.create_branch] *)

(** The requests of lines 42-44 and 50-54. *)
Definition ref_request (self : GitHubIntegration) (base_branch : string) : request :=
  mkRequest GET [Lit (base_url self ^^ "/git/ref/heads/" ^^ base_branch)]
    (self_headers self) None.

Definition create_ref_request (self : GitHubIntegration) (branch_name : string)
    (sha : json) : request :=
  mkRequest POST [Lit (base_url self ^^ "/git/refs")] (self_headers self)
    (Some (JObj [("ref", JStr ("refs/heads/" ^^ branch_name)); ("sha", sha)])).

Definition create_branch (self : GitHubIntegration)
    (branch_name base_branch : string) : M bool :=
  try_except
    (ref_response <- http (ref_request self base_branch) ;;
     raise_for_status ref_response ;;;
     ref_data <- json_of ref_response ;;
     object <- lift (subscript ref_data "object") ;;
     sha <- lift (subscript object "sha") ;;
     create_response <- http (create_ref_request self branch_name sha) ;;
     if status_code create_response =? 201 then ret true
     else
       print [Lit "Failed to create branch: "; Num (status_code create_response);
              Lit " - "; Lit (text create_response)] ;;;
       ret false)
    (fun e => print [Lit "Error creating branch: "; Err e] ;;; ret false).

(** *** [GitHubIntegration._create_tree_with_changes] *)

(** Lines 143-156: the project directory, from the sibling service or the
    process's working directory. *)
Definition project_directory : M json :=
  current_dir <-
    try_except
      (response <- http (mkRequest GET [Lit "http://localhost:8121/config"] [] None) ;;
       if status_code response =? 200 then
         data <- json_of response ;;
         project_info <- lift (dict_get data "project_info" (JObj [])) ;;
         if truthy project_info then
           has <- lift (py_in "directory" project_info) ;;
           if (has : bool) then lift (subscript project_info "directory")
           else ret JNull
         else ret JNull
       else ret JNull)
      (fun e =>
         print [Lit "DEBUG: Error getting project directory from API: "; Err e] ;;;
         ret JNull) ;;
  if negb (truthy current_dir) then ret (JStr (getcwd loc)) else ret current_dir.

(** Lines 170-177: the entries carried over from the base tree. *)
Fixpoint base_entries (items : list json) : res (list tree_entry) :=
  match items with
  | [] => Ok []
  | item :: rest =>
      match subscript item "type" with
      | Raised e => Raised e
      | Ok t =>
          if eq_str t "blob" then
            match subscript item "path" with
            | Raised e => Raised e
            | Ok p =>
                match subscript item "mode" with
                | Raised e => Raised e
                | Ok m =>
                    match subscript item "sha" with
                    | Raised e => Raised e
                    | Ok s =>
                        match base_entries rest with
                        | Raised e => Raised e
                        | Ok l => Ok (mkEntry p m (JStr "blob") s :: l)
                        end
                    end
                end
            end
          else base_entries rest
      end
  end.

(** Lines 204-209: the entry of a changed file. *)
Definition new_entry (file_path : string) (blob_sha : json) : tree_entry :=
  mkEntry (JStr file_path) (JStr "100644") (JStr "blob") blob_sha.

(** Lines 203-209: replace or add the entry of [file_path]. *)
Definition put_entry (tree_entries : list tree_entry) (file_path : string)
    (blob_sha : json) : list tree_entry :=
  filter (fun entry => negb (eq_str (path entry) file_path)) tree_entries
  ++ [new_entry file_path blob_sha].

(** The request of lines 188-196. *)
Definition blob_request (self : GitHubIntegration) (content : string) : request :=
  mkRequest POST [Lit (base_url self ^^ "/git/blobs")] (self_headers self)
    (Some (JObj [("content", JStr (b64encode content)); ("encoding", JStr "base64")])).

(** Lines 181-215: one turn of the loop over [files]. *)
Definition add_file (self : GitHubIntegration) (current_dir : json)
    (tree_entries : list tree_entry) (file_path : string) : M (list tree_entry) :=
  try_except
    (content <- lift (read_file loc current_dir file_path) ;;
     blob_response <- http (blob_request self content) ;;
     if status_code blob_response =? 201 then
       blob_json <- json_of blob_response ;;
       blob_sha <- lift (subscript blob_json "sha") ;;
       print [Lit "DEBUG: Created blob for "; Lit file_path; Lit ": "; Val blob_sha] ;;;
       ret (put_entry tree_entries file_path blob_sha)
     else
       print [Lit "DEBUG: Failed to create blob for "; Lit file_path; Lit ": ";
              Num (status_code blob_response)] ;;;
       ret tree_entries)
    (fun e =>
       print [Lit "DEBUG: Error processing file "; Lit file_path; Lit ": "; Err e] ;;;
       ret tree_entries).

(** Lines 180-215: the loop over [files]. *)
Fixpoint add_files (self : GitHubIntegration) (current_dir : json)
    (files : list string) (tree_entries : list tree_entry) : M (list tree_entry) :=
  match files with
  | [] => ret tree_entries
  | file_path :: rest =>
      tree_entries' <- add_file self current_dir tree_entries file_path ;;
      add_files self current_dir rest tree_entries'
  end.

(** The request of lines 218-223. *)
Definition tree_request (self : GitHubIntegration) (tree_entries : list tree_entry)
    : request :=
  mkRequest POST [Lit (base_url self ^^ "/git/trees")] (self_headers self)
    (Some (JObj [("tree", JArr (map entry_json tree_entries))])).

(** Line 170: the items of [tree_data.get("tree", [])]. *)
Definition tree_items (tree_data : json) : res (list json) :=
  match dict_get tree_data "tree" (JArr []) with
  | Raised e => Raised e
  | Ok tree_list => py_iter tree_list
  end.

(** Lines 167-177: what is kept of the fetched base tree. *)
Definition carried_over (tree_data : json) : res (list tree_entry) :=
  match tree_items tree_data with
  | Raised e => Raised e
  | Ok items => base_entries items
  end.

(** Lines 167-215: the entry list, from the base tree and the files. *)
Definition build_entries (self : GitHubIntegration) (current_dir tree_data : json)
    (files : list string) : M (list tree_entry) :=
  tree_entries <- lift (carried_over tree_data) ;;
  add_files self current_dir files tree_entries.

(** Lines 217-231: the entry list is submitted as one new tree. *)
Definition submit_tree (self : GitHubIntegration) (tree_entries : list tree_entry)
    : M json :=
  tree_response <- http (tree_request self tree_entries) ;;
  if status_code tree_response =? 201 then
    tree_json <- json_of tree_response ;;
    new_tree_sha <- lift (subscript tree_json "sha") ;;
    print [Lit "DEBUG: Created new tree with ";
           Num (Z.of_nat (List.length tree_entries)); Lit " entries: ";
           Val new_tree_sha] ;;;
    ret new_tree_sha
  else
    print [Lit "DEBUG: Failed to create tree: "; Num (status_code tree_response);
           Lit " - "; Lit (text tree_response)] ;;;
    ret JNull.

Definition base_tree_request (self : GitHubIntegration) (base_tree_sha : json)
    : request :=
  mkRequest GET
    [Lit (base_url self ^^ "/git/trees/"); Val base_tree_sha; Lit "?recursive=1"]
    (self_headers self) None.

(** [None] is [JNull], as it is for a decoded JSON [null]. *)
Definition _create_tree_with_changes (self : GitHubIntegration)
    (base_tree_sha : json) (files : list string) : M json :=
  try_except
    (current_dir <- project_directory ;;
     print [Lit "DEBUG: Creating tree with changes in directory: "; Val current_dir] ;;;
     tree_response <- http (base_tree_request self base_tree_sha) ;;
     raise_for_status tree_response ;;;
     tree_data <- json_of tree_response ;;
     tree_entries <- build_entries self current_dir tree_data files ;;
     submit_tree self tree_entries)
    (fun e =>
       print [Lit "DEBUG: Error creating tree with changes: "; Err e] ;;;
       ret JNull).

(** *** [GitHubIntegration.commit_files] *)

Definition commit_request (self : GitHubIntegration) (commit_message : string)
    (new_tree_sha current_commit_sha : json) : request :=
  mkRequest POST [Lit (base_url self ^^ "/git/commits")] (self_headers self)
    (Some (JObj [("message", JStr commit_message); ("tree", new_tree_sha);
                 ("parents", JArr [current_commit_sha])])).

Definition update_ref_request (self : GitHubIntegration) (branch_name : string)
    (new_commit_sha : json) : request :=
  mkRequest PATCH [Lit (base_url self ^^ "/git/refs/heads/" ^^ branch_name)]
    (self_headers self)
    (Some (JObj [("sha", new_commit_sha); ("force", JBool false)])).

Definition commit_files (self : GitHubIntegration) (branch_name : string)
    (files : list string) (commit_message : string) : M bool :=
  try_except
    (let branch_url := [Lit (base_url self ^^ "/git/refs/heads/" ^^ branch_name)] in
     branch_response <- http (mkRequest GET branch_url (self_headers self) None) ;;
     raise_for_status branch_response ;;;
     branch_data <- json_of branch_response ;;
     object <- lift (subscript branch_data "object") ;;
     current_commit_sha <- lift (subscript object "sha") ;;
     print [Lit "DEBUG: Current commit SHA: "; Val current_commit_sha] ;;;
     let commit_url := [Lit (base_url self ^^ "/git/commits/"); Val current_commit_sha] in
     commit_response <- http (mkRequest GET commit_url (self_headers self) None) ;;
     raise_for_status commit_response ;;;
     commit_data <- json_of commit_response ;;
     tree <- lift (subscript commit_data "tree") ;;
     current_tree_sha <- lift (subscript tree "sha") ;;
     print [Lit "DEBUG: Current tree SHA: "; Val current_tree_sha] ;;;
     new_tree_sha <- _create_tree_with_changes self current_tree_sha files ;;
     if negb (truthy new_tree_sha) then
       print [Lit "DEBUG: Failed to create new tree with changes"] ;;;
       ret false
     else
       print [Lit "DEBUG: Created new tree SHA: "; Val new_tree_sha] ;;;
       let new_commit_data :=
         JObj [("message", JStr commit_message); ("tree", new_tree_sha);
               ("parents", JArr [current_commit_sha])] in
       print [Lit "DEBUG: Creating commit with data: "; Val new_commit_data] ;;;
       new_commit_response <-
         http (commit_request self commit_message new_tree_sha current_commit_sha) ;;
       if status_code new_commit_response =? 201 then
         new_commit_json <- json_of new_commit_response ;;
         new_commit_sha <- lift (subscript new_commit_json "sha") ;;
         print [Lit "DEBUG: Created new commit: "; Val new_commit_sha] ;;;
         update_response <- http (update_ref_request self branch_name new_commit_sha) ;;
         if status_code update_response =? 200 then
           print [Lit "DEBUG: Successfully updated branch "; Lit branch_name] ;;;
           ret true
         else
           print [Lit "DEBUG: Failed to update branch: ";
                  Num (status_code update_response); Lit " - ";
                  Lit (text update_response)] ;;;
           ret false
       else
         print [Lit "DEBUG: Failed to create commit: ";
                Num (status_code new_commit_response); Lit " - ";
                Lit (text new_commit_response)] ;;;
         ret false)
    (fun e => print [Lit "DEBUG: Error committing files: "; Err e] ;;; ret false).

(** *** [GitHubIntegration.create_pull_request] *)

Definition pr_request (self : GitHubIntegration) (branch_name title body_ : string)
    : request :=
  mkRequest POST [Lit (base_url self ^^ "/pulls")] (self_headers self)
    (Some (JObj [("title", JStr title); ("body", JStr body_);
                 ("head", JStr branch_name); ("base", JStr "main")])).

Definition create_pull_request (self : GitHubIntegration)
    (branch_name title body_ : string) : M json :=
  try_except
    (response <- http (pr_request self branch_name title body_) ;;
     if status_code response =? 201 then json_of response
     else
       print [Lit "Failed to create PR: "; Num (status_code response); Lit " - ";
              Lit (text response)] ;;;
       ret JNull)
    (fun e => print [Lit "Error creating PR: "; Err e] ;;; ret JNull).

(** ** The tools

    [github_integration] is the module's global: [None] when no token is
    configured. *)

(** The message of the workflow and of the commit tool when the commit
    step failed (lines 286 and 321). *)
Definition commit_failure (branch_name : string) : fstring :=
  [Lit (mark_fail ^^ " Failed to commit files to branch '"); Lit branch_name; Lit "'"].

(** The success message of the commit tool (line 284). *)
Definition commit_success (n : nat) (branch_name : string) : fstring :=
  [Lit (mark_ok ^^ " Successfully committed "); Num (Z.of_nat n);
   Lit " files to branch '"; Lit branch_name; Lit "'"].

Definition create_branch_tool (github_integration : option GitHubIntegration)
    (branch_name base_branch : string) : M fstring :=
  match github_integration with
  | None => ret not_configured
  | Some gi =>
      success <- create_branch gi branch_name base_branch ;;
      if (success : bool) then
        ret [Lit (mark_ok ^^ " Successfully created branch '"); Lit branch_name;
             Lit "' from '"; Lit base_branch; Lit "'"]
      else
        ret [Lit (mark_fail ^^ " Failed to create branch '"); Lit branch_name; Lit "'"]
  end.

Definition commit_files_tool (github_integration : option GitHubIntegration)
    (branch_name : string) (files : list string) (commit_message : string)
    : M fstring :=
  match github_integration with
  | None => ret not_configured
  | Some gi =>
      success <- commit_files gi branch_name files commit_message ;;
      if (success : bool) then ret (commit_success (List.length files) branch_name)
      else ret (commit_failure branch_name)
  end.

Definition create_pull_request_tool (github_integration : option GitHubIntegration)
    (branch_name title body_ : string) : M fstring :=
  match github_integration with
  | None => ret not_configured
  | Some gi =>
      pr_data <- create_pull_request gi branch_name title body_ ;;
      if truthy pr_data then
        number <- lift (subscript pr_data "number") ;;
        pr_title <- lift (subscript pr_data "title") ;;
        html_url <- lift (subscript pr_data "html_url") ;;
        ret [Lit (mark_ok ^^ " Successfully created PR #"); Val number; Lit ": ";
             Val pr_title; Lit (nl ^^ mark_link ^^ " URL: "); Val html_url]
      else
        ret [Lit (mark_fail ^^ " Failed to create PR from branch '");
             Lit branch_name; Lit "'"]
  end.

Definition create_complete_pr_workflow
    (github_integration : option GitHubIntegration) (branch_name : string)
    (files : list string) (commit_message pr_title pr_body : string) : M fstring :=
  match github_integration with
  | None => ret not_configured
  | Some gi =>
      try_except
        (branch_created <- create_branch gi branch_name "main" ;;
         if negb branch_created then
           ret [Lit (mark_fail ^^ " Failed to create branch '"); Lit branch_name;
                Lit "'"]
         else
           files_committed <- commit_files gi branch_name files commit_message ;;
           if negb files_committed then ret (commit_failure branch_name)
           else
             pr_data <- create_pull_request gi branch_name pr_title pr_body ;;
             if truthy pr_data then
               number <- lift (subscript pr_data "number") ;;
               title <- lift (subscript pr_data "title") ;;
               html_url <- lift (subscript pr_data "html_url") ;;
               ret [Lit (mark_ok ^^ " Complete PR workflow successful!" ^^ nl
                         ^^ mark_link ^^ " PR #"); Val number; Lit ": "; Val title;
                    Lit (nl ^^ mark_globe ^^ " URL: "); Val html_url]
             else
               ret [Lit (mark_fail ^^ " Failed to create PR from branch '");
                    Lit branch_name; Lit "'"])
        (fun e => ret [Lit (mark_fail ^^ " Error in PR workflow: "); Err e])
  end.

(** [[f"- {branch['name']}" for branch in branches]]. *)
Fixpoint branch_lines (branches : list json) : res (list fstring) :=
  match branches with
  | [] => Ok []
  | branch :: rest =>
      match subscript branch "name" with
      | Raised e => Raised e
      | Ok name =>
          match branch_lines rest with
          | Raised e => Raised e
          | Ok l => Ok ([Lit "- "; Val name] :: l)
          end
      end
  end.

Definition list_branches (github_integration : option GitHubIntegration) : M fstring :=
  match github_integration with
  | None => ret not_configured
  | Some gi =>
      try_except
        (response <-
           http (mkRequest GET [Lit (base_url gi ^^ "/branches")] (self_headers gi) None) ;;
         raise_for_status response ;;;
         branches <- json_of response ;;
         items <- lift (py_iter branches) ;;
         branch_list <- lift (branch_lines items) ;;
         ret (Lit (mark_list ^^ " Available branches:" ^^ nl) :: join [Lit nl] branch_list))
        (fun e => ret [Lit (mark_fail ^^ " Error listing branches: "); Err e])
  end.

(** No check of [github_integration] here: the tool only looks at local
    paths. *)
Definition validate_files_exist (files : list string) : M fstring :=
  let (existing_files, missing_files) := partition (path_exists loc) files in
  match missing_files with
  | _ :: _ =>
      ret [Lit (mark_fail ^^ " Some files do not exist: ");
           Lit (String.concat ", " missing_files);
           Lit (nl ^^ mark_ok ^^ " Existing files: ");
           Lit (String.concat ", " existing_files)]
  | [] =>
      ret [Lit (mark_ok ^^ " All files exist: "); Lit (String.concat ", " existing_files)]
  end.

(** *** [get_current_changes] *)

(** Lines 386-403. *)
Definition project_directory_logged : M json :=
  current_dir <-
    try_except
      (response <- http (mkRequest GET [Lit "http://localhost:8121/config"] [] None) ;;
       if status_code response =? 200 then
         data <- json_of response ;;
         project_info <- lift (dict_get data "project_info" (JObj [])) ;;
         if truthy project_info then
           has <- lift (py_in "directory" project_info) ;;
           if (has : bool) then
             current_dir <- lift (subscript project_info "directory") ;;
             print [Lit "DEBUG: Using project directory from API: "; Val current_dir] ;;;
             ret current_dir
           else ret JNull
         else ret JNull
       else ret JNull)
      (fun e =>
         print [Lit "DEBUG: Error getting project directory from API: "; Err e] ;;;
         ret JNull) ;;
  if negb (truthy current_dir) then
    print [Lit "DEBUG: Using current working directory: "; Lit (getcwd loc)] ;;;
    ret (JStr (getcwd loc))
  else ret current_dir.

(** Line 419. *)
Definition status_lines (out : string) : list string :=
  if nonempty (strip out) then split_lines (strip out) else [].

(** Line 427: the test on one line of the listing. *)
Definition is_changed (line : string) : bool :=
  let status := strip (take_chars 2 line) in
  ((status =? "M")%string || (status =? "A")%string || (status =? "D")%string
   || is_prefix "??" line)%bool.

(** Lines 421-428. *)
Fixpoint changed_files_of (files : list string) : list string :=
  match files with
  | [] => []
  | line :: rest =>
      if nonempty (strip line) then
        let filename := drop_chars 3 line in
        if is_changed line then filename :: changed_files_of rest
        else changed_files_of rest
      else changed_files_of rest
  end.

(** Lines 436-451: branch name, commit message and PR title. *)
Definition infer_details (changed_files : list string) (timestamp : string)
    : string * string * string :=
  if existsb (fun f => (contains "lint" (lower f) || contains "format" (lower f))%bool)
       changed_files
  then ("fix-linting-" ^^ timestamp, "fix(linting): auto-fix linting issues",
        "Auto-fix linting issues")
  else if existsb (fun f => contains "test" (lower f)) changed_files
  then ("feat-testing-" ^^ timestamp, "feat(testing): add test improvements",
        "Add test improvements")
  else if existsb (fun f => (contains "doc" (lower f) || contains "readme" (lower f))%bool)
            changed_files
  then ("docs-update-" ^^ timestamp, "docs: update documentation",
        "Update documentation")
  else ("fix-changes-" ^^ timestamp, "fix: resolve issues", "Fix issues").

Definition no_changes : fstring :=
  [Lit (mark_info ^^ " No changes detected in current project.")].

Definition changes_report (changed_files : list string) (timestamp : string) : fstring :=
  match infer_details changed_files timestamp with
  | (branch_name, commit_msg, pr_title) =>
      [Lit ("Current project changes detected:" ^^ nl ^^ nl ^^ "Branch: ");
       Lit branch_name;
       Lit (nl ^^ "Changed files: "); Lit (String.concat ", " changed_files);
       Lit (nl ^^ "Commit message: "); Lit commit_msg;
       Lit (nl ^^ "PR title: "); Lit pr_title;
       Lit (nl ^^ nl ^^ "Ready to create PR with these details.")]
  end.

Definition get_current_changes (github_integration : option GitHubIntegration)
    : M fstring :=
  match github_integration with
  | None => ret not_configured
  | Some _ =>
      try_except
        (current_dir <- project_directory_logged ;;
         print [Lit "DEBUG: Checking git status in directory: "; Val current_dir] ;;;
         result <- lift (git_status loc current_dir) ;;
         print [Lit "DEBUG: Git status result: "; Num (returncode result)] ;;;
         print [Lit "DEBUG: Git status stdout: "; Lit (stdout result)] ;;;
         print [Lit "DEBUG: Git status stderr: "; Lit (stderr result)] ;;;
         if returncode result =? 0 then
           let files := status_lines (stdout result) in
           match files with
           | first :: _ =>
               if nonempty first then
                 let changed_files := changed_files_of files in
                 match changed_files with
                 | _ :: _ => ret (changes_report changed_files (now_stamp loc))
                 | [] => ret no_changes
                 end
               else ret no_changes
           | [] => ret no_changes
           end
         else
           ret [Lit (mark_fail ^^ " Could not check git status: "); Lit (stderr result)])
        (fun e => ret [Lit (mark_fail ^^ " Error checking current changes: "); Err e])
  end.

(** *** [get_repository_status] *)

(** [v[:3]], as the values a loop over it visits. *)
Definition first_three (v : json) : res (list json) :=
  match v with
  | JArr l => Ok (firstn 3 l)
  | JStr s => Ok (map (fun c => JStr (String c EmptyString))
                    (firstn 3 (list_ascii_of_string s)))
  | _ => Raised TypeError
  end.

(** Lines 505-506. *)
Fixpoint pr_lines (prs : list json) : res fstring :=
  match prs with
  | [] => Ok []
  | pr :: rest =>
      match subscript pr "number" with
      | Raised e => Raised e
      | Ok number =>
          match subscript pr "title" with
          | Raised e => Raised e
          | Ok title =>
              match subscript pr "state" with
              | Raised e => Raised e
              | Ok state =>
                  match pr_lines rest with
                  | Raised e => Raised e
                  | Ok l =>
                      Ok ([Lit (nl ^^ "- #"); Val number; Lit ": "; Val title;
                           Lit " ("; Val state; Lit ")"] ++ l)
                  end
              end
          end
      end
  end.

Definition get_repository_status (github_integration : option GitHubIntegration)
    : M fstring :=
  match github_integration with
  | None => ret not_configured
  | Some gi =>
      try_except
        (repo_response <-
           http (mkRequest GET [Lit (base_url gi)] (self_headers gi) None) ;;
         raise_for_status repo_response ;;;
         repo_data <- json_of repo_response ;;
         prs_response <-
           http (mkRequest GET [Lit (base_url gi ^^ "/pulls?state=all&per_page=5")]
                   (self_headers gi) None) ;;
         raise_for_status prs_response ;;;
         prs_data <- json_of prs_response ;;
         full_name <- lift (subscript repo_data "full_name") ;;
         description <- lift (dict_get repo_data "description" (JStr "No description")) ;;
         default_branch <- lift (subscript repo_data "default_branch") ;;
         stargazers_count <- lift (subscript repo_data "stargazers_count") ;;
         forks_count <- lift (subscript repo_data "forks_count") ;;
         open_issues_count <- lift (subscript repo_data "open_issues_count") ;;
         let status :=
           [Lit ("## GitHub Repository Status" ^^ nl ^^ nl ^^ "**Repository:** ");
            Val full_name;
            Lit (nl ^^ "**Description:** "); Val description;
            Lit (nl ^^ "**Default Branch:** "); Val default_branch;
            Lit (nl ^^ "**Stars:** "); Val stargazers_count;
            Lit (nl ^^ "**Forks:** "); Val forks_count;
            Lit (nl ^^ "**Open Issues:** "); Val open_issues_count;
            Lit (nl ^^ nl ^^ "**Recent Pull Requests:**")] in
         if truthy prs_data then
           prs <- lift (first_three prs_data) ;;
           lines <- lift (pr_lines prs) ;;
           ret (status ++ lines)
         else ret (status ++ [Lit (nl ^^ "- No pull requests found")]))
        (fun e =>
           match e with
           | HTTPStatusError code txt =>
               if code =? 404 then
                 ret [Lit (mark_fail ^^ " Repository not found. Please check if the repository exists and you have access to it.")]
               else if code =? 401 then
                 ret [Lit (mark_fail ^^ " Authentication failed. Please check your GitHub token.")]
               else if code =? 403 then
                 ret [Lit (mark_fail ^^ " Access forbidden. Please check your GitHub token permissions.")]
               else ret [Lit (mark_fail ^^ " HTTP error "); Num code; Lit ": "; Lit txt]
           | RequestError _ => ret [Lit (mark_fail ^^ " Network error: "); Err e]
           | _ => ret [Lit (mark_fail ^^ " Error getting repository status: "); Err e]
           end)
  end.

(** [tools=[...]] of the agent: the operations a caller can invoke. *)
Inductive tool_call : Type :=
| CreateBranch (branch_name base_branch : string)
| CommitFiles (branch_name : string) (files : list string) (commit_message : string)
| CreatePullRequest (branch_name title body_ : string)
| CreateCompletePrWorkflow (branch_name : string) (files : list string)
    (commit_message pr_title pr_body : string)
| ValidateFilesExist (files : list string)
| ListBranches
| GetRepositoryStatus
| GetCurrentChanges.

Definition run_tool (github_integration : option GitHubIntegration)
    (c : tool_call) : M fstring :=
  match c with
  | CreateBranch b base => create_branch_tool github_integration b base
  | CommitFiles b files m => commit_files_tool github_integration b files m
  | CreatePullRequest b t d => create_pull_request_tool github_integration b t d
  | CreateCompletePrWorkflow b files m t d =>
      create_complete_pr_workflow github_integration b files m t d
  | ValidateFilesExist files => validate_files_exist files
  | ListBranches => list_branches github_integration
  | GetRepositoryStatus => get_repository_status github_integration
  | GetCurrentChanges => get_current_changes github_integration
  end.

(** ** Reasoning about runs *)

(** A response the caller counts as a failure of the call: no response at
    all, or a status outside 200..299. *)
Definition failed (out : res response) : bool :=
  match out with
  | Raised _ => true
  | Ok r => negb ((200 <=? status_code r) && (status_code r <=? 299))
  end.

(** Every event of every run of [m] satisfies [P]. *)
Definition emits {A : Type} (P : event -> Prop) (m : M A) : Prop :=
  forall w w' evs r, m w = (w', evs, r) -> Forall P evs.

(** No run of [m] raises. *)
Definition safe {A : Type} (m : M A) : Prop :=
  forall w, exists w' evs a, m w = (w', evs, Ok a).

(** [open(f"{current_dir}/{file_path}", 'rb')] succeeds. *)
Definition readable (current_dir : json) (file_path : string) : bool :=
  match read_file loc current_dir file_path with
  | Ok _ => true
  | Raised _ => false
  end.

(** What one turn of the loop over [files] obtains for [file_path]: the
    blob created from its content, or nothing when the turn is skipped.
    It is [add_file] without the update of the entry list. *)
Definition upload_blob (self : GitHubIntegration) (current_dir : json)
    (file_path : string) : M (option json) :=
  try_except
    (content <- lift (read_file loc current_dir file_path) ;;
     blob_response <- http (blob_request self content) ;;
     if status_code blob_response =? 201 then
       blob_json <- json_of blob_response ;;
       blob_sha <- lift (subscript blob_json "sha") ;;
       print [Lit "DEBUG: Created blob for "; Lit file_path; Lit ": "; Val blob_sha] ;;;
       ret (Some blob_sha)
     else
       print [Lit "DEBUG: Failed to create blob for "; Lit file_path; Lit ": ";
              Num (status_code blob_response)] ;;;
       ret None)
    (fun e =>
       print [Lit "DEBUG: Error processing file "; Lit file_path; Lit ": "; Err e] ;;;
       ret None).

(** The blobs obtained for the supplied paths, occurrence by occurrence. *)
Fixpoint uploads (self : GitHubIntegration) (current_dir : json)
    (files : list string) : M (list (string * option json)) :=
  match files with
  | [] => ret []
  | file_path :: rest =>
      blob <- upload_blob self current_dir file_path ;;
      l <- uploads self current_dir rest ;;
      ret ((file_path, blob) :: l)
  end.

(** The entry list after the assignments of [ups], in order. *)
Definition assign (tree_entries : list tree_entry) (u : string * option json)
    : list tree_entry :=
  match snd u with
  | Some blob_sha => put_entry tree_entries (fst u) blob_sha
  | None => tree_entries
  end.

Definition assign_all (tree_entries : list tree_entry)
    (ups : list (string * option json)) : list tree_entry :=
  fold_left assign ups tree_entries.

(** The calls of a run with their outcomes, without the printed lines. *)
Definition exchanges (evs : list event) : list event := filter is_call evs.

(** [item["type"] == "blob"] holds. *)
Definition is_blob_item (item : json) : bool :=
  match subscript item "type" with
  | Ok t => eq_str t "blob"
  | Raised _ => false
  end.

Definition field (item : json) (k : string) : json :=
  match subscript item k with
  | Ok v => v
  | Raised _ => JNull
  end.

(** The entry made of a blob item of the base tree. *)
Definition entry_of_item (item : json) : tree_entry :=
  mkEntry (field item "path") (field item "mode") (JStr "blob") (field item "sha").

(** The calls the tree builder makes: reads, blob creations, and the
    creation of the tree. *)
Definition tree_builder_call (self : GitHubIntegration) (rq : request) : Prop :=
  meth rq = GET
  \/ (exists content, rq = blob_request self content)
  \/ (exists tree_entries, rq = tree_request self tree_entries).

Definition tree_builder_event (self : GitHubIntegration) (e : event) : Prop :=
  match e with
  | Call rq _ => tree_builder_call self rq
  | Print _ => True
  end.

(** The events of the loop over the files: blob creations and lines. *)
Definition blob_event (self : GitHubIntegration) (e : event) : Prop :=
  match e with
  | Call rq _ => exists content, rq = blob_request self content
  | Print _ => True
  end.

(** The events of the lookup of the project directory: a read and lines. *)
Definition read_event (e : event) : Prop :=
  match e with
  | Call rq _ => meth rq = GET
  | Print _ => True
  end.

(** A request that creates a tree. *)
Definition is_tree_creation (self : GitHubIntegration) (rq : request) : Prop :=
  meth rq = POST /\ url rq = [Lit (base_url self ^^ "/git/trees")].

(** A request that moves a branch: the only [PATCH] of the client. *)
Definition is_ref_update (rq : request) : Prop := meth rq = PATCH.

(** A request that creates a pull request. *)
Definition is_pr_creation (self : GitHubIntegration) (rq : request) : Prop :=
  meth rq = POST /\ url rq = [Lit (base_url self ^^ "/pulls")].

(** A request that creates a commit. *)
Definition is_commit_creation (self : GitHubIntegration) (rq : request) : Prop :=
  meth rq = POST /\ url rq = [Lit (base_url self ^^ "/git/commits")].

Definition no_ref_update (evs : list event) : Prop :=
  forall rq out, In (Call rq out) evs -> ~ is_ref_update rq.

Definition no_pr_creation (self : GitHubIntegration) (evs : list event) : Prop :=
  forall rq out, In (Call rq out) evs -> ~ is_pr_creation self rq.

(** Only printed lines, no call. *)
Definition silent (evs : list event) : Prop :=
  forall rq out, ~ In (Call rq out) evs.

(** Some call of [evs] created a commit: it was answered 201. *)
Definition commit_created (self : GitHubIntegration) (evs : list event) : Prop :=
  exists rq rsp,
    In (Call rq (Ok rsp)) evs /\ is_commit_creation self rq /\ status_code rsp = 201.

(** [sha] is the ["sha"] of the decoded body of [rsp]. *)
Definition body_sha (rsp : response) (sha : json) : Prop :=
  exists v, body_json rsp = Some v /\ subscript v "sha" = Ok sha.

(** The update of a branch is refused: no answer, or an answer other than
    200. *)
Definition refused_update (out : res response) : Prop :=
  match out with
  | Ok u => status_code u <> 200
  | Raised _ => True
  end.

Definition not_pr_creation (self : GitHubIntegration) (e : event) : Prop :=
  match e with
  | Call rq _ => ~ is_pr_creation self rq
  | Print _ => True
  end.

(** [sha] is [data["object"]["sha"]] of the decoded body of [rsp]. *)
Definition head_sha (rsp : response) (sha : json) : Prop :=
  exists v object,
    body_json rsp = Some v
    /\ subscript v "object" = Ok object
    /\ subscript object "sha" = Ok sha.

(** The read of the branch head that opens [commit_files] (lines 72-73). *)
Definition branch_head_request (self : GitHubIntegration) (branch_name : string)
    : request :=
  mkRequest GET [Lit (base_url self ^^ "/git/refs/heads/" ^^ branch_name)]
    (self_headers self) None.

(** The read of the project service (lines 145 and 389). *)
Definition config_request : request :=
  mkRequest GET [Lit "http://localhost:8121/config"] [] None.

(** What [create_pull_request] returns for the outcome of its one call. *)
Definition pr_result (out : res response) : json :=
  match out with
  | Ok rsp =>
      if status_code rsp =? 201 then
        match body_json rsp with
        | Some v => v
        | None => JNull
        end
      else JNull
  | Raised _ => JNull
  end.

(** The only call of the change detector: the read of the project service. *)
Definition config_event (e : event) : Prop :=
  match e with
  | Call rq _ => rq = config_request
  | Print _ => True
  end.

(** The line the loop over the files prints when a blob was created for
    [file_path] (line 200). *)
Definition created_line (file_path : string) (blob_sha : json) : event :=
  Print [Lit "DEBUG: Created blob for "; Lit file_path; Lit ": "; Val blob_sha].

(** The path and the blob of such a line. *)
Definition blob_line (e : event) : option (string * json) :=
  match e with
  | Print [Lit l; Lit f; Lit m; Val s] =>
      if (String.eqb l "DEBUG: Created blob for " && String.eqb m ": ")%bool
      then Some (f, s) else None
  | _ => None
  end.

(** The blobs a trace reports as created, with their paths, in order. *)
Definition blob_lines (evs : list event) : list (string * json) :=
  flat_map (fun e => match blob_line e with Some p => [p] | None => [] end) evs.

(** The blobs of [ups], with their paths, in order. *)
Definition granted (ups : list (string * option json)) : list (string * json) :=
  flat_map (fun u => match snd u with Some s => [(fst u, s)] | None => [] end) ups.

(** [m2] does what [m1] does, printed lines apart: from the same state it
    makes the same calls with the same outcomes, reaches the same state and
    gives the same result. *)
Definition same_calls {A : Type} (m1 m2 : M A) : Prop :=
  forall w w' evs r,
    m1 w = (w', evs, r) ->
    exists evs', m2 w = (w', evs', r) /\ exchanges evs' = exchanges evs.

Lemma emits_ret {A : Type} (P : event -> Prop) (a : A) : emits P (ret a).
Proof. intros w w' evs r H. inversion H. constructor. Qed.

Lemma emits_raise {A : Type} (P : event -> Prop) (e : exn) : emits P (@raise A e).
Proof. intros w w' evs r H. inversion H. constructor. Qed.

Lemma emits_lift {A : Type} (P : event -> Prop) (x : res A) : emits P (lift x).
Proof. intros w w' evs r H. inversion H. constructor. Qed.

Lemma emits_print (P : event -> Prop) (line : fstring) :
  P (Print line) -> emits P (print line).
Proof. intros HP w w' evs r H. inversion H. repeat constructor. exact HP. Qed.

Lemma emits_http (P : event -> Prop) (rq : request) :
  (forall out, P (Call rq out)) -> emits P (http rq).
Proof.
  intros HP w w' evs r H. unfold http in H.
  destruct (send w rq) as [w1 out]. inversion H. repeat constructor. apply HP.
Qed.

Lemma emits_bind {A B : Type} (P : event -> Prop) (m : M A) (f : A -> M B) :
  emits P m -> (forall a, emits P (f a)) -> emits P (bind m f).
Proof.
  intros Hm Hf w w' evs r H. unfold bind in H.
  destruct (m w) as [[w1 e1] [a | e]] eqn:Em.
  - destruct (f a w1) as [[w2 e2] r2] eqn:Ef. inversion H; subst.
    apply Forall_app. split; [eapply Hm | eapply Hf]; eassumption.
  - inversion H; subst. eapply Hm; eassumption.
Qed.

Lemma emits_try {A : Type} (P : event -> Prop) (m : M A) (h : exn -> M A) :
  emits P m -> (forall e, emits P (h e)) -> emits P (try_except m h).
Proof.
  intros Hm Hh w w' evs r H. unfold try_except in H.
  destruct (m w) as [[w1 e1] [a | e]] eqn:Em.
  - inversion H; subst. eapply Hm; eassumption.
  - destruct (h e w1) as [[w2 e2] r2] eqn:Eh. inversion H; subst.
    apply Forall_app. split; [eapply Hm | eapply Hh]; eassumption.
Qed.

Lemma safe_ret {A : Type} (a : A) : safe (ret a).
Proof. intros w. exists w, [], a. reflexivity. Qed.

Lemma safe_bind {A B : Type} (m : M A) (f : A -> M B) :
  safe m -> (forall a, safe (f a)) -> safe (bind m f).
Proof.
  intros Hm Hf w. unfold bind.
  destruct (Hm w) as (w1 & e1 & a & ->).
  destruct (Hf a w1) as (w2 & e2 & b & ->). eauto.
Qed.

Lemma safe_print (line : fstring) : safe (print line).
Proof. intros w. exists w, [Print line], tt. reflexivity. Qed.

Lemma safe_try {A : Type} (m : M A) (h : exn -> M A) :
  (forall e, safe (h e)) -> safe (try_except m h).
Proof.
  intros Hh w. unfold try_except.
  destruct (m w) as [[w1 e1] [a | e]]; [eauto |].
  destruct (Hh e w1) as (w2 & e2 & b & ->). eauto.
Qed.

Ltac emits_step :=
  match goal with
  | |- emits _ (bind _ _) => apply emits_bind; [| intros ?]
  | |- emits _ (try_except _ _) => apply emits_try; [| intros ?]
  | |- emits _ (ret _) => apply emits_ret
  | |- emits _ (raise _) => apply emits_raise
  | |- emits _ (lift _) => apply emits_lift
  | |- emits _ (print _) => apply emits_print
  | |- emits _ (http _) => apply emits_http; intros ?
  | |- emits _ (raise_for_status _) => unfold raise_for_status
  | |- emits _ (json_of _) => unfold json_of
  | |- emits _ (if ?b then _ else _) => destruct b
  | |- emits _ (match ?x with _ => _ end) => destruct x
  end.

Ltac safe_handler :=
  apply safe_try; intros ?; apply safe_bind;
  [apply safe_print | intros ?; apply safe_ret].

(** Inversion of one run, constructor by constructor. *)

Lemma bind_inv {A B : Type} (m : M A) (f : A -> M B) w w' evs r :
  bind m f w = (w', evs, r) ->
  (exists w1 e1 a e2,
      m w = (w1, e1, Ok a) /\ f a w1 = (w', e2, r) /\ evs = e1 ++ e2)
  \/ (exists e, m w = (w', evs, Raised e) /\ r = Raised e).
Proof.
  unfold bind. intros H. destruct (m w) as [[w1 e1] [a | e]].
  - destruct (f a w1) as [[w2 e2] r2] eqn:Ef. inversion H; subst.
    left. exists w1, e1, a, e2. auto.
  - inversion H; subst. right. exists e. auto.
Qed.

Lemma try_inv {A : Type} (m : M A) (h : exn -> M A) w w' evs r :
  try_except m h w = (w', evs, r) ->
  (exists a, m w = (w', evs, Ok a) /\ r = Ok a)
  \/ (exists w1 e1 e e2,
         m w = (w1, e1, Raised e) /\ h e w1 = (w', e2, r) /\ evs = e1 ++ e2).
Proof.
  unfold try_except. intros H. destruct (m w) as [[w1 e1] [a | e]].
  - inversion H; subst. left. exists a. auto.
  - destruct (h e w1) as [[w2 e2] r2] eqn:Eh. inversion H; subst.
    right. exists w1, e1, e, e2. auto.
Qed.

Lemma http_inv (rq : request) w w' evs r :
  http rq w = (w', evs, r) -> send w rq = (w', r) /\ evs = [Call rq r].
Proof.
  unfold http. intros H. destruct (send w rq) as [w1 out].
  inversion H; subst. auto.
Qed.

Lemma ret_inv {A : Type} (a : A) w w' evs r :
  ret a w = (w', evs, r) -> w' = w /\ evs = [] /\ r = Ok a.
Proof. unfold ret. intros H. inversion H; auto. Qed.

Lemma raise_inv {A : Type} (e : exn) w w' evs (r : res A) :
  raise e w = (w', evs, r) -> w' = w /\ evs = [] /\ r = Raised e.
Proof. unfold raise. intros H. inversion H; auto. Qed.

Lemma lift_inv {A : Type} (x : res A) w w' evs r :
  lift x w = (w', evs, r) -> w' = w /\ evs = [] /\ r = x.
Proof. unfold lift. intros H. inversion H; auto. Qed.

Lemma print_inv (line : fstring) w w' evs r :
  print line w = (w', evs, r) -> w' = w /\ evs = [Print line] /\ r = Ok tt.
Proof. unfold print. intros H. inversion H; auto. Qed.

Lemma raise_for_status_inv (rsp : response) w w' evs r :
  raise_for_status rsp w = (w', evs, r) ->
  w' = w /\ evs = [] /\
  ((failed (Ok rsp) = false /\ r = Ok tt)
   \/ (failed (Ok rsp) = true
       /\ r = Raised (HTTPStatusError (status_code rsp) (text rsp)))).
Proof.
  unfold raise_for_status, failed, ret, raise. intros H.
  destruct ((200 <=? status_code rsp) && (status_code rsp <=? 299))%bool;
    inversion H; subst; auto.
Qed.

Lemma json_of_inv (rsp : response) w w' evs r :
  json_of rsp w = (w', evs, r) ->
  w' = w /\ evs = [] /\
  ((exists v, body_json rsp = Some v /\ r = Ok v)
   \/ (body_json rsp = None /\ r = Raised JSONDecodeError)).
Proof.
  unfold json_of, ret, raise. intros H.
  destruct (body_json rsp); inversion H; subst; eauto 6.
Qed.

(** Symbolic execution of a run hypothesis. *)
Ltac exec1 :=
  match goal with
  | H : bind _ _ _ = (_, _, _) |- _ =>
      apply bind_inv in H;
      destruct H as [(?w & ?e & ?a & ?e & ?H & ?H & ?H) | (?x & ?H & ?H)]
  | H : try_except _ _ _ = (_, _, _) |- _ =>
      apply try_inv in H;
      destruct H as [(?a & ?H & ?H) | (?w & ?e & ?x & ?e & ?H & ?H & ?H)]
  | H : http _ _ = (_, _, _) |- _ =>
      apply http_inv in H; destruct H as [?Hsend ?H]
  | H : ret _ _ = (_, _, _) |- _ =>
      apply ret_inv in H; destruct H as (?H & ?H & ?H)
  | H : raise _ _ = (_, _, _) |- _ =>
      apply raise_inv in H; destruct H as (?H & ?H & ?H)
  | H : lift _ _ = (_, _, _) |- _ =>
      apply lift_inv in H; destruct H as (?H & ?H & ?H)
  | H : print _ _ = (_, _, _) |- _ =>
      apply print_inv in H; destruct H as (?H & ?H & ?H)
  | H : raise_for_status _ _ = (_, _, _) |- _ =>
      apply raise_for_status_inv in H;
      destruct H as (?H & ?H & [[?Hst ?H] | [?Hst ?H]])
  | H : json_of _ _ = (_, _, _) |- _ =>
      apply json_of_inv in H;
      destruct H as (?H & ?H & [(?v & ?Hbody & ?H) | [?Hbody ?H]])
  | H : (if ?b then _ else _) _ = (_, _, _) |- _ =>
      let E := fresh "Eb" in destruct b eqn:E
  | H : Ok _ = Ok _ |- _ => inversion H; clear H
  | H : Ok _ = Raised _ |- _ => discriminate H
  | H : Raised _ = Ok _ |- _ => discriminate H
  | H : Raised _ = Raised _ |- _ => inversion H; clear H
  | H : ?x = _ |- _ => is_var x; subst x
  | H : _ = ?x |- _ => is_var x; subst x
  end.

Ltac exec := repeat exec1.

(** ** Branch creation *)

Lemma created_not_failed (rsp : response) :
  (status_code rsp =? 201) = true -> failed (Ok rsp) = false.
Proof. intros H. apply Z.eqb_eq in H. unfold failed. rewrite H. reflexivity. Qed.

Ltac in_events H :=
  repeat (simpl in H; rewrite ?in_app_iff in H; simpl in H;
          match type of H with
          | _ \/ _ => destruct H as [H | H]
          | False => contradiction
          | Call _ _ = Call _ _ => inversion H; subst; clear H
          | Print _ = Call _ _ => discriminate H
          | Call _ _ = Print _ => discriminate H
          end).

(** C6.  [create_branch] always returns a boolean, never an exception; and
    whenever one of its two calls (the resolution of the base ref, the
    creation of the new ref) gets no response or a response whose status is
    not a 2xx, the result is [False] and a diagnostic line is printed. *)
Theorem create_branch_false_on_failure (self : GitHubIntegration)
    (branch_name base_branch : string) (w w' : World) (evs : list event)
    (r : res bool) :
  create_branch self branch_name base_branch w = (w', evs, r) ->
  (exists b, r = Ok b) /\
  (forall rq out, In (Call rq out) evs -> failed out = true ->
     r = Ok false /\ exists line, In (Print line) evs).
Proof.
  unfold create_branch. intros H. exec.
  all: split; [eauto |].
  all: intros rq out Hin Hf.
  all: match goal with
       | |- Ok true = _ /\ _ => exfalso
       | |- _ =>
           split; [reflexivity
                  | eexists; simpl; repeat rewrite in_app_iff; simpl; eauto 10]
       end.
  in_events Hin.
  - congruence.
  - apply created_not_failed in Eb. congruence.
Qed.

(** ** The entry list of the tree builder *)

Lemma eq_str_spec (v : json) (s : string) : eq_str v s = true <-> v = JStr s.
Proof.
  destruct v; simpl; try (split; [discriminate | intros H; discriminate H]).
  rewrite String.eqb_eq. split; [intros -> | intros H; inversion H]; reflexivity.
Qed.

Lemma NoDup_snoc {A : Type} (l : list A) (x : A) :
  NoDup l -> ~ In x l -> NoDup (l ++ [x]).
Proof.
  induction l as [| a l IH]; simpl; intros Hl Hx.
  - constructor; [intros [] | constructor].
  - inversion Hl; subst. constructor.
    + rewrite in_app_iff. simpl. intros [H | [H | []]]; [auto | subst; auto].
    + apply IH; auto.
Qed.

Lemma NoDup_map_filter {A B : Type} (g : A -> B) (p : A -> bool) (l : list A) :
  NoDup (map g l) -> NoDup (map g (filter p l)).
Proof.
  induction l as [| a l IH]; simpl; intros H; [constructor |].
  inversion H; subst. destruct (p a); simpl; [| auto].
  constructor; [| auto].
  rewrite in_map_iff in *. intros (x & Hx & Hin). apply H2.
  exists x. apply filter_In in Hin. tauto.
Qed.

Lemma put_entry_In (l : list tree_entry) (f : string) (s : json) (e : tree_entry) :
  In e (put_entry l f s) <-> (In e l /\ path e <> JStr f) \/ e = new_entry f s.
Proof.
  unfold put_entry. rewrite in_app_iff, filter_In. simpl.
  rewrite negb_true_iff, <- not_true_iff_false, eq_str_spec.
  intuition congruence.
Qed.

Lemma put_entry_NoDup (l : list tree_entry) (f : string) (s : json) :
  NoDup (map path l) -> NoDup (map path (put_entry l f s)).
Proof.
  intros H. unfold put_entry. rewrite map_app. simpl.
  apply NoDup_snoc; [apply NoDup_map_filter; exact H |].
  rewrite in_map_iff. intros (x & Hx & Hin). apply filter_In in Hin.
  destruct Hin as [_ Hne]. apply negb_true_iff in Hne.
  apply eq_str_spec in Hx. congruence.
Qed.

Lemma assign_NoDup (l : list tree_entry) (u : string * option json) :
  NoDup (map path l) -> NoDup (map path (assign l u)).
Proof.
  unfold assign. destruct (snd u); [apply put_entry_NoDup | auto].
Qed.

Lemma assign_all_NoDup (ups : list (string * option json)) (l : list tree_entry) :
  NoDup (map path l) -> NoDup (map path (assign_all l ups)).
Proof.
  unfold assign_all. revert l.
  induction ups as [| u ups IH]; simpl; intros l H; [exact H |].
  apply IH, assign_NoDup, H.
Qed.

Lemma assign_all_app (l : list tree_entry) (a b : list (string * option json)) :
  assign_all l (a ++ b) = assign_all (assign_all l a) b.
Proof. unfold assign_all. apply fold_left_app. Qed.

(** An entry nothing later overwrites stays. *)
Lemma assign_all_keeps (ups : list (string * option json)) (l : list tree_entry)
    (e : tree_entry) :
  In e l ->
  (forall f s, In (f, Some s) ups -> path e <> JStr f) ->
  In e (assign_all l ups).
Proof.
  unfold assign_all. revert l.
  induction ups as [| [f b] ups IH]; simpl; intros l Hin Hno; [exact Hin |].
  apply IH; [| intros; eapply Hno; eauto].
  unfold assign. simpl. destruct b as [s |]; [| exact Hin].
  apply put_entry_In. left. split; [exact Hin |]. eapply Hno. eauto.
Qed.

(** Every entry is carried over or was assigned. *)
Lemma assign_all_origin (ups : list (string * option json)) (l : list tree_entry)
    (e : tree_entry) :
  In e (assign_all l ups) ->
  In e l \/ exists f s, In (f, Some s) ups /\ e = new_entry f s.
Proof.
  unfold assign_all. revert l.
  induction ups as [| [f b] ups IH]; simpl; intros l Hin; [auto |].
  apply IH in Hin. destruct Hin as [Hin | (f' & s' & H1 & H2)].
  - unfold assign in Hin. simpl in Hin. destruct b as [s |]; [| auto].
    apply put_entry_In in Hin. destruct Hin as [[Hin _] | ->]; [auto |].
    right. exists f, s. auto.
  - right. exists f', s'. auto.
Qed.

(** Last write wins: the blob of the last occurrence of a path that got one
    is the one its entry carries. *)
Lemma assign_all_last (before after : list (string * option json))
    (l : list tree_entry) (f : string) (s : json) :
  (forall s', ~ In (f, Some s') after) ->
  In (new_entry f s) (assign_all l (before ++ (f, Some s) :: after)).
Proof.
  intros Hafter. rewrite assign_all_app.
  change ((f, Some s) :: after) with ([(f, Some s)] ++ after).
  rewrite assign_all_app. apply assign_all_keeps.
  - unfold assign_all, assign. simpl. apply put_entry_In. right. reflexivity.
  - intros f' s' Hin. simpl. intros Heq. inversion Heq; subst.
    eapply Hafter. eassumption.
Qed.

Lemma filter_filter_implied {A : Type} (p q : A -> bool) (l : list A) :
  (forall x, p x = true -> q x = true) -> filter p (filter q l) = filter p l.
Proof.
  intros Hpq. induction l as [| a l IH]; simpl; [reflexivity |].
  destruct (q a) eqn:Eq; simpl.
  - rewrite IH. reflexivity.
  - rewrite IH. destruct (p a) eqn:Ep; [| reflexivity].
    apply Hpq in Ep. congruence.
Qed.

(** The entries of a path no assignment names are those it had. *)
Lemma assign_all_untouched (ups : list (string * option json))
    (l : list tree_entry) (p : string) :
  (forall s, ~ In (p, Some s) ups) ->
  filter (fun e => eq_str (path e) p) (assign_all l ups)
  = filter (fun e => eq_str (path e) p) l.
Proof.
  unfold assign_all. revert l.
  induction ups as [| [f b] ups IH]; simpl; intros l Hno; [reflexivity |].
  rewrite IH by (intros s H; eapply Hno; eauto).
  unfold assign. simpl. destruct b as [s |]; [| reflexivity].
  assert (Hfp : f <> p) by (intros ->; eapply Hno; eauto).
  unfold put_entry. rewrite filter_app. simpl.
  rewrite (proj2 (String.eqb_neq f p) Hfp), app_nil_r.
  apply filter_filter_implied. intros x Hx.
  apply eq_str_spec in Hx. rewrite Hx. simpl.
  apply negb_true_iff, String.eqb_neq. congruence.
Qed.

(** The base entries are the blob items, in their order. *)
Lemma base_entries_spec (items : list json) (base : list tree_entry) :
  base_entries items = Ok base ->
  base = map entry_of_item (filter is_blob_item items)
  /\ forall item, In item items -> exists t, subscript item "type" = Ok t.
Proof.
  revert base. induction items as [| item items IH]; intros base H.
  - inversion H. split; [reflexivity | intros ? []].
  - cbn [base_entries] in H. cbn [filter].
    destruct (subscript item "type") as [t |] eqn:Et; [| discriminate].
    assert (Hb : is_blob_item item = eq_str t "blob")
      by (unfold is_blob_item; rewrite Et; reflexivity).
    rewrite Hb. destruct (eq_str t "blob") eqn:Eb.
    + destruct (subscript item "path") as [p |] eqn:Ep; [| discriminate].
      destruct (subscript item "mode") as [m |] eqn:Em; [| discriminate].
      destruct (subscript item "sha") as [s |] eqn:Es; [| discriminate].
      destruct (base_entries items) as [l |]; [| discriminate].
      inversion H; subst. destruct (IH l eq_refl) as [Hl Hall].
      split.
      * cbn [map]. rewrite <- Hl. unfold entry_of_item, field.
        rewrite Ep, Em, Es. reflexivity.
      * intros i [<- | Hi]; eauto.
    + destruct (IH base H) as [Hl Hall]. split; [exact Hl |].
      intros i [<- | Hi]; eauto.
Qed.

(** Replaying a run forwards, from the facts its inversion gave. *)
Ltac replay :=
  unfold try_except, bind, lift, http, json_of, raise_for_status, print, ret,
    raise;
  repeat (cbn;
    match goal with
    | H : Ok _ = ?x |- context [?x] => rewrite <- H
    | H : Raised _ = ?x |- context [?x] => rewrite <- H
    | H : ?x = _ |- context [?x] => rewrite H
    end);
  cbn.

(** One turn of the loop is the upload followed by the assignment. *)
Lemma upload_blob_add_file (self : GitHubIntegration) (dir : json) (f : string)
    w w1 e1 r1 :
  upload_blob self dir f w = (w1, e1, r1) ->
  exists b, r1 = Ok b /\
    forall entries,
      add_file self dir entries f w = (w1, e1, Ok (assign entries (f, b))).
Proof.
  unfold upload_blob. intros H. exec.
  all: eexists; split; [reflexivity |]; intros entries; unfold add_file.
  all: replay.
  all: reflexivity.
Qed.

Lemma add_file_safe (self : GitHubIntegration) (dir : json) (f : string)
    (entries : list tree_entry) w w1 e1 x :
  add_file self dir entries f w <> (w1, e1, Raised x).
Proof.
  intros H. destruct (upload_blob self dir f w) as [[w2 e2] r2] eqn:Hu.
  apply upload_blob_add_file in Hu. destruct Hu as (b & _ & Hadd).
  rewrite Hadd in H. discriminate H.
Qed.

(** The loop over the files is the sequence of uploads followed by their
    assignments. *)
Lemma uploads_add_files (self : GitHubIntegration) (dir : json) (files : list string) :
  forall w w' evs r,
    uploads self dir files w = (w', evs, r) ->
    exists ups, r = Ok ups /\ map fst ups = files /\
      forall base,
        add_files self dir files base w = (w', evs, Ok (assign_all base ups)).
Proof.
  induction files as [| f rest IH]; intros w w' evs r H.
  - cbn [uploads] in H. exec. exists []. auto.
  - cbn [uploads] in H. exec.
    + apply upload_blob_add_file in H. destruct H as (b & Hb & Hadd).
      inversion Hb; subst. apply IH in H0. destruct H0 as (ups & Hu & Hfst & Hrest).
      inversion Hu; subst.
      exists ((f, b) :: ups). split; [reflexivity |]. split; [reflexivity |].
      intros base. cbn [add_files]. unfold bind. rewrite Hadd, Hrest.
      rewrite app_nil_r. reflexivity.
    + apply IH in H0. destruct H0 as (ups & Hu & _). discriminate Hu.
    + apply upload_blob_add_file in H. destruct H as (b & Hb & _). discriminate Hb.
Qed.

Lemma upload_blob_unreadable (self : GitHubIntegration) (dir : json) (f : string) w :
  readable dir f = false ->
  exists x,
    upload_blob self dir f w
    = (w, [Print [Lit "DEBUG: Error processing file "; Lit f; Lit ": "; Err x]],
       Ok None).
Proof.
  unfold readable. intros H.
  destruct (read_file loc dir f) as [c | x] eqn:Er; [discriminate |].
  exists x. unfold upload_blob. replay. reflexivity.
Qed.

Lemma upload_blob_readable (self : GitHubIntegration) (dir : json) (f : string)
    w w' evs s :
  upload_blob self dir f w = (w', evs, Ok (Some s)) -> readable dir f = true.
Proof.
  destruct (readable dir f) eqn:Er; [reflexivity |].
  destruct (upload_blob_unreadable self dir f w Er) as (x & Hx).
  rewrite Hx. discriminate.
Qed.

(** A blob is only ever obtained for a readable supplied path. *)
Lemma uploads_readable (self : GitHubIntegration) (dir : json) (files : list string) :
  forall w w' evs ups f s,
    uploads self dir files w = (w', evs, Ok ups) ->
    In (f, Some s) ups -> readable dir f = true /\ In f files.
Proof.
  induction files as [| g rest IH]; intros w w' evs ups f s H Hin.
  - cbn [uploads] in H. exec. destruct Hin.
  - cbn [uploads] in H. exec. destruct Hin as [Heq | Hin].
    + inversion Heq; subst. split; [| left; reflexivity].
      eapply upload_blob_readable. eassumption.
    + destruct (IH _ _ _ _ _ _ H0 Hin) as [Hr Hf]. split; [exact Hr | right; exact Hf].
Qed.

Lemma exchanges_app (a b : list event) :
  exchanges (a ++ b) = exchanges a ++ exchanges b.
Proof. apply filter_app. Qed.

(** Dropping the unreadable paths from the supplied list changes no call and
    no result. *)
Lemma add_files_skip (self : GitHubIntegration) (dir : json) (files : list string) :
  forall entries w w' evs r,
    add_files self dir files entries w = (w', evs, r) ->
    exists evs',
      add_files self dir (filter (readable dir) files) entries w = (w', evs', r)
      /\ exchanges evs' = exchanges evs.
Proof.
  induction files as [| f rest IH]; intros entries w w' evs r H.
  - exists evs. auto.
  - cbn [add_files] in H. exec; [| exfalso; eapply add_file_safe; eassumption].
    apply IH in H0. destruct H0 as (evs' & Hrest & Hex).
    cbn [filter]. destruct (readable dir f) eqn:Er.
    + exists (e ++ evs'). split.
      * cbn [add_files]. unfold bind. rewrite H, Hrest. reflexivity.
      * rewrite !exchanges_app, Hex. reflexivity.
    + destruct (upload_blob_unreadable self dir f w Er) as (x & Hx).
      apply upload_blob_add_file in Hx. destruct Hx as (b & Hb & Hadd).
      inversion Hb; subst. rewrite Hadd in H. inversion H; subst.
      exists evs'. split; [exact Hrest |]. rewrite exchanges_app, Hex. reflexivity.
Qed.

Lemma NoDup_map_unique {A B : Type} (g : A -> B) (l : list A) (a b : A) :
  NoDup (map g l) -> In a l -> In b l -> g a = g b -> a = b.
Proof.
  induction l as [| x l IH]; simpl; intros Hn Ha Hb Hg; [contradiction |].
  inversion Hn; subst.
  destruct Ha as [-> | Ha], Hb as [-> | Hb]; auto.
  - exfalso. apply H1. rewrite Hg. apply in_map. exact Hb.
  - exfalso. apply H1. rewrite <- Hg. apply in_map. exact Ha.
Qed.

(** A run of [build_entries], taken apart. *)
Lemma build_entries_inv (self : GitHubIntegration) (dir tree_data : json)
    (files : list string) w w' evs r :
  build_entries self dir tree_data files w = (w', evs, r) ->
  (exists x, carried_over tree_data = Raised x /\ r = Raised x /\ w' = w /\ evs = [])
  \/ (exists base ups,
        carried_over tree_data = Ok base
        /\ uploads self dir files w = (w', evs, Ok ups)
        /\ map fst ups = files
        /\ r = Ok (assign_all base ups)).
Proof.
  unfold build_entries. intros H. exec.
  - right.
    match goal with
    | Hrun : add_files self dir files ?b ?w0 = _ |- _ =>
        destruct (uploads self dir files w0) as [[w2 e2] r2] eqn:Hu;
        destruct (uploads_add_files _ _ _ _ _ _ _ Hu) as (ups & -> & Hfst & Hadd);
        rewrite Hadd in Hrun; inversion Hrun; subst; exists b, ups; auto
    end.
  - left. exists x. auto.
Qed.

(** C9.  Of the base tree, fetched recursively, only the items whose type
    is ["blob"] are carried over: every entry of the list built for the new
    tree has type ["blob"] and is either made of a blob item of the base
    tree or is the entry of a supplied path; no entry of the list is an
    item of the base tree of another type (a sub-tree, a commit). *)
Theorem only_blob_entries_are_submitted (self : GitHubIntegration)
    (dir tree_data : json) (files : list string) (w w' : World)
    (evs : list event) (final : list tree_entry) :
  build_entries self dir tree_data files w = (w', evs, Ok final) ->
  exists items,
    tree_items tree_data = Ok items
    /\ (forall e, In e final ->
          type_ e = JStr "blob"
          /\ ((exists item,
                  In item items /\ is_blob_item item = true
                  /\ e = entry_of_item item)
              \/ (exists f s, In f files /\ e = new_entry f s)))
    /\ (forall item, In item items -> is_blob_item item = false ->
          forall e, In e final -> entry_json e <> item).
Proof.
  intros H. apply build_entries_inv in H.
  destruct H as [(x & _ & Hx & _) | (base & ups & Hb & Hu & Hfst & Hfinal)];
    [discriminate Hx |].
  inversion Hfinal; subst final. clear Hfinal.
  unfold carried_over in Hb.
  destruct (tree_items tree_data) as [items |]; [| discriminate].
  apply base_entries_spec in Hb. destruct Hb as [-> _].
  exists items. split; [reflexivity |].
  assert (Horigin : forall e,
             In e (assign_all (map entry_of_item (filter is_blob_item items)) ups) ->
             type_ e = JStr "blob"
             /\ ((exists item,
                     In item items /\ is_blob_item item = true
                     /\ e = entry_of_item item)
                 \/ (exists f s, In f files /\ e = new_entry f s))).
  { intros e He. apply assign_all_origin in He.
    destruct He as [He | (f & s & Hin & ->)].
    - apply in_map_iff in He. destruct He as (item & <- & Hitem).
      apply filter_In in Hitem. split; [reflexivity |]. left. exists item. tauto.
    - split; [reflexivity |]. right. exists f, s. split; [| reflexivity].
      eapply uploads_readable in Hin; [| eassumption]. tauto. }
  split; [exact Horigin |].
  intros item Hitem Hnot e He Heq.
  apply Horigin in He. destruct He as [Hty _].
  unfold is_blob_item in Hnot. rewrite <- Heq in Hnot.
  unfold entry_json in Hnot. cbn in Hnot. rewrite Hty in Hnot. discriminate Hnot.
Qed.

Lemma String_append_inj (a b c : string) : a ^^ b = a ^^ c -> b = c.
Proof.
  induction a as [| x a IH]; simpl; intros H; [exact H |].
  inversion H. auto.
Qed.

(** ** The calls of the tree builder *)

Lemma add_files_emits (self : GitHubIntegration) (dir : json) (files : list string) :
  forall entries, emits (blob_event self) (add_files self dir files entries).
Proof.
  induction files as [| f rest IH]; intros entries; cbn [add_files].
  - apply emits_ret.
  - apply emits_bind; [| intros a; apply IH].
    unfold add_file. repeat emits_step; try exact I.
    eexists. reflexivity.
Qed.

Lemma build_entries_emits (self : GitHubIntegration) (dir tree_data : json)
    (files : list string) :
  emits (blob_event self) (build_entries self dir tree_data files).
Proof.
  unfold build_entries. apply emits_bind; [apply emits_lift |].
  intros a. apply add_files_emits.
Qed.

Lemma project_directory_emits : emits read_event project_directory.
Proof.
  unfold project_directory. repeat emits_step; try exact I. reflexivity.
Qed.

Lemma emits_weaken {A : Type} (P Q : event -> Prop) (m : M A) :
  (forall e, P e -> Q e) -> emits P m -> emits Q m.
Proof.
  intros HPQ Hm w w' evs r H. eapply Forall_impl; [exact HPQ |].
  eapply Hm. exact H.
Qed.

Lemma tree_builder_emits (self : GitHubIntegration) (base_tree_sha : json)
    (files : list string) :
  emits (tree_builder_event self) (_create_tree_with_changes self base_tree_sha files).
Proof.
  unfold _create_tree_with_changes, submit_tree.
  repeat first
    [ apply (emits_weaken (blob_event self));
        [intros [rq out | line] H; [right; left; exact H | exact I]
        | apply build_entries_emits]
    | apply (emits_weaken read_event);
        [intros [rq out | line] H; [left; exact H | exact I]
        | apply project_directory_emits]
    | emits_step ];
    try exact I.
  all: try (left; reflexivity).
  all: right; right; eexists; reflexivity.
Qed.

Lemma tree_builder_safe (self : GitHubIntegration) (base_tree_sha : json)
    (files : list string) :
  safe (_create_tree_with_changes self base_tree_sha files).
Proof. unfold _create_tree_with_changes. safe_handler. Qed.

(** ** What the tree builder submits *)

Lemma blob_line_spec (e : event) (f : string) (s : json) :
  blob_line e = Some (f, s) <-> e = created_line f s.
Proof.
  split.
  - unfold blob_line, created_line. intros H.
    repeat match type of H with
           | (if ?b then _ else _) = _ =>
               let E := fresh "E" in
               destruct b eqn:E; try discriminate H
           | match ?x with _ => _ end = _ => destruct x; try discriminate H
           end.
    match goal with
    | K : (_ && _)%bool = true |- _ =>
        apply andb_true_iff in K; destruct K as [El Em]
    end.
    apply String.eqb_eq in El, Em. subst. inversion H; subst. reflexivity.
  - intros ->. reflexivity.
Qed.

Lemma blob_lines_app (a b : list event) :
  blob_lines (a ++ b) = blob_lines a ++ blob_lines b.
Proof. apply flat_map_app. Qed.

Lemma blob_lines_cons (e : event) (l : list event) :
  blob_lines (e :: l)
  = match blob_line e with Some p => [p] | None => [] end ++ blob_lines l.
Proof. reflexivity. Qed.

Lemma blob_lines_In (evs : list event) (f : string) (s : json) :
  In (f, s) (blob_lines evs) <-> In (created_line f s) evs.
Proof.
  unfold blob_lines. rewrite in_flat_map. split.
  - intros (e & He & Hin). destruct (blob_line e) as [p |] eqn:Eb; [| destruct Hin].
    destruct Hin as [-> | []]. apply blob_line_spec in Eb. subst e. exact He.
  - intros H. exists (created_line f s). split; [exact H | left; reflexivity].
Qed.

Lemma granted_In (ups : list (string * option json)) (f : string) (s : json) :
  In (f, s) (granted ups) <-> In (f, Some s) ups.
Proof.
  unfold granted. rewrite in_flat_map. split.
  - intros ([g [b |]] & Hu & Hin); cbn [fst snd] in Hin; [| destruct Hin].
    destruct Hin as [K | []]. inversion K; subst. exact Hu.
  - intros H. exists (f, Some s). split; [exact H | left; reflexivity].
Qed.

Lemma granted_split (ups : list (string * option json)) :
  forall A f s B,
    granted ups = A ++ (f, s) :: B ->
    exists before after,
      ups = before ++ (f, Some s) :: after
      /\ granted before = A /\ granted after = B.
Proof.
  induction ups as [| [g [b |]] ups IH]; intros A f s B H.
  - destruct A; discriminate H.
  - change (granted ((g, Some b) :: ups)) with ((g, b) :: granted ups) in H.
    destruct A as [| a A].
    + inversion H; subst. exists [], ups. auto.
    + inversion H; subst.
      destruct (IH _ _ _ _ H2) as (before & after & -> & <- & <-).
      exists ((g, Some b) :: before), after. auto.
  - change (granted ((g, None) :: ups)) with (granted ups) in H.
    destruct (IH _ _ _ _ H) as (before & after & -> & <- & <-).
    exists ((g, None) :: before), after. auto.
Qed.

Lemma upload_blob_lines (self : GitHubIntegration) (dir : json) (f : string)
    w w' evs b :
  upload_blob self dir f w = (w', evs, Ok b) ->
  blob_lines evs = granted [(f, b)].
Proof.
  unfold upload_blob. intros H. exec.
  all: reflexivity.
Qed.

Lemma uploads_lines (self : GitHubIntegration) (dir : json) (files : list string) :
  forall w w' evs ups,
    uploads self dir files w = (w', evs, Ok ups) ->
    blob_lines evs = granted ups.
Proof.
  induction files as [| f rest IH]; intros w w' evs ups H.
  - cbn [uploads] in H. exec. reflexivity.
  - cbn [uploads] in H. exec.
    rewrite !blob_lines_app, app_nil_r.
    match goal with
    | K : upload_blob _ _ _ _ = _ |- _ => apply upload_blob_lines in K; rewrite K
    end.
    match goal with
    | K : uploads _ _ _ _ = _ |- _ => apply IH in K; rewrite K
    end.
    unfold granted. cbn [flat_map]. rewrite app_nil_r. reflexivity.
Qed.

Lemma project_directory_no_blob_line w w' evs r :
  project_directory w = (w', evs, r) -> blob_lines evs = [].
Proof.
  unfold project_directory. intros H. exec.
  all: reflexivity.
Qed.

Lemma project_directory_safe : safe project_directory.
Proof.
  unfold project_directory.
  apply safe_bind.
  - apply safe_try. intros e. apply safe_bind; [apply safe_print |].
    intros ?. apply safe_ret.
  - intros d. destruct (negb (truthy d)); apply safe_ret.
Qed.

Lemma tree_builder_submission (self : GitHubIntegration) (base_tree_sha : json)
    (files : list string) w w' evs r rq out :
  _create_tree_with_changes self base_tree_sha files w = (w', evs, r) ->
  In (Call rq out) evs ->
  is_tree_creation self rq ->
  exists w0 e0 dir w1 brsp tree_data w2 e2 final line post,
    project_directory w = (w0, e0, Ok dir)
    /\ send w0 (base_tree_request self base_tree_sha) = (w1, Ok brsp)
    /\ body_json brsp = Some tree_data
    /\ build_entries self dir tree_data files w1 = (w2, e2, Ok final)
    /\ rq = tree_request self final
    /\ evs = e0 ++ Print line
                :: Call (base_tree_request self base_tree_sha) (Ok brsp)
                :: e2 ++ Call rq out :: post
    /\ blob_lines evs = blob_lines e2.
Proof.
  unfold _create_tree_with_changes, submit_tree. intros H Hin [Hm Hu]. exec.
  all: in_events Hin.
  all: try discriminate Hm.
  all: try match goal with
           | K : project_directory _ = _, Hin : In _ _ |- _ =>
               apply project_directory_emits in K; rewrite Forall_forall in K;
               apply K in Hin; simpl in Hin; congruence
           end.
  all: try match goal with
           | K : build_entries _ _ _ _ _ = _, Hin : In _ _ |- _ =>
               apply build_entries_emits in K; rewrite Forall_forall in K;
               apply K in Hin; destruct Hin as (c & ->);
               inversion Hu as [Hu']; apply String_append_inj in Hu';
               discriminate Hu'
           end.
  all: pose proof (project_directory_no_blob_line _ _ _ _ H) as Hpd.
  all: eexists _, _, _, _, _, _, _, _, _, _, _.
  all: split; [eassumption |]; split; [eassumption |]; split; [eassumption |].
  all: split; [eassumption |]; split; [reflexivity |].
  all: split; [rewrite <- ?app_assoc; cbn [app]; reflexivity |].
  all: repeat (first [rewrite blob_lines_cons | rewrite blob_lines_app]).
  all: rewrite Hpd; cbn; rewrite ?app_nil_r; reflexivity.
Qed.

Lemma upload_blob_created (self : GitHubIntegration) (dir : json) (f : string)
    w w' evs s :
  upload_blob self dir f w = (w', evs, Ok (Some s)) ->
  exists rq rsp,
    In (Call rq (Ok rsp)) evs
    /\ url rq = [Lit (base_url self ^^ "/git/blobs")]
    /\ status_code rsp = 201.
Proof.
  unfold upload_blob. intros H. exec.
  all: try match goal with
           | K : None = Some _ |- _ => discriminate K
           | K : Some _ = None |- _ => discriminate K
           end.
  eexists _, _. split; [| split; [| apply Z.eqb_eq; eassumption]].
  - simpl. left. reflexivity.
  - reflexivity.
Qed.

Lemma uploads_created (self : GitHubIntegration) (dir : json) (files : list string) :
  forall w w' evs ups f s,
    uploads self dir files w = (w', evs, Ok ups) ->
    In (f, Some s) ups ->
    exists rq rsp,
      In (Call rq (Ok rsp)) evs
      /\ url rq = [Lit (base_url self ^^ "/git/blobs")]
      /\ status_code rsp = 201.
Proof.
  induction files as [| g rest IH]; intros w w' evs ups f s H Hin.
  - cbn [uploads] in H. exec. destruct Hin.
  - cbn [uploads] in H. exec. destruct Hin as [Heq | Hin].
    + inversion Heq; subst.
      match goal with
      | K : upload_blob _ _ _ _ = _ |- _ =>
          apply upload_blob_created in K;
          destruct K as (rq & rsp & Hc & Hurl & H201)
      end.
      exists rq, rsp. split; [apply in_or_app; left; exact Hc | split; assumption].
    + match goal with
      | K : uploads _ _ _ _ = _ |- _ =>
          destruct (IH _ _ _ _ _ _ K Hin) as (rq & rsp & Hc & Hurl & H201)
      end.
      exists rq, rsp. split; [| split; assumption].
      apply in_or_app. right. apply in_or_app. left. exact Hc.
Qed.

Lemma assign_all_nothing (ups : list (string * option json)) (l : list tree_entry) :
  (forall f s, ~ In (f, Some s) ups) -> assign_all l ups = l.
Proof.
  unfold assign_all. revert l.
  induction ups as [| [f b] ups IH]; intros l Hno; [reflexivity |].
  cbn [fold_left]. rewrite IH by (intros f' s' K; eapply Hno; right; exact K).
  unfold assign. cbn [snd]. destruct b as [s |]; [| reflexivity].
  exfalso. eapply Hno. left. reflexivity.
Qed.

(** Dropping the unreadable paths changes no call and no result of the
    construction of the entry list. *)
Lemma build_entries_skip (self : GitHubIntegration) (dir tree_data : json)
    (files : list string) w w' evs r :
  build_entries self dir tree_data files w = (w', evs, r) ->
  exists evs',
    build_entries self dir tree_data (filter (readable dir) files) w
    = (w', evs', r)
    /\ exchanges evs' = exchanges evs.
Proof.
  intros H. unfold build_entries, bind, lift in *.
  destruct (carried_over tree_data) as [base | x].
  - destruct (add_files self dir files base w) as [[w2 e2] r2] eqn:Hadd.
    inversion H; subst.
    apply add_files_skip in Hadd. destruct Hadd as (evs' & Hrun & Hex).
    exists evs'. rewrite Hrun. split; [reflexivity | exact Hex].
  - inversion H; subst. exists []. split; reflexivity.
Qed.

(** A run of the tree builder that reaches the creation of the tree, in
    terms of the blobs its trace reports. *)
Lemma tree_builder_entries (self : GitHubIntegration) (base_tree_sha : json)
    (files : list string) w w' evs r rq out :
  _create_tree_with_changes self base_tree_sha files w = (w', evs, r) ->
  In (Call rq out) evs ->
  is_tree_creation self rq ->
  exists w0 e0 dir brsp tree_data base ups,
    project_directory w = (w0, e0, Ok dir)
    /\ In (Call (base_tree_request self base_tree_sha) (Ok brsp)) evs
    /\ body_json brsp = Some tree_data
    /\ carried_over tree_data = Ok base
    /\ rq = tree_request self (assign_all base ups)
    /\ blob_lines evs = granted ups
    /\ (forall f s, In (f, Some s) ups -> readable dir f = true /\ In f files)
    /\ (forall f s, In (f, Some s) ups ->
          exists brq rsp,
            In (Call brq (Ok rsp)) evs
            /\ url brq = [Lit (base_url self ^^ "/git/blobs")]
            /\ status_code rsp = 201).
Proof.
  intros H Hin Hp.
  destruct (tree_builder_submission _ _ _ _ _ _ _ _ _ H Hin Hp)
    as (w0 & e0 & dir & w1 & brsp & tree_data & w2 & e2 & final & line & post
        & Hpd & Hsend & Hbody & Hbuild & Hrq & Hevs & Hlines).
  apply build_entries_inv in Hbuild.
  destruct Hbuild as [(x & _ & Hx & _) | (base & ups & Hb & Hu & Hfst & Hfinal)];
    [discriminate Hx |].
  inversion Hfinal; subst final. clear Hfinal.
  exists w0, e0, dir, brsp, tree_data, base, ups.
  split; [exact Hpd |].
  split; [rewrite Hevs; apply in_or_app; right; right; left; reflexivity |].
  split; [exact Hbody |]. split; [exact Hb |]. split; [exact Hrq |].
  split; [rewrite Hlines; eapply uploads_lines; exact Hu |].
  split; [intros f s Hfs; eapply uploads_readable; eassumption |].
  intros f s Hfs.
  destruct (uploads_created _ _ _ _ _ _ _ _ _ Hu Hfs) as (brq & rsp & Hc & Hurl & H201).
  exists brq, rsp. split; [| split; assumption].
  rewrite Hevs. apply in_or_app. right. right. right.
  apply in_or_app. left. exact Hc.
Qed.

(** C1, as the code has it.  In every run of the tree builder, the body of
    the tree-creation call is [{"tree": entries}], and for a base tree that
    lists each path once these entries have one entry per path at most: no
    path occurs twice; every entry is an entry kept of the base tree or the
    entry [{path, "100644", "blob", sha}] of a supplied path for which the
    run reports a blob as created; every base entry whose path got no blob
    is kept; and a supplied path carries the blob of the last of its
    occurrences for which a blob was created, which is its last occurrence
    only when that one was read and accepted. *)
Theorem tree_entries_one_per_path_last_write_wins (self : GitHubIntegration)
    (base_tree_sha : json) (files : list string) (w w' : World)
    (evs : list event) (r : res json) :
  _create_tree_with_changes self base_tree_sha files w = (w', evs, r) ->
  forall rq out, In (Call rq out) evs -> is_tree_creation self rq ->
    exists brsp tree_data base final,
      In (Call (base_tree_request self base_tree_sha) (Ok brsp)) evs
      /\ body_json brsp = Some tree_data
      /\ carried_over tree_data = Ok base
      /\ body rq
         = Some (JObj [("tree",
                        JArr (map (fun e => JObj [("path", path e); ("mode", mode e);
                                                  ("type", type_ e); ("sha", sha e)])
                                final))])
      /\ (NoDup (map path base) -> NoDup (map path final))
      /\ (forall e, In e final ->
            In e base
            \/ exists f s,
                 In f files /\ In (created_line f s) evs
                 /\ e = mkEntry (JStr f) (JStr "100644") (JStr "blob") s)
      /\ (forall e, In e base ->
            (forall f s, In (created_line f s) evs -> path e <> JStr f) ->
            In e final)
      /\ (forall pre f s post,
            evs = pre ++ created_line f s :: post ->
            (forall s', ~ In (created_line f s') post) ->
            In (mkEntry (JStr f) (JStr "100644") (JStr "blob") s) final
            /\ (NoDup (map path base) ->
                forall e, In e final -> path e = JStr f ->
                  e = mkEntry (JStr f) (JStr "100644") (JStr "blob") s)).
Proof.
  intros H rq out Hin Hp.
  destruct (tree_builder_entries _ _ _ _ _ _ _ _ _ H Hin Hp)
    as (w0 & e0 & dir & brsp & tree_data & base & ups
        & _ & Hlist & Hbody & Hbase & -> & Hlines & Hread & _).
  exists brsp, tree_data, base, (assign_all base ups).
  split; [exact Hlist |]. split; [exact Hbody |]. split; [exact Hbase |].
  split; [reflexivity |].
  split; [apply assign_all_NoDup |].
  split.
  { intros e He. apply assign_all_origin in He.
    destruct He as [He | (f & s & Hfs & ->)]; [left; exact He |].
    right. exists f, s. split; [apply (Hread f s Hfs) |].
    split; [| reflexivity].
    apply blob_lines_In. rewrite Hlines. apply granted_In. exact Hfs. }
  split.
  { intros e He Hno. apply assign_all_keeps; [exact He |].
    intros f s Hfs. apply (Hno f s).
    apply blob_lines_In. rewrite Hlines. apply granted_In. exact Hfs. }
  intros pre f s post Hevs Hlast.
  assert (Hsplit : granted ups = blob_lines pre ++ (f, s) :: blob_lines post).
  { rewrite <- Hlines, Hevs, blob_lines_app, blob_lines_cons. reflexivity. }
  apply granted_split in Hsplit.
  destruct Hsplit as (before & after & -> & _ & Hafter).
  assert (Hnone : forall s', ~ In (f, Some s') after).
  { intros s' K. apply granted_In in K. rewrite Hafter in K.
    apply blob_lines_In in K. exact (Hlast s' K). }
  assert (Hin' : In (new_entry f s)
                   (assign_all base (before ++ (f, Some s) :: after)))
    by (apply assign_all_last; exact Hnone).
  split; [exact Hin' |].
  intros Hnodup e He Hpath.
  eapply NoDup_map_unique;
    [apply assign_all_NoDup; exact Hnodup | exact He | exact Hin' | exact Hpath].
Qed.

(** ** Unreadable paths *)

Lemma same_calls_refl {A : Type} (m : M A) : same_calls m m.
Proof. intros w w' evs r H. exists evs. auto. Qed.

Lemma same_calls_bind {A B : Type} (m1 m2 : M A) (f1 f2 : A -> M B) :
  same_calls m1 m2 -> (forall a, same_calls (f1 a) (f2 a)) ->
  same_calls (bind m1 f1) (bind m2 f2).
Proof.
  intros Hm Hf w w' evs r H. apply bind_inv in H.
  destruct H as [(w1 & e1 & a & e2 & H1 & H2 & ->) | (x & H1 & ->)].
  - destruct (Hm _ _ _ _ H1) as (e1' & H1' & Hex1).
    destruct (Hf a _ _ _ _ H2) as (e2' & H2' & Hex2).
    exists (e1' ++ e2'). split.
    + unfold bind. rewrite H1', H2'. reflexivity.
    + rewrite !exchanges_app, Hex1, Hex2. reflexivity.
  - destruct (Hm _ _ _ _ H1) as (e1' & H1' & Hex1).
    exists e1'. split; [| exact Hex1].
    unfold bind. rewrite H1'. reflexivity.
Qed.

Lemma bind_run {A B : Type} (m : M A) (f : A -> M B) w w1 e1 a :
  m w = (w1, e1, Ok a) ->
  bind m f w = (let '(w2, e2, r) := f a w1 in (w2, e1 ++ e2, r)).
Proof. intros H. unfold bind. rewrite H. reflexivity. Qed.

(** The tree builder once the directory is known. *)
Lemma tree_builder_skip (self : GitHubIntegration) (base_tree_sha : json)
    (files : list string) w w' evs r w0 e0 dir :
  project_directory w = (w0, e0, Ok dir) ->
  _create_tree_with_changes self base_tree_sha files w = (w', evs, r) ->
  exists evs',
    _create_tree_with_changes self base_tree_sha (filter (readable dir) files) w
    = (w', evs', r)
    /\ exchanges evs' = exchanges evs.
Proof.
  intros Hpd H.
  assert (Hsame : forall d',
             same_calls
               (print [Lit "DEBUG: Creating tree with changes in directory: ";
                       Val d'] ;;;
                tree_response <- http (base_tree_request self base_tree_sha) ;;
                raise_for_status tree_response ;;;
                tree_data <- json_of tree_response ;;
                tree_entries <- build_entries self d' tree_data files ;;
                submit_tree self tree_entries)
               (print [Lit "DEBUG: Creating tree with changes in directory: ";
                       Val d'] ;;;
                tree_response <- http (base_tree_request self base_tree_sha) ;;
                raise_for_status tree_response ;;;
                tree_data <- json_of tree_response ;;
                tree_entries <-
                  build_entries self d' tree_data (filter (readable d') files) ;;
                submit_tree self tree_entries)).
  { intros d'.
    apply same_calls_bind; [apply same_calls_refl | intros _].
    apply same_calls_bind; [apply same_calls_refl | intros tree_response].
    apply same_calls_bind; [apply same_calls_refl | intros _].
    apply same_calls_bind; [apply same_calls_refl | intros tree_data].
    apply same_calls_bind; [| intros tree_entries; apply same_calls_refl].
    intros wa wb ea ra Hb. apply build_entries_skip. exact Hb. }
  unfold _create_tree_with_changes in *.
  apply try_inv in H.
  destruct H as [(a & H1 & ->) | (w1 & e1 & x & e2 & H1 & H2 & ->)];
    apply bind_inv in H1;
    destruct H1 as [(w2 & e3 & d & e4 & Hpd' & Htail & ->) | (x' & Hpd' & Hr)];
    rewrite Hpd in Hpd'; inversion Hpd'; subst; try discriminate Hr.
  - destruct (Hsame _ _ _ _ _ Htail) as (e4' & Htail' & Hex).
    exists (e3 ++ e4'). split.
    + unfold try_except. rewrite (bind_run _ _ _ _ _ _ Hpd). cbv beta.
      rewrite Htail'. reflexivity.
    + rewrite !exchanges_app, Hex. reflexivity.
  - destruct (Hsame _ _ _ _ _ Htail) as (e4' & Htail' & Hex).
    exists ((e3 ++ e4') ++ e2). split.
    + unfold try_except. rewrite (bind_run _ _ _ _ _ _ Hpd). cbv beta.
      rewrite Htail'. rewrite H2. reflexivity.
    + rewrite !exchanges_app, Hex. reflexivity.
Qed.

(** C8.  A supplied path that cannot be read is skipped and the tree is
    built all the same: the run of the tree builder on all the supplied
    paths makes the calls, reaches the state and returns what its run on the
    readable paths alone does, so that the tree-creation call of the one is
    the tree-creation call of the other; the body of that call is
    [{"tree": entries}]; and among these entries an unreadable path has what
    the base tree had for it: its entry, or none. *)
Theorem unreadable_paths_are_skipped (self : GitHubIntegration)
    (base_tree_sha : json) (files : list string) (w w' : World)
    (evs : list event) (r : res json) :
  _create_tree_with_changes self base_tree_sha files w = (w', evs, r) ->
  exists w0 e0 dir evs',
    project_directory w = (w0, e0, Ok dir)
    /\ _create_tree_with_changes self base_tree_sha
         (filter (readable dir) files) w
       = (w', evs', r)
    /\ exchanges evs' = exchanges evs
    /\ forall rq out, In (Call rq out) evs -> is_tree_creation self rq ->
         In (Call rq out) evs'
         /\ exists brsp tree_data base final,
              In (Call (base_tree_request self base_tree_sha) (Ok brsp)) evs
              /\ body_json brsp = Some tree_data
              /\ carried_over tree_data = Ok base
              /\ body rq
                 = Some (JObj [("tree",
                                JArr (map (fun e =>
                                             JObj [("path", path e); ("mode", mode e);
                                                   ("type", type_ e); ("sha", sha e)])
                                        final))])
              /\ forall p, readable dir p = false ->
                   filter (fun e => eq_str (path e) p) final
                   = filter (fun e => eq_str (path e) p) base.
Proof.
  intros H.
  destruct (project_directory_safe w) as (w0 & e0 & dir & Hpd).
  destruct (tree_builder_skip _ _ _ _ _ _ _ _ _ _ Hpd H) as (evs' & Hrun & Hex).
  exists w0, e0, dir, evs'.
  split; [exact Hpd |]. split; [exact Hrun |]. split; [exact Hex |].
  intros rq out Hin Hp. split.
  - assert (Hc : In (Call rq out) (exchanges evs)).
    { unfold exchanges. apply filter_In. split; [exact Hin | reflexivity]. }
    rewrite <- Hex in Hc. unfold exchanges in Hc. apply filter_In in Hc.
    exact (proj1 Hc).
  - destruct (tree_builder_entries _ _ _ _ _ _ _ _ _ H Hin Hp)
      as (w0' & e0' & dir' & brsp & tree_data & base & ups
          & Hpd' & Hlist & Hbody & Hbase & -> & _ & Hread & _).
    rewrite Hpd in Hpd'. inversion Hpd'; subst w0' e0' dir'.
    exists brsp, tree_data, base, (assign_all base ups).
    split; [exact Hlist |]. split; [exact Hbody |]. split; [exact Hbase |].
    split; [reflexivity |].
    intros p Hp'. apply assign_all_untouched.
    intros s Hfs. destruct (Hread p s Hfs) as [Hr _]. congruence.
Qed.

(** ** Committing *)

Lemma tree_builder_call_kind (self : GitHubIntegration) (rq : request) :
  tree_builder_call self rq ->
  ~ is_ref_update rq /\ ~ is_pr_creation self rq /\ ~ is_commit_creation self rq.
Proof.
  unfold is_ref_update, is_pr_creation, is_commit_creation.
  intros [H | [(c & ->) | (l & ->)]].
  - rewrite H. split; [intros K | split; intros [K _]]; discriminate K.
  - unfold blob_request. cbn [meth url].
    split; [discriminate |].
    split; intros [_ K]; inversion K as [K'];
      apply String_append_inj in K'; discriminate K'.
  - unfold tree_request. cbn [meth url].
    split; [discriminate |].
    split; intros [_ K]; inversion K as [K'];
      apply String_append_inj in K'; discriminate K'.
Qed.

Lemma tree_builder_calls (self : GitHubIntegration) (base_tree_sha : json)
    (files : list string) w w' evs r rq out :
  _create_tree_with_changes self base_tree_sha files w = (w', evs, r) ->
  In (Call rq out) evs ->
  ~ is_ref_update rq /\ ~ is_pr_creation self rq /\ ~ is_commit_creation self rq.
Proof.
  intros H Hin. apply tree_builder_emits in H.
  rewrite Forall_forall in H. apply H in Hin.
  apply tree_builder_call_kind. exact Hin.
Qed.

Ltac no_update :=
  let Hin := fresh "Hin" in
  let Hp := fresh "Hp" in
  intros ?rq ?out Hin Hp; unfold is_ref_update in Hp;
  in_events Hin;
  first [ cbn in Hp; discriminate Hp
        | eapply tree_builder_calls in Hin; [| eassumption];
          destruct Hin as [Hin _]; exact (Hin Hp) ].

Ltac prefix_of l :=
  lazymatch l with
  | Call (commit_request _ _ _ _) _ :: _ => constr:(@nil event)
  | ?x :: ?r => let p := prefix_of r in constr:(x :: p)
  | ?a ++ ?r => let p := prefix_of r in constr:(a ++ p)
  end.

Ltac suffix_of l :=
  lazymatch l with
  | Call (commit_request _ _ _ _) _ :: _ => constr:(l)
  | ?x :: ?r => suffix_of r
  | ?a ++ ?r => suffix_of r
  end.

(** The events of a run of [commit_files]: either no ref update at all and
    the result [False], or one ref update, right after the creation of the
    commit it points the branch at. *)
Lemma commit_files_shape (self : GitHubIntegration) (branch_name : string)
    (files : list string) (commit_message : string) w w' evs r :
  commit_files self branch_name files commit_message w = (w', evs, r) ->
  (r = Ok false /\ no_ref_update evs)
  \/ (exists pre tree parent rsp sha line out post,
        evs = pre ++ Call (commit_request self commit_message tree parent) (Ok rsp)
                  :: Print line
                  :: Call (update_ref_request self branch_name sha) out
                  :: post
        /\ status_code rsp = 201 /\ body_sha rsp sha
        /\ no_ref_update pre /\ silent post
        /\ r = Ok (match out with
                   | Ok u => status_code u =? 200
                   | Raised _ => false
                   end)).
Proof.
  unfold commit_files. intros H. exec.
  all: cbn [app]; rewrite <- ?app_assoc; cbn [app].
  all: match goal with
       | |- (_ /\ no_ref_update ?evs) \/ _ =>
           lazymatch evs with
           | context [update_ref_request] =>
               let p := prefix_of evs in
               let s := suffix_of evs in
               right;
               assert (Hsplit : evs = p ++ s)
                 by (cbn [app]; rewrite <- ?app_assoc; cbn [app]; reflexivity);
               rewrite Hsplit; clear Hsplit;
               exists p; do 7 eexists; split; [reflexivity |]
           | _ => left; split; [reflexivity |]
           end
       end.
  all: repeat match goal with
              | |- _ /\ _ => split
              | |- status_code ?a = 201 =>
                  apply Z.eqb_eq; assumption
              | |- body_sha _ _ =>
                  eexists; split; [eassumption | symmetry; eassumption]
              | |- silent _ => intros ?rq ?out Hin; in_events Hin
              | |- Ok _ = Ok _ =>
                  cbn;
                  try match goal with
                      | H : (status_code ?u =? 200) = _ |- _ => rewrite H
                      end;
                  reflexivity
              | |- no_ref_update _ => no_update
              end.
Qed.

(** C2.  In a run of [commit_files], a request that updates the branch ref
    is issued only right after the call that created the commit was
    answered 201, and it points the branch at the sha of that answer; when no
    commit creation was answered 201 the result is [False] and no ref update
    was issued; and when the result is [True], the run ends with the
    creation of the commit, answered 201, followed by the update of the
    branch to that commit, answered 200. *)
Theorem ref_update_only_after_commit_creation (self : GitHubIntegration)
    (branch_name : string) (files : list string) (commit_message : string)
    (w w' : World) (evs : list event) (r : res bool) :
  commit_files self branch_name files commit_message w = (w', evs, r) ->
  (forall rq out, In (Call rq out) evs -> is_ref_update rq ->
     exists pre tree parent rsp sha line post,
       evs = pre ++ Call (commit_request self commit_message tree parent) (Ok rsp)
                 :: Print line :: Call rq out :: post
       /\ status_code rsp = 201 /\ body_sha rsp sha
       /\ rq = update_ref_request self branch_name sha)
  /\ (~ commit_created self evs -> r = Ok false /\ no_ref_update evs)
  /\ (r = Ok true ->
      exists pre tree parent rsp sha line ursp post,
        evs = pre ++ Call (commit_request self commit_message tree parent) (Ok rsp)
                  :: Print line
                  :: Call (update_ref_request self branch_name sha) (Ok ursp)
                  :: post
        /\ status_code rsp = 201 /\ body_sha rsp sha /\ status_code ursp = 200
        /\ no_ref_update pre /\ silent post).
Proof.
  intros H. apply commit_files_shape in H.
  destruct H as [[Hr Hno]
                | (pre & tree & parent & rsp & sha & line & out & post
                   & -> & H201 & Hsha & Hpre & Hpost & Hr)].
  - split; [| split].
    + intros rq out Hin Hp. exfalso. exact (Hno rq out Hin Hp).
    + intros _. split; assumption.
    + intros Ht. rewrite Hr in Ht. discriminate Ht.
  - split; [| split].
    + intros rq out' Hin Hp. apply in_app_iff in Hin.
      destruct Hin as [Hin | [Hin | [Hin | [Hin | Hin]]]].
      * exfalso. exact (Hpre rq out' Hin Hp).
      * inversion Hin; subst. discriminate Hp.
      * discriminate Hin.
      * inversion Hin; subst. exists pre, tree, parent, rsp, sha, line, post. auto.
      * exfalso. exact (Hpost rq out' Hin).
    + intros Hnc. exfalso. apply Hnc. exists (commit_request self commit_message tree parent), rsp.
      split; [apply in_app_iff; right; left; reflexivity |].
      split; [split; reflexivity | exact H201].
    + intros Ht. rewrite Hr in Ht. destruct out as [ursp | x]; [| discriminate Ht].
      inversion Ht as [H200]. apply Z.eqb_eq in H200.
      exists pre, tree, parent, rsp, sha, line, ursp, post. auto 10.
Qed.

(** C7.  Every request of [commit_files] that updates the branch ref
    carries ["force": false]; and when the remote refuses that update (any
    answer other than 200, or none), the result is [False] and the refused
    update is the only ref update of the run: none before it, and no call at
    all after it. *)
Theorem ref_update_never_forced (self : GitHubIntegration)
    (branch_name : string) (files : list string) (commit_message : string)
    (w w' : World) (evs : list event) (r : res bool) :
  commit_files self branch_name files commit_message w = (w', evs, r) ->
  (forall rq out, In (Call rq out) evs -> is_ref_update rq ->
     exists sha,
       body rq = Some (JObj [("sha", sha); ("force", JBool false)]))
  /\ (forall rq out, In (Call rq out) evs -> is_ref_update rq ->
        refused_update out ->
        r = Ok false
        /\ exists pre post,
             evs = pre ++ Call rq out :: post
             /\ no_ref_update pre /\ silent post).
Proof.
  intros H. apply commit_files_shape in H.
  destruct H as [[Hr Hno]
                | (pre & tree & parent & rsp & sha & line & out & post
                   & -> & H201 & Hsha & Hpre & Hpost & Hr)].
  - split; intros rq out Hin Hp; exfalso; exact (Hno rq out Hin Hp).
  - assert (Honly : forall rq out',
               In (Call rq out')
                 (pre ++ Call (commit_request self commit_message tree parent) (Ok rsp)
                      :: Print line
                      :: Call (update_ref_request self branch_name sha) out :: post) ->
               is_ref_update rq ->
               rq = update_ref_request self branch_name sha /\ out' = out).
    { intros rq out' Hin Hp. apply in_app_iff in Hin.
      destruct Hin as [Hin | [Hin | [Hin | [Hin | Hin]]]].
      - exfalso. exact (Hpre rq out' Hin Hp).
      - inversion Hin; subst. discriminate Hp.
      - discriminate Hin.
      - inversion Hin; subst. auto.
      - exfalso. exact (Hpost rq out' Hin). }
    split.
    + intros rq out' Hin Hp. destruct (Honly rq out' Hin Hp) as [-> _].
      exists sha. reflexivity.
    + intros rq out' Hin Hp Href. destruct (Honly rq out' Hin Hp) as [-> ->].
      split.
      * rewrite Hr. destruct out as [u | x]; [| reflexivity].
        simpl in Href. apply Z.eqb_neq in Href. rewrite Href. reflexivity.
      * exists (pre ++ [Call (commit_request self commit_message tree parent) (Ok rsp);
                        Print line]), post.
        split; [rewrite <- app_assoc; reflexivity |].
        split; [| exact Hpost].
        intros rq out' Hin' Hp'. apply in_app_iff in Hin'.
        destruct Hin' as [Hin' | [Hin' | [Hin' | []]]].
        -- exact (Hpre rq out' Hin' Hp').
        -- inversion Hin'; subst. discriminate Hp'.
        -- discriminate Hin'.
Qed.

(** ** The combined workflow *)

Lemma tree_builder_not_pr (self : GitHubIntegration) (e : event) :
  tree_builder_event self e -> not_pr_creation self e.
Proof.
  destruct e as [rq out | line]; simpl; [| auto].
  intros H. apply tree_builder_call_kind in H. tauto.
Qed.

Ltac not_pr :=
  match goal with
  | |- not_pr_creation _ (Print _) => exact I
  | |- not_pr_creation _ (Call _ _) =>
      let K := fresh "K" in
      let K' := fresh "K" in
      let K'' := fresh "K" in
      unfold not_pr_creation, is_pr_creation, ref_request, create_ref_request,
        base_tree_request, commit_request, update_ref_request;
      cbn [meth url];
      intros [K K'];
      first [ discriminate K
            | inversion K' as [K'']; apply String_append_inj in K'';
              discriminate K'' ]
  end.

Lemma create_branch_no_pr (self : GitHubIntegration) (branch_name base_branch : string) :
  emits (not_pr_creation self) (create_branch self branch_name base_branch).
Proof.
  unfold create_branch. repeat emits_step; not_pr.
Qed.

Lemma commit_files_no_pr (self : GitHubIntegration) (branch_name : string)
    (files : list string) (commit_message : string) :
  emits (not_pr_creation self) (commit_files self branch_name files commit_message).
Proof.
  unfold commit_files.
  repeat first
    [ apply (emits_weaken (tree_builder_event self));
        [apply tree_builder_not_pr | apply tree_builder_emits]
    | emits_step ].
  all: not_pr.
Qed.

(** C3.  When, in the combined workflow, the branch was created and the
    commit step then returns [False]: the workflow returns the message
    "Failed to commit files to branch '<branch>'"; its events are those of
    the two steps and nothing more, so no request follows the failed commit
    and the remote is left as that step left it; no call of the run creates a
    pull request; and the call that created [refs/heads/<branch>], answered
    201, is among them. *)
Theorem workflow_stops_after_failed_commit (gi : GitHubIntegration)
    (branch_name : string) (files : list string)
    (commit_message pr_title pr_body : string)
    (w w1 w2 : World) (e1 e2 : list event) :
  create_branch gi branch_name "main" w = (w1, e1, Ok true) ->
  commit_files gi branch_name files commit_message w1 = (w2, e2, Ok false) ->
  create_complete_pr_workflow (Some gi) branch_name files commit_message
    pr_title pr_body w
  = (w2, e1 ++ e2,
     Ok [Lit (mark_fail ^^ " Failed to commit files to branch '"); Lit branch_name;
         Lit "'"])
  /\ no_pr_creation gi (e1 ++ e2)
  /\ exists sha rsp,
       In (Call (mkRequest POST [Lit (base_url gi ^^ "/git/refs")] (self_headers gi)
                   (Some (JObj [("ref", JStr ("refs/heads/" ^^ branch_name));
                                ("sha", sha)])))
             (Ok rsp)) e1
       /\ status_code rsp = 201.
Proof.
  intros Hb Hc. split; [| split].
  - unfold create_complete_pr_workflow, try_except, bind.
    rewrite Hb. cbn. rewrite Hc. cbn. rewrite app_nil_r. reflexivity.
  - intros rq out Hin. apply in_app_iff in Hin. destruct Hin as [Hin | Hin].
    + apply create_branch_no_pr in Hb. rewrite Forall_forall in Hb.
      exact (Hb _ Hin).
    + apply commit_files_no_pr in Hc. rewrite Forall_forall in Hc.
      exact (Hc _ Hin).
  - unfold create_branch in Hb. exec; [| discriminate].
    eexists _, _. split; [| apply Z.eqb_eq; eassumption].
    cbn [app In]. right. left. reflexivity.
Qed.

(** ** The tools *)

(** C4, as the code has it.  Without a configured integration, every tool
    but [validate_files_exist] returns the "not configured" message at once:
    no call, no printed line, the world untouched.  [validate_files_exist]
    does not look at the integration: it makes no call either, and reports on
    the local paths. *)
Theorem unconfigured_tools_short_circuit (c : tool_call) (w : World) :
  match c with
  | ValidateFilesExist files =>
      exists msg, run_tool None c w = (w, [], Ok msg)
  | _ => run_tool None c w = (w, [], Ok not_configured)
  end.
Proof.
  destruct c; try reflexivity.
  cbn [run_tool]. unfold validate_files_exist.
  destruct (partition (path_exists loc) files) as [existing missing].
  destruct missing; eexists; reflexivity.
Qed.

(** The commit tool reports the length of the list it was given. *)
Lemma commit_tool_counts_supplied_paths (gi : GitHubIntegration)
    (branch_name : string) (files : list string) (commit_message : string)
    (w w' : World) (evs : list event) :
  commit_files gi branch_name files commit_message w = (w', evs, Ok true) ->
  commit_files_tool (Some gi) branch_name files commit_message w
  = (w', evs,
     Ok [Lit (mark_ok ^^ " Successfully committed ");
         Num (Z.of_nat (List.length files)); Lit " files to branch '";
         Lit branch_name; Lit "'"]).
Proof.
  intros H. unfold commit_files_tool, bind. rewrite H. cbn.
  rewrite app_nil_r. reflexivity.
Qed.

(** It does so in every run in which the update of the branch was answered
    200. *)
Lemma commit_tool_after_update (gi : GitHubIntegration)
    (branch_name : string) (files : list string) (commit_message : string)
    (w w' : World) (evs : list event) (r : res fstring) :
  commit_files_tool (Some gi) branch_name files commit_message w = (w', evs, r) ->
  (exists rq rsp,
      In (Call rq (Ok rsp)) evs /\ meth rq = PATCH /\ status_code rsp = 200) ->
  r = Ok [Lit (mark_ok ^^ " Successfully committed ");
          Num (Z.of_nat (List.length files)); Lit " files to branch '";
          Lit branch_name; Lit "'"].
Proof.
  unfold commit_files_tool. intros H (rq & rsp & Hin & Hm & H200).
  apply bind_inv in H.
  destruct H as [(w1 & e1 & b & e2 & Hc & Hk & ->) | (x & Hc & ->)].
  - assert (Hb : b = true).
    { assert (Hin1 : In (Call rq (Ok rsp)) e1).
      { apply in_app_iff in Hin. destruct Hin as [Hin | Hin]; [exact Hin |].
        destruct b; unfold ret in Hk; inversion Hk; subst; destruct Hin. }
      destruct (commit_files_shape _ _ _ _ _ _ _ _ Hc)
        as [[_ Hno] | (pre & tree & parent & crsp & sha & line & out & post
                       & Hevs & _ & _ & Hpre & Hpost & Hr)].
      - exfalso. exact (Hno _ _ Hin1 Hm).
      - subst e1. apply in_app_iff in Hin1.
        destruct Hin1 as [Hin1 | [Hin1 | [Hin1 | [Hin1 | Hin1]]]].
        + exfalso. exact (Hpre _ _ Hin1 Hm).
        + inversion Hin1; subst. discriminate Hm.
        + discriminate Hin1.
        + inversion Hin1; subst. apply Z.eqb_eq in H200. rewrite H200 in Hr.
          inversion Hr. reflexivity.
        + exfalso. exact (Hpost _ _ Hin1). }
    subst b. unfold ret in Hk. inversion Hk. reflexivity.
  - exfalso.
    destruct (commit_files_shape _ _ _ _ _ _ _ _ Hc)
      as [[Hr _] | (pre & tree & parent & crsp & sha & line & out & post
                    & _ & _ & _ & _ & _ & Hr)]; discriminate Hr.
Qed.

(** * Further properties of the client and of the tools *)

(** ** Branch creation and pull requests *)

(** X1.  [create_branch] sends its [POST] only right after the [GET] of
    [/git/ref/heads/<base>] was answered with a 2xx; the [POST] goes to
    [/git/refs] with the body [{"ref": "refs/heads/<branch>", "sha": sha}],
    [sha] being [data["object"]["sha"]] of that answer; nothing is sent after
    it; and the result is [True] exactly when the creation was answered
    201. *)
Theorem create_branch_points_at_base_head (self : GitHubIntegration)
    (branch_name base_branch : string) (w w' : World) (evs : list event)
    (r : res bool) :
  create_branch self branch_name base_branch w = (w', evs, r) ->
  (forall rq out, In (Call rq out) evs -> meth rq = POST ->
     exists rsp sha post,
       evs = Call (mkRequest GET
                     [Lit (base_url self ^^ "/git/ref/heads/" ^^ base_branch)]
                     (self_headers self) None) (Ok rsp)
             :: Call rq out :: post
       /\ failed (Ok rsp) = false /\ head_sha rsp sha
       /\ rq = mkRequest POST [Lit (base_url self ^^ "/git/refs")]
                 (self_headers self)
                 (Some (JObj [("ref", JStr ("refs/heads/" ^^ branch_name));
                              ("sha", sha)]))
       /\ silent post)
  /\ (r = Ok true <->
      exists rq rsp,
        In (Call rq (Ok rsp)) evs /\ meth rq = POST /\ status_code rsp = 201).
Proof.
  unfold create_branch. intros H. exec.
  all: cbn [app]; split;
    [ intros rq out Hin Hp; in_events Hin; try discriminate Hp
    | split;
      [ intros Hr; try discriminate Hr
      | intros (rq & rsp & Hin & Hp & Hc); in_events Hin; try discriminate Hp ] ].
  all: try (eexists _, _, _; split; [reflexivity |]; split; [assumption |];
            split; [eexists _, _; split; [eassumption |];
                    split; symmetry; eassumption |];
            split; [reflexivity |];
            intros rq' out' Hin'; in_events Hin').
  all: try (eexists _, _; split; [right; left; reflexivity |];
            split; [reflexivity | apply Z.eqb_eq; assumption]).
  all: try reflexivity.
  all: try (apply Z.eqb_neq in Eb; contradiction).
Qed.

(** X2.  [create_pull_request] makes exactly one call, the [POST] to
    [/pulls] with the body [{"title", "body", "head": <branch>,
    "base": "main"}]; it never raises; and it returns the decoded body of the
    answer when that answer is a 201 with a JSON body, [None] in every other
    case. *)
Theorem create_pull_request_one_call (self : GitHubIntegration)
    (branch_name title body_ : string) (w w' : World) (evs : list event)
    (r : res json) :
  create_pull_request self branch_name title body_ w = (w', evs, r) ->
  exists rq out,
    rq = mkRequest POST [Lit (base_url self ^^ "/pulls")] (self_headers self)
           (Some (JObj [("title", JStr title); ("body", JStr body_);
                        ("head", JStr branch_name); ("base", JStr "main")]))
    /\ send w rq = (w', out)
    /\ exchanges evs = [Call rq out]
    /\ r = Ok (pr_result out).
Proof.
  unfold create_pull_request. intros H. exec.
  all: eexists _, _; split; [reflexivity |]; split; [eassumption |];
    split; [reflexivity |].
  all: unfold pr_result; try rewrite Eb; try rewrite Hbody; reflexivity.
Qed.

(** ** What the tools return *)

Lemma create_branch_safe (self : GitHubIntegration) (branch_name base_branch : string) :
  safe (create_branch self branch_name base_branch).
Proof. unfold create_branch. safe_handler. Qed.

Lemma commit_files_safe (self : GitHubIntegration) (branch_name : string)
    (files : list string) (commit_message : string) :
  safe (commit_files self branch_name files commit_message).
Proof. unfold commit_files. safe_handler. Qed.

(** X3.  Every tool other than [create_pull_request] returns a message,
    whatever the remote answers and whether or not the integration is
    configured: no exception leaves it. *)
Theorem tools_return_a_message (github_integration : option GitHubIntegration)
    (c : tool_call) (w : World) :
  (forall b t d, c <> CreatePullRequest b t d) ->
  exists w' evs msg, run_tool github_integration c w = (w', evs, Ok msg).
Proof.
  intros Hc.
  enough (Hs : safe (run_tool github_integration c)) by apply Hs.
  destruct c; cbn [run_tool].
  - unfold create_branch_tool. destruct github_integration; [| apply safe_ret].
    apply safe_bind; [apply create_branch_safe |].
    intros []; apply safe_ret.
  - unfold commit_files_tool. destruct github_integration; [| apply safe_ret].
    apply safe_bind; [apply commit_files_safe |].
    intros []; apply safe_ret.
  - exfalso. eapply Hc. reflexivity.
  - unfold create_complete_pr_workflow.
    destruct github_integration; [| apply safe_ret].
    apply safe_try. intros e. apply safe_ret.
  - unfold validate_files_exist.
    destruct (partition (path_exists loc) files) as [existing missing].
    destruct missing; apply safe_ret.
  - unfold list_branches. destruct github_integration; [| apply safe_ret].
    apply safe_try. intros e. apply safe_ret.
  - unfold get_repository_status.
    destruct github_integration; [| apply safe_ret].
    apply safe_try. intros e.
    destruct e; try apply safe_ret.
    destruct (status =? 404); [apply safe_ret |].
    destruct (status =? 401); [apply safe_ret |].
    destruct (status =? 403); apply safe_ret.
  - unfold get_current_changes. destruct github_integration; [| apply safe_ret].
    apply safe_try. intros e. apply safe_ret.
Qed.

(** X4.  The [create_pull_request] tool has no handler of its own: when
    the creation is answered 201 with a body that is not empty and has no
    ["number"], the look-up of the key raises out of the tool. *)
Theorem create_pull_request_tool_raises (gi : GitHubIntegration)
    (branch_name title body_ : string) (w w' : World) (rsp : response)
    (v : json) (x : exn) :
  send w (pr_request gi branch_name title body_) = (w', Ok rsp) ->
  status_code rsp = 201 ->
  body_json rsp = Some v ->
  truthy v = true ->
  subscript v "number" = Raised x ->
  create_pull_request_tool (Some gi) branch_name title body_ w
  = (w', [Call (pr_request gi branch_name title body_) (Ok rsp)], Raised x).
Proof.
  intros Hsend Hst Hbody Ht Hn.
  apply Z.eqb_eq in Hst.
  unfold create_pull_request_tool, create_pull_request.
  replay. reflexivity.
Qed.

(** ** The combined workflow, step by step *)

(** X5.  The combined workflow asks for the pull request only after the
    branch step and the commit step have both returned [True]: its events
    are then those of the two steps followed by the creation of the pull
    request, from the branch and with the given title and body, and by no
    other call. *)
Theorem workflow_pr_only_after_commit (gi : GitHubIntegration)
    (branch_name : string) (files : list string)
    (commit_message pr_title pr_body : string)
    (w w' : World) (evs : list event) (r : res fstring) :
  create_complete_pr_workflow (Some gi) branch_name files commit_message
    pr_title pr_body w = (w', evs, r) ->
  forall rq out, In (Call rq out) evs -> is_pr_creation gi rq ->
    exists w1 e1 w2 e2 post,
      create_branch gi branch_name "main" w = (w1, e1, Ok true)
      /\ commit_files gi branch_name files commit_message w1 = (w2, e2, Ok true)
      /\ evs = e1 ++ e2 ++ Call (pr_request gi branch_name pr_title pr_body) out :: post
      /\ rq = pr_request gi branch_name pr_title pr_body
      /\ silent post.
Proof.
  unfold create_complete_pr_workflow, create_pull_request. intros H rq out Hin Hp.
  assert (Hb : forall w0 w1 e1 b,
             create_branch gi branch_name "main" w0 = (w1, e1, b) ->
             ~ In (Call rq out) e1).
  { intros w0 w1 e1 b K Hin1. apply create_branch_no_pr in K.
    rewrite Forall_forall in K. exact (K _ Hin1 Hp). }
  assert (Hc : forall w0 w1 e1 b,
             commit_files gi branch_name files commit_message w0 = (w1, e1, b) ->
             ~ In (Call rq out) e1).
  { intros w0 w1 e1 b K Hin1. apply commit_files_no_pr in K.
    rewrite Forall_forall in K. exact (K _ Hin1 Hp). }
  exec.
  all: in_events Hin.
  all: try (exfalso;
            match goal with
            | K : In (Call _ _) ?e, K' : create_branch _ _ _ _ = (_, ?e, _) |- _ =>
                exact (Hb _ _ _ _ K' K)
            | K : In (Call _ _) ?e, K' : commit_files _ _ _ _ _ = (_, ?e, _) |- _ =>
                exact (Hc _ _ _ _ K' K)
            end).
  all: repeat match goal with
              | K : negb ?b = false |- _ => apply negb_false_iff in K; subst b
              end.
  all: eexists _, _, _, _, _; split; [eassumption |]; split; [eassumption |];
    split; [rewrite <- ?app_assoc; cbn [app]; reflexivity |];
    split; [reflexivity |]; intros rq' out' Hin'; in_events Hin'.
Qed.

(** X6.  The combined workflow stops at the first step that fails, and
    undoes nothing.  When the branch step returns [False], nothing else is
    sent: the events are those of that step.  When the branch and the commit
    went through and the pull request is not created, the events are those
    of the three steps and the commit stays on the branch. *)
Theorem workflow_stops_at_first_failure (gi : GitHubIntegration)
    (branch_name : string) (files : list string)
    (commit_message pr_title pr_body : string) (w : World) :
  (forall w1 e1,
      create_branch gi branch_name "main" w = (w1, e1, Ok false) ->
      create_complete_pr_workflow (Some gi) branch_name files commit_message
        pr_title pr_body w
      = (w1, e1,
         Ok [Lit (mark_fail ^^ " Failed to create branch '"); Lit branch_name;
             Lit "'"]))
  /\ (forall w1 e1 w2 e2 w3 e3 pr_data,
        create_branch gi branch_name "main" w = (w1, e1, Ok true) ->
        commit_files gi branch_name files commit_message w1 = (w2, e2, Ok true) ->
        create_pull_request gi branch_name pr_title pr_body w2
        = (w3, e3, Ok pr_data) ->
        truthy pr_data = false ->
        create_complete_pr_workflow (Some gi) branch_name files commit_message
          pr_title pr_body w
        = (w3, e1 ++ e2 ++ e3,
           Ok [Lit (mark_fail ^^ " Failed to create PR from branch '");
               Lit branch_name; Lit "'"])).
Proof.
  split.
  - intros w1 e1 Hb. unfold create_complete_pr_workflow, try_except, bind.
    rewrite Hb. cbn. rewrite app_nil_r. reflexivity.
  - intros w1 e1 w2 e2 w3 e3 pr_data Hb Hc Hp Ht.
    unfold create_complete_pr_workflow, try_except, bind.
    rewrite Hb. cbn. rewrite Hc. cbn. rewrite Hp. rewrite Ht. cbn.
    rewrite !app_nil_r. reflexivity.
Qed.

(** ** The tree and the commit *)

(** Finding an event in a trace made of sub-traces and single events. *)
Ltac find_in :=
  rewrite <- ?app_assoc; cbn [app];
  repeat (first [left; reflexivity | apply in_or_app; right | right]).

Lemma tree_builder_result (self : GitHubIntegration) (base_tree_sha : json)
    (files : list string) w w' evs r :
  _create_tree_with_changes self base_tree_sha files w = (w', evs, r) ->
  exists v,
    r = Ok v
    /\ (truthy v = true ->
        exists tree_entries rsp,
          In (Call (tree_request self tree_entries) (Ok rsp)) evs
          /\ status_code rsp = 201 /\ body_sha rsp v)
    /\ ((forall rq rsp, In (Call rq (Ok rsp)) evs -> is_tree_creation self rq ->
           status_code rsp <> 201) ->
        v = JNull).
Proof.
  unfold _create_tree_with_changes, submit_tree. intros H. exec.
  all: eexists; split; [reflexivity |].
  all: split; [intros Ht; try discriminate Ht | intros Hno; try reflexivity].
  - eexists _, _. split; [| split; [apply Z.eqb_eq; eassumption |]].
    + find_in.
    + eexists. split; [eassumption | symmetry; eassumption].
  - exfalso. apply Z.eqb_eq in Eb.
    match goal with
    | K : send _ (tree_request self ?l) = (_, Ok ?rsp) |- _ =>
        apply (Hno (tree_request self l) rsp)
    end; [find_in | split; reflexivity | exact Eb].
Qed.

(** X7.  The tree builder never raises, and it returns a tree identifier
    other than [None] only when its tree-creation call was answered 201: the
    identifier is then the sha of that answer; when no tree creation was
    answered 201 it returns [None]. *)
Theorem tree_builder_returns_confirmed_tree (self : GitHubIntegration)
    (base_tree_sha : json) (files : list string) (w w' : World)
    (evs : list event) (r : res json) :
  _create_tree_with_changes self base_tree_sha files w = (w', evs, r) ->
  exists v,
    r = Ok v
    /\ (truthy v = true ->
        exists tree_entries rsp,
          In (Call (tree_request self tree_entries) (Ok rsp)) evs
          /\ status_code rsp = 201 /\ body_sha rsp v)
    /\ ((forall rq rsp, In (Call rq (Ok rsp)) evs -> is_tree_creation self rq ->
           status_code rsp <> 201) ->
        v = JNull).
Proof. apply tree_builder_result. Qed.

Ltac find_in_with H :=
  rewrite <- ?app_assoc; cbn [app];
  repeat (first [ left; reflexivity
                | apply in_or_app; left; exact H
                | apply in_or_app; right
                | right ]).

(** X8.  The commit that [commit_files] asks for has exactly one parent,
    the head of the branch as read at the start of the run, and its tree is
    the sha with which the remote answered, 201, the creation of the new tree
    in the same run. *)
Theorem commit_has_head_as_parent (self : GitHubIntegration)
    (branch_name : string) (files : list string) (commit_message : string)
    (w w' : World) (evs : list event) (r : res bool) :
  commit_files self branch_name files commit_message w = (w', evs, r) ->
  forall rq out, In (Call rq out) evs -> is_commit_creation self rq ->
    exists hrsp head tree_entries trsp tree,
      In (Call (branch_head_request self branch_name) (Ok hrsp)) evs
      /\ head_sha hrsp head
      /\ In (Call (tree_request self tree_entries) (Ok trsp)) evs
      /\ status_code trsp = 201 /\ body_sha trsp tree
      /\ rq = commit_request self commit_message tree head
      /\ body rq = Some (JObj [("message", JStr commit_message); ("tree", tree);
                               ("parents", JArr [head])]).
Proof.
  unfold commit_files. intros H rq out Hin Hp. exec.
  all: in_events Hin.
  all: try (destruct Hp as [Hm _]; cbn in Hm; discriminate Hm).
  all: try (exfalso; eapply tree_builder_calls in Hin; [| eassumption]; tauto).
  all: match goal with
       | K : _create_tree_with_changes _ _ _ _ = (_, _, Ok ?t),
         Kt : negb (truthy ?t) = false |- _ =>
           apply tree_builder_result in K;
           destruct K as (tv & Hv & Htr & _);
           inversion Hv; subst tv;
           apply negb_false_iff in Kt;
           destruct (Htr Kt) as (tree_entries & trsp & Hint & H201 & Hsha)
       end.
  all: eexists _, _, tree_entries, trsp, _.
  all: split; [left; reflexivity |].
  all: split; [eexists _, _; split; [eassumption |]; split; symmetry; eassumption |].
  all: split; [find_in_with Hint |].
  all: split; [exact H201 |]; split; [exact Hsha |]; split; reflexivity.
Qed.

(** X9.  When no blob-creation call of a run of the tree builder is
    answered 201 (every supplied path was unreadable, refused as a blob, or
    the call failed), the body of the tree-creation call is
    [{"tree": entries}] with exactly the entries kept of the base tree, in
    their order: the tree that is submitted changes no file. *)
Theorem no_blob_leaves_base_entries (self : GitHubIntegration)
    (base_tree_sha : json) (files : list string) (w w' : World)
    (evs : list event) (r : res json) :
  _create_tree_with_changes self base_tree_sha files w = (w', evs, r) ->
  (forall brq rsp, In (Call brq (Ok rsp)) evs ->
     url brq = [Lit (base_url self ^^ "/git/blobs")] -> status_code rsp <> 201) ->
  forall rq out, In (Call rq out) evs -> is_tree_creation self rq ->
    exists brsp tree_data base,
      In (Call (base_tree_request self base_tree_sha) (Ok brsp)) evs
      /\ body_json brsp = Some tree_data
      /\ carried_over tree_data = Ok base
      /\ body rq
         = Some (JObj [("tree",
                        JArr (map (fun e => JObj [("path", path e); ("mode", mode e);
                                                  ("type", type_ e); ("sha", sha e)])
                                base))]).
Proof.
  intros H Hno rq out Hin Hp.
  destruct (tree_builder_entries _ _ _ _ _ _ _ _ _ H Hin Hp)
    as (w0 & e0 & dir & brsp & tree_data & base & ups
        & _ & Hlist & Hbody & Hbase & -> & _ & _ & Hcreated).
  exists brsp, tree_data, base.
  split; [exact Hlist |]. split; [exact Hbody |]. split; [exact Hbase |].
  rewrite assign_all_nothing; [reflexivity |].
  intros f s Hfs.
  destruct (Hcreated f s Hfs) as (brq & rsp & Hc & Hurl & H201).
  exact (Hno brq rsp Hc Hurl H201).
Qed.

(** ** The project directory *)

(** X10.  The look-up of the project directory makes one call, to the
    local project service, and never raises.  It returns the directory the
    service names only when the service answered 200 with a JSON object whose
    ["project_info"] has a ["directory"] that is not empty; in every other
    case it returns the working directory of the process. *)
Theorem project_directory_falls_back_to_cwd (w w' : World) (evs : list event)
    (r : res json) :
  project_directory w = (w', evs, r) ->
  exists out dir,
    send w config_request = (w', out)
    /\ exchanges evs = [Call config_request out]
    /\ r = Ok dir
    /\ (dir = JStr (getcwd loc)
        \/ (truthy dir = true
            /\ exists rsp data project_info,
                 out = Ok rsp /\ status_code rsp = 200
                 /\ body_json rsp = Some data
                 /\ dict_get data "project_info" (JObj []) = Ok project_info
                 /\ subscript project_info "directory" = Ok dir)).
Proof.
  unfold project_directory. intros H. exec.
  all: try match goal with
           | K : negb (truthy JNull) = false |- _ => discriminate K
           end.
  all: eexists _, _; split; [eassumption |]; split; [reflexivity |];
    split; [reflexivity |].
  all: try (left; reflexivity).
  right. split; [apply negb_false_iff; assumption |].
  eexists _, _, _. split; [reflexivity |].
  split; [apply Z.eqb_eq; assumption |].
  split; [eassumption |]. split; symmetry; eassumption.
Qed.

(** ** The tools that only read *)

Lemma list_branches_reads (github_integration : option GitHubIntegration) :
  emits read_event (list_branches github_integration).
Proof.
  unfold list_branches. repeat emits_step; try exact I. reflexivity.
Qed.

Lemma get_repository_status_reads (github_integration : option GitHubIntegration) :
  emits read_event (get_repository_status github_integration).
Proof.
  unfold get_repository_status. repeat emits_step; try exact I; reflexivity.
Qed.

Lemma get_current_changes_reads (github_integration : option GitHubIntegration) :
  emits config_event (get_current_changes github_integration).
Proof.
  unfold get_current_changes, project_directory_logged.
  repeat (cbv zeta; emits_step); try exact I. reflexivity.
Qed.

(** X11.  The listing tools never write to the repository: every call of
    [list_branches] and of [get_repository_status] is a [GET];
    [get_current_changes] does not contact the repository at all, its only
    call being the read of the local project service; and
    [validate_files_exist] makes no call. *)
Theorem reading_tools_only_read (github_integration : option GitHubIntegration)
    (c : tool_call) (w w' : World) (evs : list event) (r : res fstring) :
  run_tool github_integration c w = (w', evs, r) ->
  forall rq out, In (Call rq out) evs ->
    (c = ListBranches \/ c = GetRepositoryStatus -> meth rq = GET)
    /\ (c = GetCurrentChanges -> rq = config_request)
    /\ (forall files, c <> ValidateFilesExist files).
Proof.
  intros H rq out Hin. split; [| split].
  - intros [-> | ->]; cbn [run_tool] in H.
    + apply list_branches_reads in H. rewrite Forall_forall in H.
      exact (H _ Hin).
    + apply get_repository_status_reads in H. rewrite Forall_forall in H.
      exact (H _ Hin).
  - intros ->. cbn [run_tool] in H.
    apply get_current_changes_reads in H. rewrite Forall_forall in H.
    exact (H _ Hin).
  - intros files ->. cbn [run_tool] in H. unfold validate_files_exist in H.
    destruct (partition (path_exists loc) files) as [existing missing].
    destruct missing; unfold ret in H; inversion H; subst; destruct Hin.
Qed.

(** ** The repository status *)

Ltac exec_handlers :=
  repeat first
    [ exec1
    | match goal with
      | H : (match ?e with
             | RequestError _ => _ | HTTPStatusError _ _ => _
             | JSONDecodeError => _ | KeyError _ => _ | TypeError => _
             | AttributeError => _ | OSError _ => _ | OtherError _ => _
             end) _ = (_, _, _) |- _ =>
          first [progress cbn beta iota in H | destruct e]
      end ].

(** X12.  [get_repository_status] turns the first failing call into a
    message of its own: "not found" for a 404, "authentication failed" for a
    401, "access forbidden" for a 403, the code and the body for any other
    status outside 2xx, and "network error" when the call got no answer. *)
Theorem repository_status_reports_failures (gi : GitHubIntegration)
    (w w' : World) (evs : list event) (r : res fstring) :
  get_repository_status (Some gi) w = (w', evs, r) ->
  (forall rq rsp, In (Call rq (Ok rsp)) evs -> failed (Ok rsp) = true ->
     r = Ok (if status_code rsp =? 404 then
               [Lit (mark_fail ^^ " Repository not found. Please check if the repository exists and you have access to it.")]
             else if status_code rsp =? 401 then
               [Lit (mark_fail ^^ " Authentication failed. Please check your GitHub token.")]
             else if status_code rsp =? 403 then
               [Lit (mark_fail ^^ " Access forbidden. Please check your GitHub token permissions.")]
             else
               [Lit (mark_fail ^^ " HTTP error "); Num (status_code rsp);
                Lit ": "; Lit (text rsp)]))
  /\ (forall rq msg, In (Call rq (Raised (RequestError msg))) evs ->
        r = Ok [Lit (mark_fail ^^ " Network error: "); Err (RequestError msg)]).
Proof.
  unfold get_repository_status. intros H. exec_handlers.
  all: split; [intros ? ? Hin Hf | intros ? ? Hin]; in_events Hin.
  all: try congruence.
  all: repeat match goal with
              | K : (?c =? ?n) = _ |- context [?c =? ?n] => rewrite K
              end.
  all: reflexivity.
Qed.

(** ** The change detector *)

Lemma lstrip_head (s : string) (c : ascii) (r : string) :
  lstrip s = String c r -> is_space c = false.
Proof.
  induction s as [| a s IH]; cbn [lstrip]; [discriminate |].
  destruct (is_space a) eqn:Ea; [exact IH |].
  intros H. inversion H; subst. exact Ea.
Qed.

Lemma rstrip_head (c : ascii) (r : string) :
  rstrip (String c r) = EmptyString \/ exists t, rstrip (String c r) = String c t.
Proof.
  cbn [rstrip]. destruct (rstrip r).
  - destruct (is_space c); [left; reflexivity | right; eexists; reflexivity].
  - right. eexists. reflexivity.
Qed.

(** The first line of a listing that is not blank is not empty. *)
Lemma status_lines_first (out first : string) (rest : list string) :
  status_lines out = first :: rest -> nonempty first = true.
Proof.
  unfold status_lines, strip.
  destruct (lstrip out) as [| c r] eqn:El; [discriminate |].
  apply lstrip_head in El.
  destruct (rstrip_head c r) as [-> | (t & ->)]; [discriminate |].
  cbn [nonempty String.eqb negb]. cbn [split_lines].
  replace (Ascii.eqb c "010"%char) with false.
  - destruct (split_lines t); intros H; inversion H; reflexivity.
  - symmetry. apply Ascii.eqb_neq. intros ->. discriminate El.
Qed.

(** X13.  What the change detector answers once the directory is known:
    an error message when [git status] cannot be run; the error output of
    git when it exits with a code other than 0; and otherwise either "no
    changes" when no line of the listing is recognised (an empty listing, or
    only lines with a status the loop does not know), or the report on
    exactly the paths the loop collected. *)
Theorem change_detector_outcomes (gi : GitHubIntegration) (w w1 : World)
    (e1 : list event) (dir : json) :
  project_directory_logged w = (w1, e1, Ok dir) ->
  (forall x, git_status loc dir = Raised x ->
     snd (get_current_changes (Some gi) w)
     = Ok [Lit (mark_fail ^^ " Error checking current changes: "); Err x])
  /\ (forall result, git_status loc dir = Ok result -> returncode result <> 0 ->
        snd (get_current_changes (Some gi) w)
        = Ok [Lit (mark_fail ^^ " Could not check git status: ");
              Lit (stderr result)])
  /\ (forall result, git_status loc dir = Ok result -> returncode result = 0 ->
        snd (get_current_changes (Some gi) w)
        = Ok (match changed_files_of (status_lines (stdout result)) with
              | [] => no_changes
              | changed_files => changes_report changed_files (now_stamp loc)
              end)).
Proof.
  intros Hpd. split; [| split].
  - intros x Hg. unfold get_current_changes, try_except, bind, lift, print, ret.
    rewrite Hpd, Hg. reflexivity.
  - intros result Hg Hrc. apply Z.eqb_neq in Hrc.
    unfold get_current_changes, try_except, bind, lift, print, ret.
    rewrite Hpd, Hg. cbn [snd fst]. rewrite Hrc. reflexivity.
  - intros result Hg Hrc. apply Z.eqb_eq in Hrc.
    unfold get_current_changes, try_except, bind, lift, print, ret.
    rewrite Hpd, Hg. cbn [snd fst]. rewrite Hrc.
    destruct (status_lines (stdout result)) as [| first rest] eqn:El;
      [reflexivity |].
    rewrite (status_lines_first _ _ _ El).
    destruct (changed_files_of (first :: rest)); reflexivity.
Qed.

(** ** Validation of local paths *)

Lemma filter_all {A : Type} (f : A -> bool) (l : list A) :
  forallb f l = true ->
  filter f l = l /\ filter (fun x => negb (f x)) l = [].
Proof.
  induction l as [| a l IH]; cbn [forallb filter]; [auto |].
  intros H. apply andb_true_iff in H. destruct H as [Ha Hl].
  rewrite Ha. cbn [negb]. destruct (IH Hl) as [-> ->]. auto.
Qed.

Lemma filter_not_all {A : Type} (f : A -> bool) (l : list A) :
  forallb f l = false -> filter (fun x => negb (f x)) l <> [].
Proof.
  induction l as [| a l IH]; cbn [forallb filter]; [discriminate |].
  destruct (f a); cbn [negb andb]; [exact IH | discriminate].
Qed.

(** X14.  [validate_files_exist] makes no call and prints nothing.  It
    answers "All files exist" with the given list exactly when every given
    path exists, so also for an empty list; otherwise it lists the missing
    paths, then the existing ones, each in the order given. *)
Theorem validate_files_exist_reports (files : list string) (w : World) :
  validate_files_exist files w
  = (w, [],
     Ok (if forallb (path_exists loc) files then
           [Lit (mark_ok ^^ " All files exist: "); Lit (String.concat ", " files)]
         else
           [Lit (mark_fail ^^ " Some files do not exist: ");
            Lit (String.concat ", "
                   (filter (fun f => negb (path_exists loc f)) files));
            Lit (nl ^^ mark_ok ^^ " Existing files: ");
            Lit (String.concat ", " (filter (path_exists loc) files))])).
Proof.
  unfold validate_files_exist. rewrite partition_as_filter.
  destruct (forallb (path_exists loc) files) eqn:Ha.
  - destruct (filter_all _ _ Ha) as [-> ->]. reflexivity.
  - apply filter_not_all in Ha.
    destruct (filter (fun x => negb (path_exists loc x)) files); [congruence |].
    reflexivity.
Qed.

End Remote.

(** * Runs on scripted remotes *)

(** C4, as stated, fails: without a configured integration
    [validate_files_exist] does not answer "not configured"; asked about a
    path that does not exist it reports the missing file. *)
Lemma validate_files_exist_is_not_guarded :
  ~ (forall c : tool_call,
       run_tool Script play (machine [] "") None c []
       = ([], [], Ok not_configured)).
Proof.
  intros H. specialize (H (ValidateFilesExist ["README.md"])).
  vm_compute in H. discriminate H.
Qed.

(** C1, as stated, fails.  [README.md] is supplied twice; the blob of the
    first occurrence is created (201, ["b2"]), the blob of the second is
    refused (500).  The tree that is submitted carries ["b2"] for
    [README.md]: the blob of the first occurrence, not of the last.  The
    second run has a base tree whose listing names [a.txt] twice and no
    supplied file: both items are submitted, two entries for one path. *)
Theorem last_occurrence_refused_keeps_earlier_blob :
  let hdrs := [("Authorization", "token t0k3n");
               ("Accept", "application/vnd.github.v3+json")] in
  let blob p s :=
    JObj [("path", JStr p); ("mode", JStr "100644"); ("type", JStr "blob");
          ("sha", JStr s)] in
  let blob_rq :=
    mkRequest POST [Lit "https://api.github.com/repos/octo/demo/git/blobs"] hdrs
      (Some (JObj [("content", JStr "eA=="); ("encoding", JStr "base64")])) in
  let list_rq :=
    mkRequest GET [Lit "https://api.github.com/repos/octo/demo/git/trees/";
                   Val (JStr "t0"); Lit "?recursive=1"] hdrs None in
  let tree_rq entries :=
    mkRequest POST [Lit "https://api.github.com/repos/octo/demo/git/trees"] hdrs
      (Some (JObj [("tree", JArr entries)])) in
  let listing :=
    JObj [("sha", JStr "t0");
          ("tree", JArr [blob "README.md" "b0";
                         JObj [("path", JStr "src"); ("mode", JStr "040000");
                               ("type", JStr "tree"); ("sha", JStr "d0")];
                         blob "src/app.py" "b1"])] in
  let doubled :=
    JObj [("sha", JStr "t0"); ("tree", JArr [blob "a.txt" "b0"; blob "a.txt" "b1"])] in
  let refusal := Ok (mkResponse 500 "Server Error" None) in
  exchanges
    (snd (fst (_create_tree_with_changes Script play (machine ["README.md"] "") repo
                 (JStr "t0") ["README.md"; "README.md"]
                 [refused; answer 200 listing; sha_answer 201 "b2"; refusal;
                  sha_answer 201 "t1"])))
  = [Call config_request refused;
     Call list_rq (answer 200 listing);
     Call blob_rq (sha_answer 201 "b2");
     Call blob_rq refusal;
     Call (tree_rq [blob "src/app.py" "b1"; blob "README.md" "b2"])
       (sha_answer 201 "t1")]
  /\ exchanges
       (snd (fst (_create_tree_with_changes Script play (machine [] "") repo
                    (JStr "t0") []
                    [refused; answer 200 doubled; sha_answer 201 "t1"])))
     = [Call config_request refused;
        Call list_rq (answer 200 doubled);
        Call (tree_rq [blob "a.txt" "b0"; blob "a.txt" "b1"]) (sha_answer 201 "t1")].
Proof. split; vm_compute; reflexivity. Qed.

(** C5.  The listing of one file modified in the working tree and not
    staged, [" M foo.py"], makes the change detector report the path
    ["oo.py"]: the strip of the whole output removes the leading blank of the
    first line, and the path is then cut one character too far.  Files with a
    two-letter status ([MM], [AM]) are not reported at all. *)
Theorem change_detector_misreads_first_line :
  changed_files_of (status_lines (" M foo.py" ^^ nl)) = ["oo.py"]
  /\ changed_files_of (status_lines ("MM a.py" ^^ nl ^^ "AM b.py" ^^ nl ^^ " M c.py" ^^ nl))
     = ["c.py"]
  /\ snd (get_current_changes Script play (machine [] (" M foo.py" ^^ nl))
            (Some repo) [])
     = Ok (changes_report ["oo.py"] "20250101-120000").
Proof. repeat split; vm_compute; reflexivity. Qed.

(** C10.  Whenever the commit succeeds, the commit tool answers
    "Successfully committed N files to branch ..." with N the length of the
    list it was given, duplicates and skipped paths included; it does so in
    every run in which the update of the branch was answered 200.  In the run
    below the same unreadable path is given twice: no blob is sent, the body
    of the tree-creation call lists the two blobs of the base tree with the
    shas the listing gave, and the tool reports 2 files. *)
Theorem commit_tool_reports_supplied_count :
  (forall (World : Type) (send : World -> request -> World * res response)
     (loc : Local) (gi : GitHubIntegration) (branch_name : string)
     (files : list string) (commit_message : string) (w w' : World)
     (evs : list event),
      commit_files World send loc gi branch_name files commit_message w
      = (w', evs, Ok true) ->
      commit_files_tool World send loc (Some gi) branch_name files commit_message w
      = (w', evs,
         Ok [Lit (mark_ok ^^ " Successfully committed ");
             Num (Z.of_nat (List.length files)); Lit " files to branch '";
             Lit branch_name; Lit "'"]))
  /\ (forall (World : Type) (send : World -> request -> World * res response)
        (loc : Local) (gi : GitHubIntegration) (branch_name : string)
        (files : list string) (commit_message : string) (w w' : World)
        (evs : list event) (r : res fstring),
         commit_files_tool World send loc (Some gi) branch_name files
           commit_message w = (w', evs, r) ->
         (exists rq rsp,
             In (Call rq (Ok rsp)) evs /\ meth rq = PATCH
             /\ status_code rsp = 200) ->
         r = Ok [Lit (mark_ok ^^ " Successfully committed ");
                 Num (Z.of_nat (List.length files)); Lit " files to branch '";
                 Lit branch_name; Lit "'"])
  /\ (let hdrs := [("Authorization", "token t0k3n");
                   ("Accept", "application/vnd.github.v3+json")] in
      let blob p s :=
        JObj [("path", JStr p); ("mode", JStr "100644"); ("type", JStr "blob");
              ("sha", JStr s)] in
      let listing :=
        JObj [("sha", JStr "t0");
              ("tree", JArr [blob "README.md" "b0";
                             JObj [("path", JStr "src"); ("mode", JStr "040000");
                                   ("type", JStr "tree"); ("sha", JStr "d0")];
                             blob "src/app.py" "b1"])] in
      let run :=
        commit_files_tool Script play (machine [] "") (Some repo) "feature-x"
          ["gone.txt"; "gone.txt"] "update"
          [head_answer "object" "c0"; head_answer "tree" "t0"; refused;
           answer 200 listing; sha_answer 201 "t1"; sha_answer 201 "c1";
           answer 200 JNull] in
      snd run
      = Ok [Lit (mark_ok ^^ " Successfully committed "); Num 2;
            Lit " files to branch '"; Lit "feature-x"; Lit "'"]
      /\ In (Call (mkRequest GET
                     [Lit "https://api.github.com/repos/octo/demo/git/trees/";
                      Val (JStr "t0"); Lit "?recursive=1"] hdrs None)
               (answer 200 listing))
            (snd (fst run))
      /\ In (Call (mkRequest POST
                     [Lit "https://api.github.com/repos/octo/demo/git/trees"] hdrs
                     (Some (JObj [("tree", JArr [blob "README.md" "b0";
                                                 blob "src/app.py" "b1"])])))
               (sha_answer 201 "t1"))
            (snd (fst run))
      /\ forall rq out, In (Call rq out) (snd (fst run)) ->
           url rq <> [Lit "https://api.github.com/repos/octo/demo/git/blobs"]).
Proof.
  split; [| split].
  - intros. apply commit_tool_counts_supplied_paths. assumption.
  - intros World send loc gi branch_name files commit_message w w' evs r H Hup.
    exact (commit_tool_after_update World send loc gi branch_name files
             commit_message w w' evs r H Hup).
  - cbv zeta. split; [vm_compute; reflexivity |].
    split; [vm_compute; repeat (first [left; reflexivity | right]) |].
    split; [vm_compute; repeat (first [left; reflexivity | right]) |].
    intros rq out Hin Hurl. vm_compute in Hin.
    repeat (destruct Hin as [Hin | Hin];
            [try discriminate Hin; inversion Hin; subst; discriminate Hurl |]).
    destruct Hin.
Qed.

(** ** The theorems at concrete runs *)

(** Branch creation from a base branch that does not exist. *)
Lemma create_branch_false_on_failure_witness :
  let rsp := mkResponse 404 "Not Found" None in
  let evs :=
    [Call (ref_request repo "nope") (Ok rsp);
     Print [Lit "Error creating branch: "; Err (HTTPStatusError 404 "Not Found")]] in
  create_branch Script play repo "feature-x" "nope" [Ok rsp] = ([], evs, Ok false)
  /\ (exists b, Ok false = Ok b)
  /\ (forall rq out, In (Call rq out) evs -> failed out = true ->
        Ok false = Ok false /\ exists line, In (Print line) evs).
Proof.
  cbv zeta. split; [reflexivity |].
  apply (create_branch_false_on_failure Script play repo "feature-x" "nope"
           [Ok (mkResponse 404 "Not Found" None)] []).
  reflexivity.
Defined.

(** The tree submitted when [README.md] is supplied twice, with another
    file between. *)
Lemma tree_entries_one_per_path_last_write_wins_witness :
  let m := machine ["README.md"; "new.txt"] "" in
  let files := ["README.md"; "new.txt"; "README.md"] in
  let script := [refused; answer 200 base_tree; sha_answer 201 "b2";
                 sha_answer 201 "b3"; sha_answer 201 "b4"; sha_answer 201 "t1"] in
  let run := _create_tree_with_changes Script play m repo (JStr "t0") files script in
  let evs := snd (fst run) in
  let entry p s := mkEntry (JStr p) (JStr "100644") (JStr "blob") (JStr s) in
  let final := [entry "src/app.py" "b1"; entry "new.txt" "b3"; entry "README.md" "b4"] in
  let rq := tree_request repo final in
  run = ([], evs, Ok (JStr "t1"))
  /\ In (Call rq (sha_answer 201 "t1")) evs
  /\ is_tree_creation repo rq
  /\ exists brsp tree_data base final',
       In (Call (base_tree_request repo (JStr "t0")) (Ok brsp)) evs
       /\ body_json brsp = Some tree_data
       /\ carried_over tree_data = Ok base
       /\ body rq
          = Some (JObj [("tree",
                         JArr (map (fun e => JObj [("path", path e); ("mode", mode e);
                                                   ("type", type_ e); ("sha", sha e)])
                                 final'))])
       /\ (NoDup (map path base) -> NoDup (map path final'))
       /\ (forall e, In e final' ->
             In e base
             \/ exists f s,
                  In f files /\ In (created_line f s) evs
                  /\ e = mkEntry (JStr f) (JStr "100644") (JStr "blob") s)
       /\ (forall e, In e base ->
             (forall f s, In (created_line f s) evs -> path e <> JStr f) ->
             In e final')
       /\ (forall pre f s post,
             evs = pre ++ created_line f s :: post ->
             (forall s', ~ In (created_line f s') post) ->
             In (mkEntry (JStr f) (JStr "100644") (JStr "blob") s) final'
             /\ (NoDup (map path base) ->
                 forall e, In e final' -> path e = JStr f ->
                   e = mkEntry (JStr f) (JStr "100644") (JStr "blob") s)).
Proof.
  cbv zeta.
  set (final := [mkEntry (JStr "src/app.py") (JStr "100644") (JStr "blob") (JStr "b1");
                 mkEntry (JStr "new.txt") (JStr "100644") (JStr "blob") (JStr "b3");
                 mkEntry (JStr "README.md") (JStr "100644") (JStr "blob") (JStr "b4")]).
  set (script := [refused; answer 200 base_tree; sha_answer 201 "b2";
                  sha_answer 201 "b3"; sha_answer 201 "b4"; sha_answer 201 "t1"]).
  assert (Hin : In (Call (tree_request repo final) (sha_answer 201 "t1"))
                  (snd (fst (_create_tree_with_changes Script play
                               (machine ["README.md"; "new.txt"] "") repo (JStr "t0")
                               ["README.md"; "new.txt"; "README.md"] script)))).
  { vm_compute. repeat (first [left; reflexivity | right]). }
  assert (Hp : is_tree_creation repo (tree_request repo final))
    by (split; reflexivity).
  split; [reflexivity |]. split; [exact Hin |]. split; [exact Hp |].
  exact (tree_entries_one_per_path_last_write_wins Script play
           (machine ["README.md"; "new.txt"] "") repo (JStr "t0")
           ["README.md"; "new.txt"; "README.md"] script _ _ _ eq_refl
           _ _ Hin Hp).
Defined.

(** The tree submitted for one unreadable and one readable path. *)
Lemma unreadable_paths_are_skipped_witness :
  let m := machine ["README.md"] "" in
  let script := [refused; answer 200 base_tree; sha_answer 201 "b2";
                 sha_answer 201 "t1"] in
  let run := _create_tree_with_changes Script play m repo (JStr "t0")
               ["gone.txt"; "README.md"] script in
  let evs := snd (fst run) in
  run = ([], evs, Ok (JStr "t1"))
  /\ filter (readable m (JStr "/work")) ["gone.txt"; "README.md"] = ["README.md"]
  /\ exists w0 e0 dir evs',
       project_directory Script play m script = (w0, e0, Ok dir)
       /\ _create_tree_with_changes Script play m repo (JStr "t0")
            (filter (readable m dir) ["gone.txt"; "README.md"]) script
          = ([], evs', Ok (JStr "t1"))
       /\ exchanges evs' = exchanges evs
       /\ forall rq out, In (Call rq out) evs -> is_tree_creation repo rq ->
            In (Call rq out) evs'
            /\ exists brsp tree_data base final,
                 In (Call (base_tree_request repo (JStr "t0")) (Ok brsp)) evs
                 /\ body_json brsp = Some tree_data
                 /\ carried_over tree_data = Ok base
                 /\ body rq
                    = Some (JObj [("tree",
                                   JArr (map (fun e =>
                                                JObj [("path", path e);
                                                      ("mode", mode e);
                                                      ("type", type_ e);
                                                      ("sha", sha e)])
                                           final))])
                 /\ forall p, readable m dir p = false ->
                      filter (fun e => eq_str (path e) p) final
                      = filter (fun e => eq_str (path e) p) base.
Proof.
  cbv zeta. split; [reflexivity |]. split; [reflexivity |].
  exact (unreadable_paths_are_skipped Script play (machine ["README.md"] "") repo
           (JStr "t0") ["gone.txt"; "README.md"]
           [refused; answer 200 base_tree; sha_answer 201 "b2"; sha_answer 201 "t1"]
           _ _ _ eq_refl).
Defined.

(** The same run, for the provenance of the entries. *)
Lemma only_blob_entries_are_submitted_witness :
  let m := machine ["README.md"] "" in
  let files := ["gone.txt"; "README.md"] in
  let final := [new_entry "src/app.py" (JStr "b1"); new_entry "README.md" (JStr "b2")] in
  let run := build_entries Script play m repo work_dir base_tree files
               [sha_answer 201 "b2"] in
  run = ([], snd (fst run), Ok final)
  /\ exists items,
       tree_items base_tree = Ok items
       /\ (forall e, In e final ->
             type_ e = JStr "blob"
             /\ ((exists item,
                     In item items /\ is_blob_item item = true
                     /\ e = entry_of_item item)
                 \/ (exists f s, In f files /\ e = new_entry f s)))
       /\ (forall item, In item items -> is_blob_item item = false ->
             forall e, In e final -> entry_json e <> item).
Proof.
  cbv zeta. split; [reflexivity |].
  eapply (only_blob_entries_are_submitted Script play (machine ["README.md"] "")
            repo work_dir base_tree ["gone.txt"; "README.md"]
            [sha_answer 201 "b2"] []).
  reflexivity.
Defined.

(** A commit of one file that goes through. *)
Lemma ref_update_only_after_commit_creation_witness :
  let run :=
    commit_files Script play (machine ["README.md"] "") repo "feature-x"
      ["README.md"] "docs: update"
      (commit_exchange [sha_answer 201 "b2"] (answer 200 JNull)) in
  let evs := snd (fst run) in
  run = ([], evs, Ok true)
  /\ exists pre tree parent rsp sha line ursp post,
       evs = pre ++ Call (commit_request repo "docs: update" tree parent) (Ok rsp)
                 :: Print line
                 :: Call (update_ref_request repo "feature-x" sha) (Ok ursp)
                 :: post
       /\ status_code rsp = 201 /\ body_sha rsp sha /\ status_code ursp = 200
       /\ no_ref_update pre /\ silent post.
Proof.
  cbv zeta. split; [reflexivity |].
  apply (ref_update_only_after_commit_creation Script play
           (machine ["README.md"] "") repo "feature-x" ["README.md"]
           "docs: update"
           (commit_exchange [sha_answer 201 "b2"] (answer 200 JNull))
           [] _ (Ok true) eq_refl).
  reflexivity.
Defined.

(** A commit whose update of the ref the remote refuses. *)
Lemma ref_update_never_forced_witness :
  let refusal := Ok (mkResponse 422 "Update is not a fast forward" None) in
  let run :=
    commit_files Script play (machine ["README.md"] "") repo "feature-x"
      ["README.md"] "docs: update"
      (commit_exchange [sha_answer 201 "b2"] refusal) in
  let evs := snd (fst run) in
  let rq := update_ref_request repo "feature-x" (JStr "c1") in
  run = ([], evs, Ok false)
  /\ In (Call rq refusal) evs
  /\ is_ref_update rq
  /\ refused_update refusal
  /\ body rq = Some (JObj [("sha", JStr "c1"); ("force", JBool false)])
  /\ exists pre post,
       evs = pre ++ Call rq refusal :: post /\ no_ref_update pre /\ silent post.
Proof.
  cbv zeta.
  assert (Hin : In (Call (update_ref_request repo "feature-x" (JStr "c1"))
                      (Ok (mkResponse 422 "Update is not a fast forward" None)))
                  (snd (fst (commit_files Script play (machine ["README.md"] "")
                               repo "feature-x" ["README.md"] "docs: update"
                               (commit_exchange [sha_answer 201 "b2"]
                                  (Ok (mkResponse 422 "Update is not a fast forward"
                                         None))))))).
  { vm_compute. repeat (first [left; reflexivity | right]). }
  assert (Href : refused_update
                   (Ok (mkResponse 422 "Update is not a fast forward" None))).
  { cbn. discriminate. }
  split; [reflexivity |]. split; [exact Hin |]. split; [reflexivity |].
  split; [exact Href |]. split; [reflexivity |].
  destruct (ref_update_never_forced Script play (machine ["README.md"] "") repo
              "feature-x" ["README.md"] "docs: update"
              (commit_exchange [sha_answer 201 "b2"]
                 (Ok (mkResponse 422 "Update is not a fast forward" None)))
              [] _ (Ok false) eq_refl) as [_ Hrej].
  destruct (Hrej _ _ Hin eq_refl Href) as [_ Hsplit]. exact Hsplit.
Defined.

(** A workflow whose branch is created and whose commit step cannot
    read the new branch. *)
Lemma workflow_stops_after_failed_commit_witness :
  let script := [head_answer "object" "c0"; sha_answer 201 "c0"] in
  let m := machine ["README.md"] "" in
  let e1 := snd (fst (create_branch Script play repo "feature-x" "main" script)) in
  let e2 := snd (fst (commit_files Script play m repo "feature-x" ["README.md"]
                        "docs: update" [])) in
  create_branch Script play repo "feature-x" "main" script = ([], e1, Ok true)
  /\ commit_files Script play m repo "feature-x" ["README.md"] "docs: update" []
     = ([], e2, Ok false)
  /\ create_complete_pr_workflow Script play m (Some repo) "feature-x"
       ["README.md"] "docs: update" "Update docs" "" script
     = ([], e1 ++ e2,
        Ok [Lit (mark_fail ^^ " Failed to commit files to branch '"); Lit "feature-x";
            Lit "'"])
  /\ no_pr_creation repo (e1 ++ e2)
  /\ exists sha rsp,
       In (Call (mkRequest POST [Lit (base_url repo ^^ "/git/refs")]
                   (self_headers repo)
                   (Some (JObj [("ref", JStr ("refs/heads/" ^^ "feature-x"));
                                ("sha", sha)])))
             (Ok rsp)) e1
       /\ status_code rsp = 201.
Proof.
  cbv zeta. split; [reflexivity |]. split; [reflexivity |].
  apply (workflow_stops_after_failed_commit Script play (machine ["README.md"] "")
           repo "feature-x" ["README.md"] "docs: update" "Update docs" ""
           [head_answer "object" "c0"; sha_answer 201 "c0"] [] []);
    reflexivity.
Defined.

(** The commit tool on a commit of one file that goes through. *)
Lemma commit_tool_reports_supplied_count_witness :
  let m := machine ["README.md"] "" in
  let script := commit_exchange [sha_answer 201 "b2"] (answer 200 JNull) in
  let run := commit_files Script play m repo "feature-x" ["README.md"]
               "docs: update" script in
  run = ([], snd (fst run), Ok true)
  /\ commit_files_tool Script play m (Some repo) "feature-x" ["README.md"]
       "docs: update" script
     = ([], snd (fst run),
        Ok [Lit (mark_ok ^^ " Successfully committed "); Num 1;
            Lit " files to branch '"; Lit "feature-x"; Lit "'"]).
Proof.
  cbv zeta. split; [reflexivity |].
  apply (proj1 commit_tool_reports_supplied_count Script play
           (machine ["README.md"] "") repo "feature-x" ["README.md"]
           "docs: update"
           (commit_exchange [sha_answer 201 "b2"] (answer 200 JNull))).
  reflexivity.
Defined.

(** * Properties of the text-processing parts *)

(** ** The lines of the status listing *)

Lemma strip_keeps (line : string) (c : ascii) (r : string) :
  lstrip line = String c r -> nonempty (strip line) = true.
Proof.
  intros H. unfold strip. rewrite H.
  assert (Hc : is_space c = false).
  { revert H. induction line as [| a l IH]; cbn [lstrip]; [discriminate |].
    destruct (is_space a) eqn:Ea; [exact IH |].
    intros K. inversion K; subst. exact Ea. }
  cbn [rstrip]. destruct (rstrip r); [rewrite Hc |]; reflexivity.
Qed.

Lemma porcelain_line_read (code path_ : string) :
  single_status code ->
  nonempty (strip (porcelain_line code path_)) = true
  /\ is_changed (porcelain_line code path_) = true
  /\ drop_chars 3 (porcelain_line code path_) = path_.
Proof.
  unfold single_status. cbn [In].
  intros [<- | [<- | [<- | [<- | [<- | [<- | [<- | []]]]]]]];
    (split; [eapply strip_keeps; reflexivity | split; reflexivity]).
Qed.

(** X15.  The loop over the lines of the listing reads a line with one
    status correctly: from lines made of a one-status code (modified, added,
    deleted, in the index or in the working tree, or untracked), a blank and
    a path, it collects exactly the paths, in order and with repetitions. *)
Theorem one_status_lines_are_read (entries : list (string * string)) :
  (forall cp, In cp entries -> single_status (fst cp)) ->
  changed_files_of (map (fun cp => porcelain_line (fst cp) (snd cp)) entries)
  = map snd entries.
Proof.
  induction entries as [| [code path_] entries IH]; intros H; [reflexivity |].
  cbn [map fst snd changed_files_of].
  destruct (porcelain_line_read code path_ (H (code, path_) (or_introl eq_refl)))
    as (-> & -> & ->).
  rewrite IH; [reflexivity |]. intros cp Hin. apply H. right. exact Hin.
Qed.

(** X16.  A line whose two status letters are both set, and that is not
    an untracked path (a file staged and modified again, a rename with
    changes, a conflict), is left out of the changed files. *)
Theorem two_letter_status_is_left_out (a b : ascii) (tail : string)
    (rest : list string) :
  is_space a = false ->
  is_space b = false ->
  (a, b) <> ("?"%char, "?"%char) ->
  changed_files_of (String a (String b tail) :: rest) = changed_files_of rest.
Proof.
  intros Ha Hb Hq. cbn [changed_files_of].
  destruct (nonempty (strip (String a (String b tail)))); [| reflexivity].
  assert (Hc : is_changed (String a (String b tail)) = false).
  { assert (Hr : rstrip (String a (String b "")) = String a (String b ""))
      by (cbn [rstrip]; rewrite Hb; reflexivity).
    unfold is_changed. cbn [take_chars]. unfold strip. cbn [lstrip].
    rewrite Ha, Hr.
    cbn [String.eqb is_prefix].
    destruct (Ascii.eqb a "M"), (Ascii.eqb a "A"), (Ascii.eqb a "D"); cbn [orb].
    all: destruct (Ascii.eqb "?" a) eqn:Ea; [| reflexivity].
    all: destruct (Ascii.eqb "?" b) eqn:Eb; [| reflexivity].
    all: apply Ascii.eqb_eq in Ea, Eb; subst; exfalso; apply Hq; reflexivity. }
  rewrite Hc. reflexivity.
Qed.

(** ** The kind of a change *)

Lemma lower_append (a b : string) : lower (a ^^ b) = lower a ^^ lower b.
Proof.
  induction a as [| c a IH]; cbn [lower String.append]; [reflexivity |].
  rewrite IH. reflexivity.
Qed.

Lemma is_prefix_append (p y : string) : is_prefix p (p ^^ y) = true.
Proof.
  induction p as [| c p IH]; cbn [is_prefix String.append]; [reflexivity |].
  rewrite Ascii.eqb_refl. exact IH.
Qed.

Lemma contains_prefix (p s : string) : is_prefix p s = true -> contains p s = true.
Proof.
  destruct s as [| c s]; cbn [contains]; [auto |].
  intros ->. reflexivity.
Qed.

Lemma contains_append_l (p x s : string) :
  contains p s = true -> contains p (x ^^ s) = true.
Proof.
  intros H. induction x as [| c x IH]; cbn [String.append contains]; [exact H |].
  rewrite IH. apply orb_true_r.
Qed.

Lemma contains_middle (p x y : string) : contains p (x ^^ p ^^ y) = true.
Proof. apply contains_append_l, contains_prefix, is_prefix_append. Qed.

Lemma existsb_none {A : Type} (f : A -> bool) (l : list A) :
  (forall x, In x l -> f x = false) -> existsb f l = false.
Proof.
  induction l as [| a l IH]; cbn [existsb]; intros H; [reflexivity |].
  rewrite (H a (or_introl eq_refl)). apply IH. intros x Hx. apply H. right. exact Hx.
Qed.

(** X17.  The kind of a change is decided by substrings of the names,
    whatever the case of the letters and wherever the word stands.  One
    changed file whose name contains "lint" or "format" makes the proposal a
    linting fix, whatever the other files are; and when no name contains
    any of "lint", "format", "test", "doc" and "readme", the proposal is the
    generic fix. *)
Theorem change_kind_by_substring (changed_files : list string) (timestamp : string) :
  (forall a word b,
      In (a ^^ word ^^ b) changed_files ->
      lower word = "lint" \/ lower word = "format" ->
      infer_details changed_files timestamp
      = ("fix-linting-" ^^ timestamp, "fix(linting): auto-fix linting issues",
         "Auto-fix linting issues"))
  /\ ((forall f k, In f changed_files ->
         In k ["lint"; "format"; "test"; "doc"; "readme"] ->
         contains k (lower f) = false) ->
      infer_details changed_files timestamp
      = ("fix-changes-" ^^ timestamp, "fix: resolve issues", "Fix issues")).
Proof.
  split.
  - intros a word b Hin Hw. unfold infer_details.
    replace (existsb _ changed_files) with true; [reflexivity |].
    symmetry. apply existsb_exists. exists (a ^^ word ^^ b). split; [exact Hin |].
    rewrite !lower_append.
    destruct Hw as [-> | ->]; rewrite contains_middle;
      [reflexivity | apply orb_true_r].
  - intros Hno. unfold infer_details.
    rewrite !existsb_none; [reflexivity | | |]; intros f Hf;
      rewrite ?(Hno f "lint"), ?(Hno f "format"), ?(Hno f "test"),
        ?(Hno f "doc"), ?(Hno f "readme");
      try reflexivity; try exact Hf; cbn [In]; auto 10.
Qed.

(** ** The remote of the working copy *)

Lemma append_empty (s : string) : s ^^ "" = s.
Proof. induction s as [| c s IH]; cbn [String.append]; [| rewrite IH]; reflexivity. Qed.

Lemma split_on_clean (sep : ascii) (s : string) :
  Forall (fun part => has_char sep part = false) (split_on sep s).
Proof.
  induction s as [| c s IH]; cbn [split_on].
  - repeat constructor.
  - destruct (Ascii.eqb c sep) eqn:Ec.
    + constructor; [reflexivity | exact IH].
    + destruct (split_on sep s) as [| h t].
      * repeat constructor. cbn [has_char]. rewrite Ec. reflexivity.
      * inversion IH; subst. constructor; [| assumption].
        cbn [has_char]. rewrite Ec. assumption.
Qed.

Lemma split_on_part (sep : ascii) (x y : string) :
  has_char sep x = false -> split_on sep (x ^^ String sep y) = x :: split_on sep y.
Proof.
  induction x as [| c x IH]; cbn [String.append split_on has_char]; intros H.
  - rewrite Ascii.eqb_refl. reflexivity.
  - apply orb_false_iff in H. destruct H as [Hc Hx].
    rewrite Hc, (IH Hx). reflexivity.
Qed.

Lemma split_on_whole (sep : ascii) (x : string) :
  has_char sep x = false -> split_on sep x = [x].
Proof.
  induction x as [| c x IH]; cbn [split_on has_char]; intros H; [reflexivity |].
  apply orb_false_iff in H. destruct H as [Hc Hx].
  rewrite Hc, (IH Hx). reflexivity.
Qed.

(** X18.  [get_current_repo_info] returns both names or neither.  It
    returns names only when git exited with 0 and the remote mentions
    ["github.com"]; the names it returns contain no ["/"]. *)
Theorem repo_info_is_all_or_nothing (remote : res completed) :
  snd (get_current_repo_info remote) = (None, None)
  \/ exists result owner repo_,
       remote = Ok result /\ returncode result = 0
       /\ contains "github.com" (strip (stdout result)) = true
       /\ snd (get_current_repo_info remote) = (Some owner, Some repo_)
       /\ has_char "/" owner = false /\ has_char "/" repo_ = false.
Proof.
  destruct remote as [result | e]; [| left; reflexivity].
  unfold get_current_repo_info.
  destruct (returncode result =? 0) eqn:Hrc; [| left; reflexivity].
  destruct (contains "github.com" (strip (stdout result))) eqn:Hc;
    [| left; reflexivity].
  cbv zeta.
  pose proof (split_on_clean "/" (remove_dot_git (strip (stdout result)))) as Hclean.
  rewrite Forall_forall in Hclean.
  destruct (rev (split_on "/" (remove_dot_git (strip (stdout result)))))
    as [| repo_ [| owner t]] eqn:Hrev; [left; reflexivity | left; reflexivity |].
  right. exists result, owner, repo_.
  split; [reflexivity |]. split; [apply Z.eqb_eq; exact Hrc |].
  split; [exact Hc |].
  split; [reflexivity |].
  assert (Hin : forall p, In p (repo_ :: owner :: t) ->
                          has_char "/" p = false).
  { intros p Hp. apply Hclean. apply in_rev. rewrite Hrev. exact Hp. }
  split; apply Hin; cbn [In]; auto.
Qed.

Lemma rstrip_append (x y : string) :
  nonempty (rstrip y) = true ->
  rstrip (x ^^ y) = x ^^ rstrip y /\ nonempty (rstrip (x ^^ y)) = true.
Proof.
  intros Hy. induction x as [| c x [IH1 IH2]]; cbn [String.append].
  - split; [reflexivity | exact Hy].
  - cbn [rstrip]. rewrite IH1 in *.
    destruct (x ^^ rstrip y) as [| d t]; [discriminate IH2 |].
    split; reflexivity.
Qed.

Lemma append_assoc (x y z : string) : (x ^^ y) ^^ z = x ^^ (y ^^ z).
Proof.
  induction x as [| c x IH]; cbn [String.append]; [| rewrite IH]; reflexivity.
Qed.

Lemma remove_dot_git_clean (x y : string) :
  has_char "." x = false ->
  remove_dot_git_from 0 (x ^^ y) = x ^^ remove_dot_git_from 0 y.
Proof.
  induction x as [| c x IH]; cbn [String.append has_char]; intros H;
    [reflexivity |].
  apply orb_false_iff in H. destruct H as [Hc Hx].
  cbn [remove_dot_git_from is_prefix]. rewrite Ascii.eqb_sym, Hc.
  cbn [andb]. rewrite (IH Hx). reflexivity.
Qed.

(** The text of a listing of one remote: the URL and the end of line. *)
Lemma strip_remote_line (head tail : string) :
  lstrip (head ^^ tail ^^ ".git" ^^ nl) = head ^^ tail ^^ ".git" ^^ nl ->
  strip (head ^^ tail ^^ ".git" ^^ nl) = head ^^ tail ^^ ".git".
Proof.
  intros Hl. unfold strip. rewrite Hl.
  assert (H1 : nonempty (rstrip (".git" ^^ nl)) = true) by reflexivity.
  destruct (rstrip_append tail _ H1) as [E1 N1].
  destruct (rstrip_append head _ N1) as [E2 _].
  rewrite E2, E1. reflexivity.
Qed.

(** X19.  For an owner and a repository name without ["/"] and without
    ["."], the HTTPS remote [https://github.com/<owner>/<name>.git] is read
    back as the pair; the SSH remote [git@github.com:<owner>/<name>.git] is
    not: the owner comes back with the host in front. *)
Theorem remote_url_forms (owner name : string) :
  has_char "/" owner = false -> has_char "." owner = false ->
  has_char "/" name = false -> has_char "." name = false ->
  snd (get_current_repo_info
         (Ok (mkCompleted 0
                ("https://github.com/" ^^ (owner ^^ "/" ^^ name) ^^ ".git" ^^ nl) "")))
  = (Some owner, Some name)
  /\ snd (get_current_repo_info
            (Ok (mkCompleted 0
                   ("git@github.com:" ^^ (owner ^^ "/" ^^ name) ^^ ".git" ^^ nl) "")))
     = (Some ("git@github.com:" ^^ owner), Some name).
Proof.
  intros Hso Hdo Hsn Hdn.
  assert (Hrm : remove_dot_git_from 0 ((owner ^^ "/" ^^ name) ^^ ".git")
                = owner ^^ "/" ^^ name).
  { rewrite append_assoc.
    rewrite (remove_dot_git_clean owner _ Hdo).
    change (remove_dot_git_from 0 (("/" ^^ name) ^^ ".git"))
      with (String "/" (remove_dot_git_from 0 (name ^^ ".git"))).
    rewrite (remove_dot_git_clean name _ Hdn).
    change (remove_dot_git_from 0 ".git") with "".
    rewrite append_empty. reflexivity. }
  split.
  - unfold get_current_repo_info. cbn [returncode stdout]. cbn [Z.eqb].
    rewrite strip_remote_line by reflexivity.
    replace (contains "github.com"
               ("https://github.com/" ^^ (owner ^^ "/" ^^ name) ^^ ".git"))
      with true by (symmetry; exact (contains_middle "github.com" "https://" _)).
    cbv zeta. unfold remove_dot_git.
    change (remove_dot_git_from 0
              ("https://github.com/" ^^ (owner ^^ "/" ^^ name) ^^ ".git"))
      with ("https://github.com/"
            ^^ remove_dot_git_from 0 ((owner ^^ "/" ^^ name) ^^ ".git")).
    rewrite Hrm.
    change ("https://github.com/" ^^ owner ^^ "/" ^^ name)
      with ("https:" ^^ String "/" ("" ^^ String "/"
              ("github.com" ^^ String "/" (owner ^^ String "/" name)))).
    rewrite !split_on_part by (reflexivity || assumption).
    rewrite split_on_whole by assumption.
    reflexivity.
  - unfold get_current_repo_info. cbn [returncode stdout]. cbn [Z.eqb].
    rewrite strip_remote_line by reflexivity.
    replace (contains "github.com"
               ("git@github.com:" ^^ (owner ^^ "/" ^^ name) ^^ ".git"))
      with true by (symmetry; exact (contains_middle "github.com" "git@" _)).
    cbv zeta. unfold remove_dot_git.
    change (remove_dot_git_from 0
              ("git@github.com:" ^^ (owner ^^ "/" ^^ name) ^^ ".git"))
      with ("git@github.com:"
            ^^ remove_dot_git_from 0 ((owner ^^ "/" ^^ name) ^^ ".git")).
    rewrite Hrm.
    change ("git@github.com:" ^^ owner ^^ "/" ^^ name)
      with (("git@github.com:" ^^ owner) ^^ String "/" name).
    rewrite split_on_part by exact Hso.
    rewrite split_on_whole by assumption.
    reflexivity.
Qed.

(** ** The start-up *)

(** X20.  The integration is switched on exactly when [GITHUB_TOKEN] is
    set to a non-empty value.  When [GITHUB_ORG] and [GITHUB_REPO] are both
    set, they name the repository and the git remote plays no part.  When
    only one of them is set, it is ignored: the outcome is the one of an
    environment in which neither is set. *)
Theorem start_up_configuration (getenv : string -> option string)
    (remote : res completed) :
  (snd (initialize_github_integration getenv remote) = None
   <-> set_ (getenv "GITHUB_TOKEN") = false)
  /\ (set_ (getenv "GITHUB_TOKEN") = true ->
      set_ (getenv "GITHUB_ORG") = true ->
      set_ (getenv "GITHUB_REPO") = true ->
      snd (initialize_github_integration getenv remote)
      = Some (mkGitHubIntegration (text_of (getenv "GITHUB_TOKEN"))
                (text_of (getenv "GITHUB_ORG")) (text_of (getenv "GITHUB_REPO"))))
  /\ (forall getenv' : string -> option string,
        getenv' "GITHUB_TOKEN" = getenv "GITHUB_TOKEN" ->
        set_ (getenv "GITHUB_ORG") = false \/ set_ (getenv "GITHUB_REPO") = false ->
        set_ (getenv' "GITHUB_ORG") = false ->
        set_ (getenv' "GITHUB_REPO") = false ->
        snd (initialize_github_integration getenv remote)
        = snd (initialize_github_integration getenv' remote)).
Proof.
  split; [| split].
  - unfold initialize_github_integration.
    destruct (negb (set_ (getenv "GITHUB_ORG")) || negb (set_ (getenv "GITHUB_REPO")))%bool.
    + destruct (get_current_repo_info remote) as [lines [d_owner d_repo]].
      destruct (set_ d_owner && set_ d_repo)%bool;
        destruct (set_ (getenv "GITHUB_TOKEN")); cbn [snd];
        split; intros H; (reflexivity || discriminate H).
    + destruct (set_ (getenv "GITHUB_TOKEN")); cbn [snd];
        split; intros H; (reflexivity || discriminate H).
  - intros Ht Ho Hn. unfold initialize_github_integration.
    rewrite Ht, Ho, Hn. reflexivity.
  - intros getenv' Htok Hpart Ho' Hn'. unfold initialize_github_integration.
    rewrite Htok, Ho', Hn'.
    replace (negb (set_ (getenv "GITHUB_ORG")) || negb (set_ (getenv "GITHUB_REPO")))%bool
      with true
      by (destruct Hpart as [-> | ->]; [reflexivity | symmetry; apply orb_true_r]).
    cbn [negb orb].
    destruct (get_current_repo_info remote) as [lines [d_owner d_repo]].
    destruct (set_ d_owner && set_ d_repo)%bool;
      destruct (set_ (getenv "GITHUB_TOKEN")); reflexivity.
Qed.

(** ** The further properties at concrete runs *)

(** A branch created from [main]. *)
Lemma create_branch_points_at_base_head_witness :
  let script := [head_answer "object" "c0"; sha_answer 201 "c0"] in
  let run := create_branch Script play repo "feature-x" "main" script in
  let evs := snd (fst run) in
  let rq :=
    mkRequest POST [Lit (base_url repo ^^ "/git/refs")] (self_headers repo)
      (Some (JObj [("ref", JStr "refs/heads/feature-x"); ("sha", JStr "c0")])) in
  run = ([], evs, Ok true)
  /\ In (Call rq (sha_answer 201 "c0")) evs
  /\ meth rq = POST
  /\ exists rsp sha post,
       evs = Call (mkRequest GET [Lit (base_url repo ^^ "/git/ref/heads/" ^^ "main")]
                     (self_headers repo) None) (Ok rsp)
             :: Call rq (sha_answer 201 "c0") :: post
       /\ failed (Ok rsp) = false /\ head_sha rsp sha
       /\ rq = mkRequest POST [Lit (base_url repo ^^ "/git/refs")]
                 (self_headers repo)
                 (Some (JObj [("ref", JStr ("refs/heads/" ^^ "feature-x"));
                              ("sha", sha)]))
       /\ silent post.
Proof.
  cbv zeta.
  assert (Hin : In (Call (create_ref_request repo "feature-x" (JStr "c0"))
                      (sha_answer 201 "c0"))
                  (snd (fst (create_branch Script play repo "feature-x" "main"
                               [head_answer "object" "c0"; sha_answer 201 "c0"])))).
  { vm_compute. repeat (first [left; reflexivity | right]). }
  split; [reflexivity |]. split; [exact Hin |]. split; [reflexivity |].
  destruct (create_branch_points_at_base_head Script play repo "feature-x" "main"
              [head_answer "object" "c0"; sha_answer 201 "c0"] [] _ (Ok true)
              eq_refl) as [Hpost _].
  exact (Hpost _ _ Hin eq_refl).
Defined.

(** A pull request that is created. *)
Lemma create_pull_request_one_call_witness :
  let run := create_pull_request Script play repo "feature-x" "Update docs" ""
               [pr_answer] in
  run = ([], snd (fst run), snd run)
  /\ exists rq out,
       rq = mkRequest POST [Lit (base_url repo ^^ "/pulls")] (self_headers repo)
              (Some (JObj [("title", JStr "Update docs"); ("body", JStr "");
                           ("head", JStr "feature-x"); ("base", JStr "main")]))
       /\ play [pr_answer] rq = ([], out)
       /\ exchanges (snd (fst run)) = [Call rq out]
       /\ snd run = Ok (pr_result out).
Proof.
  cbv zeta. split; [reflexivity |].
  apply (create_pull_request_one_call Script play repo "feature-x" "Update docs" ""
           [pr_answer] []).
  reflexivity.
Defined.

(** The listing of the branches when the remote cannot be reached. *)
Lemma tools_return_a_message_witness :
  (forall b t d, ListBranches <> CreatePullRequest b t d)
  /\ exists w' evs msg,
       run_tool Script play (machine [] "") (Some repo) ListBranches []
       = (w', evs, Ok msg).
Proof.
  assert (H : forall b t d : string, ListBranches <> CreatePullRequest b t d)
    by (intros b t d K; discriminate K).
  split; [exact H |].
  exact (tools_return_a_message Script play (machine [] "") (Some repo)
           ListBranches [] H).
Defined.

(** The pull-request tool on a 201 whose body has no ["number"]. *)
Lemma create_pull_request_tool_raises_witness :
  let v := JObj [("message", JStr "queued")] in
  let rsp := mkResponse 201 "" (Some v) in
  play [Ok rsp] (pr_request repo "feature-x" "Update docs" "") = ([], Ok rsp)
  /\ truthy v = true
  /\ subscript v "number" = Raised (KeyError "number")
  /\ create_pull_request_tool Script play (Some repo) "feature-x" "Update docs" ""
       [Ok rsp]
     = ([], [Call (pr_request repo "feature-x" "Update docs" "") (Ok rsp)],
        Raised (KeyError "number")).
Proof.
  cbv zeta. split; [reflexivity |]. split; [reflexivity |]. split; [reflexivity |].
  apply (create_pull_request_tool_raises Script play repo "feature-x" "Update docs" ""
           [Ok (mkResponse 201 "" (Some (JObj [("message", JStr "queued")])))] []
           (mkResponse 201 "" (Some (JObj [("message", JStr "queued")])))
           (JObj [("message", JStr "queued")]) (KeyError "number"));
    reflexivity.
Defined.

(** A workflow that goes through. *)
Lemma workflow_pr_only_after_commit_witness :
  let m := machine ["README.md"] "" in
  let run :=
    create_complete_pr_workflow Script play m (Some repo) "feature-x" ["README.md"]
      "docs: update" "Update docs" "" (workflow_exchange pr_answer) in
  let rq := pr_request repo "feature-x" "Update docs" "" in
  In (Call rq pr_answer) (snd (fst run))
  /\ is_pr_creation repo rq
  /\ exists w1 e1 w2 e2 post,
       create_branch Script play repo "feature-x" "main" (workflow_exchange pr_answer)
       = (w1, e1, Ok true)
       /\ commit_files Script play m repo "feature-x" ["README.md"] "docs: update" w1
          = (w2, e2, Ok true)
       /\ snd (fst run) = e1 ++ e2 ++ Call rq pr_answer :: post
       /\ rq = pr_request repo "feature-x" "Update docs" ""
       /\ silent post.
Proof.
  cbv zeta.
  assert (Hin : In (Call (pr_request repo "feature-x" "Update docs" "") pr_answer)
                  (snd (fst (create_complete_pr_workflow Script play
                               (machine ["README.md"] "") (Some repo) "feature-x"
                               ["README.md"] "docs: update" "Update docs" ""
                               (workflow_exchange pr_answer))))).
  { vm_compute. repeat (first [left; reflexivity | right]). }
  assert (Hp : is_pr_creation repo (pr_request repo "feature-x" "Update docs" ""))
    by (split; reflexivity).
  split; [exact Hin |]. split; [exact Hp |].
  exact (workflow_pr_only_after_commit Script play (machine ["README.md"] "") repo
           "feature-x" ["README.md"] "docs: update" "Update docs" ""
           (workflow_exchange pr_answer) _ _ _ eq_refl _ _ Hin Hp).
Defined.

(** A workflow whose branch cannot be created, and one whose pull request
    the remote refuses after the commit. *)
Lemma workflow_stops_at_first_failure_witness :
  let m := machine ["README.md"] "" in
  let refusal := Ok (mkResponse 422 "Validation Failed" None) in
  let script := workflow_exchange refusal in
  let b0 := create_branch Script play repo "feature-x" "main" [] in
  let b := create_branch Script play repo "feature-x" "main" script in
  let c := commit_files Script play m repo "feature-x" ["README.md"] "docs: update"
             (fst (fst b)) in
  let p := create_pull_request Script play repo "feature-x" "Update docs" ""
             (fst (fst c)) in
  b0 = ([], snd (fst b0), Ok false)
  /\ create_complete_pr_workflow Script play m (Some repo) "feature-x" ["README.md"]
       "docs: update" "Update docs" "" []
     = ([], snd (fst b0),
        Ok [Lit (mark_fail ^^ " Failed to create branch '"); Lit "feature-x"; Lit "'"])
  /\ b = (fst (fst b), snd (fst b), Ok true)
  /\ c = (fst (fst c), snd (fst c), Ok true)
  /\ p = ([], snd (fst p), Ok JNull)
  /\ create_complete_pr_workflow Script play m (Some repo) "feature-x" ["README.md"]
       "docs: update" "Update docs" "" script
     = ([], snd (fst b) ++ snd (fst c) ++ snd (fst p),
        Ok [Lit (mark_fail ^^ " Failed to create PR from branch '"); Lit "feature-x";
            Lit "'"]).
Proof.
  cbv zeta. split; [reflexivity |].
  split.
  { apply (proj1 (workflow_stops_at_first_failure Script play
                    (machine ["README.md"] "") repo "feature-x" ["README.md"]
                    "docs: update" "Update docs" "" [])).
    reflexivity. }
  split; [reflexivity |]. split; [reflexivity |]. split; [reflexivity |].
  eapply (proj2 (workflow_stops_at_first_failure Script play
                   (machine ["README.md"] "") repo "feature-x" ["README.md"]
                   "docs: update" "Update docs" ""
                   (workflow_exchange (Ok (mkResponse 422 "Validation Failed" None)))));
    reflexivity.
Defined.

(** The tree builder on one readable file. *)
Lemma tree_builder_returns_confirmed_tree_witness :
  let m := machine ["README.md"] "" in
  let script := [refused; answer 200 base_tree; sha_answer 201 "b2";
                 sha_answer 201 "t1"] in
  let run := _create_tree_with_changes Script play m repo (JStr "t0") ["README.md"]
               script in
  let evs := snd (fst run) in
  run = ([], evs, Ok (JStr "t1"))
  /\ exists tree_entries rsp,
       In (Call (tree_request repo tree_entries) (Ok rsp)) evs
       /\ status_code rsp = 201 /\ body_sha rsp (JStr "t1").
Proof.
  cbv zeta. split; [reflexivity |].
  destruct (tree_builder_returns_confirmed_tree Script play (machine ["README.md"] "")
              repo (JStr "t0") ["README.md"]
              [refused; answer 200 base_tree; sha_answer 201 "b2"; sha_answer 201 "t1"]
              [] _ (Ok (JStr "t1")) eq_refl) as (v & Hv & Htree & _).
  inversion Hv; subst v. exact (Htree eq_refl).
Defined.

(** The commit of a run that goes through. *)
Lemma commit_has_head_as_parent_witness :
  let m := machine ["README.md"] "" in
  let script := commit_exchange [sha_answer 201 "b2"] (answer 200 JNull) in
  let run := commit_files Script play m repo "feature-x" ["README.md"] "docs: update"
               script in
  let evs := snd (fst run) in
  let rq := commit_request repo "docs: update" (JStr "t1") (JStr "c0") in
  In (Call rq (sha_answer 201 "c1")) evs
  /\ is_commit_creation repo rq
  /\ exists hrsp head tree_entries trsp tree,
       In (Call (branch_head_request repo "feature-x") (Ok hrsp)) evs
       /\ head_sha hrsp head
       /\ In (Call (tree_request repo tree_entries) (Ok trsp)) evs
       /\ status_code trsp = 201 /\ body_sha trsp tree
       /\ rq = commit_request repo "docs: update" tree head
       /\ body rq = Some (JObj [("message", JStr "docs: update"); ("tree", tree);
                                ("parents", JArr [head])]).
Proof.
  cbv zeta.
  assert (Hin : In (Call (commit_request repo "docs: update" (JStr "t1") (JStr "c0"))
                      (sha_answer 201 "c1"))
                  (snd (fst (commit_files Script play (machine ["README.md"] "") repo
                               "feature-x" ["README.md"] "docs: update"
                               (commit_exchange [sha_answer 201 "b2"]
                                  (answer 200 JNull)))))).
  { vm_compute. repeat (first [left; reflexivity | right]). }
  assert (Hp : is_commit_creation repo
                 (commit_request repo "docs: update" (JStr "t1") (JStr "c0")))
    by (split; reflexivity).
  split; [exact Hin |]. split; [exact Hp |].
  exact (commit_has_head_as_parent Script play (machine ["README.md"] "") repo
           "feature-x" ["README.md"] "docs: update"
           (commit_exchange [sha_answer 201 "b2"] (answer 200 JNull))
           _ _ _ eq_refl _ _ Hin Hp).
Defined.

(** The tree submitted when the one readable file is refused as a blob and
    the other path cannot be read. *)
Lemma no_blob_leaves_base_entries_witness :
  let m := machine ["README.md"] "" in
  let script := [refused; answer 200 base_tree;
                 Ok (mkResponse 500 "Server Error" None); sha_answer 201 "t1"] in
  let run := _create_tree_with_changes Script play m repo (JStr "t0")
               ["README.md"; "gone.txt"] script in
  let evs := snd (fst run) in
  let entry p s := mkEntry (JStr p) (JStr "100644") (JStr "blob") (JStr s) in
  let rq := tree_request repo [entry "README.md" "b0"; entry "src/app.py" "b1"] in
  run = ([], evs, Ok (JStr "t1"))
  /\ (forall brq rsp, In (Call brq (Ok rsp)) evs ->
        url brq = [Lit (base_url repo ^^ "/git/blobs")] -> status_code rsp <> 201)
  /\ In (Call rq (sha_answer 201 "t1")) evs
  /\ is_tree_creation repo rq
  /\ exists brsp tree_data base,
       In (Call (base_tree_request repo (JStr "t0")) (Ok brsp)) evs
       /\ body_json brsp = Some tree_data
       /\ carried_over tree_data = Ok base
       /\ body rq
          = Some (JObj [("tree",
                         JArr (map (fun e => JObj [("path", path e); ("mode", mode e);
                                                   ("type", type_ e); ("sha", sha e)])
                                 base))]).
Proof.
  cbv zeta.
  set (script := [refused; answer 200 base_tree;
                  Ok (mkResponse 500 "Server Error" None); sha_answer 201 "t1"]).
  set (rq := tree_request repo
               [mkEntry (JStr "README.md") (JStr "100644") (JStr "blob") (JStr "b0");
                mkEntry (JStr "src/app.py") (JStr "100644") (JStr "blob") (JStr "b1")]).
  assert (Hno : forall brq rsp,
             In (Call brq (Ok rsp))
               (snd (fst (_create_tree_with_changes Script play
                            (machine ["README.md"] "") repo (JStr "t0")
                            ["README.md"; "gone.txt"] script))) ->
             url brq = [Lit (base_url repo ^^ "/git/blobs")] ->
             status_code rsp <> 201).
  { intros brq rsp Hin Hurl. vm_compute in Hin.
    repeat (destruct Hin as [Hin | Hin];
            [try discriminate Hin; inversion Hin; subst;
             first [discriminate Hurl | cbn; discriminate] |]).
    destruct Hin. }
  assert (Hin : In (Call rq (sha_answer 201 "t1"))
                  (snd (fst (_create_tree_with_changes Script play
                               (machine ["README.md"] "") repo (JStr "t0")
                               ["README.md"; "gone.txt"] script)))).
  { vm_compute. repeat (first [left; reflexivity | right]). }
  assert (Hp : is_tree_creation repo rq) by (split; reflexivity).
  split; [reflexivity |]. split; [exact Hno |]. split; [exact Hin |].
  split; [exact Hp |].
  exact (no_blob_leaves_base_entries Script play (machine ["README.md"] "") repo
           (JStr "t0") ["README.md"; "gone.txt"] script _ _ _ eq_refl Hno
           _ _ Hin Hp).
Defined.

(** The project directory when the service names one. *)
Lemma project_directory_falls_back_to_cwd_witness :
  let m := machine [] "" in
  let run := project_directory Script play m [config_answer "/srv/project"] in
  run = ([], snd (fst run), Ok (JStr "/srv/project"))
  /\ exists out dir,
       play [config_answer "/srv/project"] config_request = ([], out)
       /\ exchanges (snd (fst run)) = [Call config_request out]
       /\ Ok (JStr "/srv/project") = Ok dir
       /\ (dir = JStr (getcwd m)
           \/ (truthy dir = true
               /\ exists rsp data project_info,
                    out = Ok rsp /\ status_code rsp = 200
                    /\ body_json rsp = Some data
                    /\ dict_get data "project_info" (JObj []) = Ok project_info
                    /\ subscript project_info "directory" = Ok dir)).
Proof.
  cbv zeta. split; [reflexivity |].
  apply (project_directory_falls_back_to_cwd Script play (machine [] "")
           [config_answer "/srv/project"] []).
  reflexivity.
Defined.

(** The repository status of a repository without pull requests. *)
Lemma reading_tools_only_read_witness :
  let m := machine [] "" in
  let script :=
    [answer 200 (JObj [("full_name", JStr "octo/demo"); ("default_branch", JStr "main");
                       ("stargazers_count", JNum 3); ("forks_count", JNum 1);
                       ("open_issues_count", JNum 0)]);
     answer 200 (JArr [])] in
  let run := run_tool Script play m (Some repo) GetRepositoryStatus script in
  run = ([], snd (fst run), snd run)
  /\ List.length (exchanges (snd (fst run))) = 2%nat
  /\ forall rq out, In (Call rq out) (snd (fst run)) ->
       (GetRepositoryStatus = ListBranches \/ GetRepositoryStatus = GetRepositoryStatus ->
        meth rq = GET)
       /\ (GetRepositoryStatus = GetCurrentChanges -> rq = config_request)
       /\ (forall files, GetRepositoryStatus <> ValidateFilesExist files).
Proof.
  cbv zeta. split; [reflexivity |]. split; [reflexivity |].
  eapply (reading_tools_only_read Script play (machine [] "") (Some repo)
           GetRepositoryStatus
           [answer 200 (JObj [("full_name", JStr "octo/demo");
                              ("default_branch", JStr "main");
                              ("stargazers_count", JNum 3); ("forks_count", JNum 1);
                              ("open_issues_count", JNum 0)]);
            answer 200 (JArr [])] []).
  reflexivity.
Defined.

(** The repository status of a repository that does not exist. *)
Lemma repository_status_reports_failures_witness :
  let rsp := mkResponse 404 "Not Found" None in
  let run := get_repository_status Script play (Some repo) [Ok rsp] in
  let rq := mkRequest GET [Lit (base_url repo)] (self_headers repo) None in
  In (Call rq (Ok rsp)) (snd (fst run))
  /\ failed (Ok rsp) = true
  /\ snd run
     = Ok [Lit (mark_fail ^^ " Repository not found. Please check if the repository exists and you have access to it.")].
Proof.
  cbv zeta.
  assert (Hin : In (Call (mkRequest GET [Lit (base_url repo)] (self_headers repo) None)
                      (Ok (mkResponse 404 "Not Found" None)))
                  (snd (fst (get_repository_status Script play (Some repo)
                               [Ok (mkResponse 404 "Not Found" None)])))).
  { vm_compute. repeat (first [left; reflexivity | right]). }
  split; [exact Hin |]. split; [reflexivity |].
  exact (proj1 (repository_status_reports_failures Script play repo
                  [Ok (mkResponse 404 "Not Found" None)] _ _ _ eq_refl)
           _ _ Hin eq_refl).
Defined.

(** The change detector on a listing of an untracked and a staged file. *)
Lemma change_detector_outcomes_witness :
  let listing := "?? new.txt" ^^ nl ^^ "A  tests/test_app.py" ^^ nl in
  let m := machine [] listing in
  let pd := project_directory_logged Script play m [] in
  pd = ([], snd (fst pd), Ok (JStr "/work"))
  /\ git_status m (JStr "/work") = Ok (mkCompleted 0 listing "")
  /\ snd (get_current_changes Script play m (Some repo) [])
     = Ok (changes_report ["new.txt"; "tests/test_app.py"] (now_stamp m)).
Proof.
  cbv zeta. split; [reflexivity |]. split; [reflexivity |].
  destruct (change_detector_outcomes Script play
              (machine [] ("?? new.txt" ^^ nl ^^ "A  tests/test_app.py" ^^ nl))
              repo [] [] _ (JStr "/work") eq_refl) as (_ & _ & Hok).
  exact (Hok _ eq_refl eq_refl).
Defined.

(** A listing of three paths with one status each. *)
Lemma one_status_lines_are_read_witness :
  let entries := [(" M", "a.py"); ("??", "new.txt"); ("D ", "old.py")] in
  (forall cp, In cp entries -> single_status (fst cp))
  /\ changed_files_of [" M a.py"; "?? new.txt"; "D  old.py"]
     = ["a.py"; "new.txt"; "old.py"].
Proof.
  cbv zeta.
  assert (H : forall cp : string * string,
             In cp [(" M", "a.py"); ("??", "new.txt"); ("D ", "old.py")] ->
             single_status (fst cp)).
  { intros cp [<- | [<- | [<- | []]]]; unfold single_status; cbn [fst In]; auto 10. }
  split; [exact H |].
  exact (one_status_lines_are_read
           [(" M", "a.py"); ("??", "new.txt"); ("D ", "old.py")] H).
Defined.

(** A file that was staged and then modified again. *)
Lemma two_letter_status_is_left_out_witness :
  is_space "M" = false
  /\ ("M"%char, "M"%char) <> ("?"%char, "?"%char)
  /\ changed_files_of ["MM a.py"; "?? new.txt"] = changed_files_of ["?? new.txt"].
Proof.
  assert (Hq : ("M"%char, "M"%char) <> ("?"%char, "?"%char))
    by (intros K; discriminate K).
  split; [reflexivity |]. split; [exact Hq |].
  exact (two_letter_status_is_left_out "M" "M" " a.py" ["?? new.txt"]
           eq_refl eq_refl Hq).
Defined.

(** A linting configuration beside a test, and a file of no known kind. *)
Lemma change_kind_by_substring_witness :
  let stamp := "20250101-120000" in
  In ("config/ES" ^^ "Lint" ^^ ".json") ["tests/test_app.py"; "config/ESLint.json"]
  /\ lower "Lint" = "lint"
  /\ infer_details ["tests/test_app.py"; "config/ESLint.json"] stamp
     = ("fix-linting-" ^^ stamp, "fix(linting): auto-fix linting issues",
        "Auto-fix linting issues")
  /\ (forall f k, In f ["main.py"] ->
        In k ["lint"; "format"; "test"; "doc"; "readme"] ->
        contains k (lower f) = false)
  /\ infer_details ["main.py"] stamp
     = ("fix-changes-" ^^ stamp, "fix: resolve issues", "Fix issues").
Proof.
  cbv zeta.
  assert (Hin : In ("config/ES" ^^ "Lint" ^^ ".json")
                  ["tests/test_app.py"; "config/ESLint.json"])
    by (right; left; reflexivity).
  assert (Hno : forall f k : string, In f ["main.py"] ->
                  In k ["lint"; "format"; "test"; "doc"; "readme"] ->
                  contains k (lower f) = false).
  { intros f k [<- | []] [<- | [<- | [<- | [<- | [<- | []]]]]]; reflexivity. }
  split; [exact Hin |]. split; [reflexivity |].
  split.
  { exact (proj1 (change_kind_by_substring
                    ["tests/test_app.py"; "config/ESLint.json"] "20250101-120000")
             "config/ES" "Lint" ".json" Hin (or_introl eq_refl)). }
  split; [exact Hno |].
  exact (proj2 (change_kind_by_substring ["main.py"] "20250101-120000") Hno).
Defined.

(** The remote of a clone of [octo/demo], over HTTPS and over SSH. *)
Lemma remote_url_forms_witness :
  has_char "/" "octo" = false /\ has_char "." "octo" = false
  /\ has_char "/" "demo" = false /\ has_char "." "demo" = false
  /\ snd (get_current_repo_info
            (Ok (mkCompleted 0 ("https://github.com/octo/demo.git" ^^ nl) "")))
     = (Some "octo", Some "demo")
  /\ snd (get_current_repo_info
            (Ok (mkCompleted 0 ("git@github.com:octo/demo.git" ^^ nl) "")))
     = (Some "git@github.com:octo", Some "demo").
Proof.
  split; [reflexivity |]. split; [reflexivity |].
  split; [reflexivity |]. split; [reflexivity |].
  exact (remote_url_forms "octo" "demo" eq_refl eq_refl eq_refl eq_refl).
Defined.

(** A process with a token and both names; and one with a token and the
    organisation alone, in a clone of [acme/tool]. *)
Lemma start_up_configuration_witness :
  let clone := Ok (mkCompleted 0 ("https://github.com/acme/tool.git" ^^ nl) "") in
  let full := environ [("GITHUB_TOKEN", "t0k3n"); ("GITHUB_ORG", "octo");
                       ("GITHUB_REPO", "demo")] in
  let half := environ [("GITHUB_TOKEN", "t0k3n"); ("GITHUB_ORG", "octo")] in
  let bare := environ [("GITHUB_TOKEN", "t0k3n")] in
  snd (initialize_github_integration full clone) = Some repo
  /\ set_ (half "GITHUB_REPO") = false
  /\ snd (initialize_github_integration half clone)
     = snd (initialize_github_integration bare clone)
  /\ snd (initialize_github_integration bare clone)
     = Some (mkGitHubIntegration "t0k3n" "acme" "tool").
Proof.
  cbv zeta. split; [| split; [reflexivity | split; [| reflexivity]]].
  - exact (proj1 (proj2 (start_up_configuration
                           (environ [("GITHUB_TOKEN", "t0k3n"); ("GITHUB_ORG", "octo");
                                     ("GITHUB_REPO", "demo")])
                           (Ok (mkCompleted 0
                                  ("https://github.com/acme/tool.git" ^^ nl) ""))))
             eq_refl eq_refl eq_refl).
  - exact (proj2 (proj2 (start_up_configuration
                           (environ [("GITHUB_TOKEN", "t0k3n"); ("GITHUB_ORG", "octo")])
                           (Ok (mkCompleted 0
                                  ("https://github.com/acme/tool.git" ^^ nl) ""))))
             (environ [("GITHUB_TOKEN", "t0k3n")]) eq_refl (or_intror eq_refl)
             eq_refl eq_refl).
Defined.
